(** * TimesNet (bm/models/timesnet.py): a shallow embedding

    Tensors are modelled as a shape together with an element function over
    multi-indices, scalars as an abstract numeric backend, Python exceptions
    as an error result, and the mutable [self.delta] / [inputs] dictionary as
    explicit state. *)

From Stdlib Require Import String Ascii.
From Stdlib Require Import List Arith ZArith Lia Bool QArith.
Import ListNotations.
Open Scope nat_scope.
Set Warnings "-abstract-large-number".

(** ** Exceptions and the error monad *)

Inductive exn : Type :=
| RuntimeError
| KeyError
| IndexError
| ValueError
| AssertionError
| StopIteration
| ZeroDivisionError
| UnboundLocalError.

Inductive result (A : Type) : Type :=
| Ok (a : A)
| Raise (e : exn).
Arguments Ok {A} a.
Arguments Raise {A} e.

Definition bind {A B : Type} (m : result A) (f : A -> result B) : result B :=
  match m with
  | Ok a => f a
  | Raise e => Raise e
  end.

Notation "x <- m ;; k" := (bind m (fun x => k))
  (at level 61, m at next level, right associativity).
Notation "' p <- m ;; k" := (bind m (fun p => k))
  (at level 61, p pattern, m at next level, right associativity).

Definition guard (b : bool) (e : exn) : result unit :=
  if b then Ok tt else Raise e.

Definition is_ok {A : Type} (m : result A) : bool :=
  match m with Ok _ => true | Raise _ => false end.

(** ** State: the error monad over a mutable store *)

Definition State (S A : Type) : Type := S -> result A * S.

Definition ret {S A : Type} (a : A) : State S A := fun s => (Ok a, s).

Definition bindS {S A B : Type} (m : State S A) (f : A -> State S B)
  : State S B :=
  fun s => match m s with
           | (Ok a, s') => f a s'
           | (Raise e, s') => (Raise e, s')
           end.

Definition lift {S A : Type} (m : result A) : State S A := fun s => (m, s).
Definition get {S : Type} : State S S := fun s => (Ok s, s).
Definition put {S : Type} (s : S) : State S unit := fun _ => (Ok tt, s).

Notation "x <~ m ;; k" := (bindS m (fun x => k))
  (at level 61, m at next level, right associativity).

(** ** The numeric backend

    One scalar type with the floating-point primitives the module calls, and
    the one choice torch leaves open: [tie_first i j] tells whether
    [torch.topk] takes index [i] before index [j] when their values are
    equal.  Nothing is assumed about them: every statement below holds for
    every backend, so for every way of ordering equal values. *)

Class Scalar (R : Type) : Type := {
  zero : R;
  one : R;
  add : R -> R -> R;
  sub : R -> R -> R;
  mul : R -> R -> R;
  div : R -> R -> R;
  of_Z : Z -> R;
  sqrt : R -> R;
  exp : R -> R;
  ln : R -> R;
  sin : R -> R;
  cos : R -> R;
  erf : R -> R;
  pi : R;
  leb : R -> R -> bool;
  to_long : R -> Z;
  tie_first : nat -> nat -> bool
}.

Definition of_nat {R : Type} `{Scalar R} (n : nat) : R := of_Z (Z.of_nat n).

(** ** Shapes and indices *)

Definition numel (s : list nat) : nat := fold_right Nat.mul 1 s.

Fixpoint list_eqb (a b : list nat) : bool :=
  match a, b with
  | [], [] => true
  | x :: a', y :: b' => (x =? y) && list_eqb a' b'
  | _, _ => false
  end.

(** Row-major position of a multi-index in a shape, and its inverse. *)
Fixpoint ravel (s idx : list nat) : nat :=
  match s, idx with
  | d :: s', i :: idx' => i * numel s' + ravel s' idx'
  | _, _ => 0
  end.

Fixpoint unravel (s : list nat) (n : nat) : list nat :=
  match s with
  | [] => []
  | d :: s' => (n / numel s') :: unravel s' (n mod numel s')
  end.

Definition set_nth (n : nat) (v : nat) (l : list nat) : list nat :=
  firstn n l ++ v :: skipn (S n) l.

(** Python's [d[-1]] on a shape. *)
Definition last_dim (s : list nat) : result nat :=
  match rev s with
  | d :: _ => Ok d
  | [] => Raise IndexError
  end.

Section Model.

Context {R : Type} `{Scalar R}.

Record Tensor : Type := mkTensor {
  shape : list nat;
  elem : list nat -> R
}.

Definition sum_range (n : nat) (f : nat -> R) : R :=
  fold_right (fun i acc => add (f i) acc) zero (seq 0 n).

Definition mean_range (n : nat) (f : nat -> R) : R :=
  div (sum_range n f) (of_nat n).

(** [torch.zeros(shape)] *)
Definition zeros (s : list nat) : Tensor := mkTensor s (fun _ => zero).

(** Elementwise map, as [F.gelu(x)], [abs(x)] ... *)
Definition tmap (f : R -> R) (x : Tensor) : Tensor :=
  mkTensor (shape x) (fun idx => f (elem x idx)).

(** *** Broadcasting binary operations *)

Fixpoint broadcast_rev (a b : list nat) : result (list nat) :=
  match a, b with
  | [], _ => Ok b
  | _, [] => Ok a
  | x :: a', y :: b' =>
      r <- broadcast_rev a' b' ;;
      if x =? y then Ok (x :: r)
      else if x =? 1 then Ok (y :: r)
      else if y =? 1 then Ok (x :: r)
      else Raise RuntimeError
  end.

Definition broadcast_shapes (a b : list nat) : result (list nat) :=
  r <- broadcast_rev (rev a) (rev b) ;; Ok (rev r).

(** The index a tensor of shape [s] is read at, when the broadcast result is
    read at [idx]: leading axes are dropped and axes of size one read 0. *)
Definition bidx (s idx : list nat) : list nat :=
  map (fun '(d, i) => if d =? 1 then 0 else i)
      (combine s (skipn (length idx - length s) idx)).

Definition binop (f : R -> R -> R) (x y : Tensor) : result Tensor :=
  s <- broadcast_shapes (shape x) (shape y) ;;
  Ok (mkTensor s (fun idx => f (elem x (bidx (shape x) idx))
                               (elem y (bidx (shape y) idx)))).

Definition tadd := binop add.
Definition tmul := binop mul.

(** [x + 0.] with a Python float on the right. *)
Definition tadd_scalar (x : Tensor) (c : R) : Tensor :=
  tmap (fun v => add v c) x.

(** *** Views *)

(** [x.permute(p0, p1, ...)]: axis [j] of the result is axis [perm[j]] of [x]. *)
Definition is_perm (n : nat) (perm : list nat) : bool :=
  (length perm =? n) &&
  forallb (fun i => existsb (Nat.eqb i) perm) (seq 0 n).

Definition permute (perm : list nat) (x : Tensor) : result Tensor :=
  _ <- guard (is_perm (length (shape x)) perm) RuntimeError ;;
  Ok (mkTensor (map (fun a => nth a (shape x) 0) perm)
        (fun idx =>
           elem x (map (fun a =>
                          nth (fold_right (fun '(j, p) acc =>
                                             if p =? a then j else acc)
                                          0 (combine (seq 0 (length perm)) perm))
                              idx 0)
                       (seq 0 (length perm))))).

(** [x.transpose(1, 2)] on a rank-3 tensor. *)
Definition transpose12 (x : Tensor) : result Tensor :=
  permute [0; 2; 1] x.

(** [x.reshape(d0, d1, ...)] with every dimension given. *)
Definition reshape (s : list nat) (x : Tensor) : result Tensor :=
  _ <- guard (numel s =? numel (shape x)) RuntimeError ;;
  Ok (mkTensor s (fun idx => elem x (unravel (shape x) (ravel s idx)))).

(** [x.reshape(b, -1, n)]: the middle dimension is inferred. *)
Definition reshape_infer (b n : nat) (x : Tensor) : result Tensor :=
  _ <- guard (negb (b * n =? 0)) RuntimeError ;;
  _ <- guard (numel (shape x) mod (b * n) =? 0) RuntimeError ;;
  reshape [b; numel (shape x) / (b * n); n] x.

(** [x[..., :n, ...]] on axis [ax]; Python slicing clips at the size. *)
Definition slice_to (ax n : nat) (x : Tensor) : result Tensor :=
  _ <- guard (ax <? length (shape x)) IndexError ;;
  Ok (mkTensor (set_nth ax (Nat.min n (nth ax (shape x) 0)) (shape x)) (elem x)).

(** [x[0]] *)
Definition index0 (x : Tensor) : result Tensor :=
  match shape x with
  | [] => Raise IndexError
  | d :: s => _ <- guard (0 <? d) IndexError ;;
              Ok (mkTensor s (fun idx => elem x (0 :: idx)))
  end.

(** [torch.cat([x, y], dim=ax)] *)
Definition cat (ax : nat) (x y : Tensor) : result Tensor :=
  _ <- guard (ax <? length (shape x)) IndexError ;;
  _ <- guard (list_eqb (set_nth ax 0 (shape x)) (set_nth ax 0 (shape y)))
             RuntimeError ;;
  let dx := nth ax (shape x) 0 in
  Ok (mkTensor (set_nth ax (dx + nth ax (shape y) 0) (shape x))
        (fun idx => if nth ax idx 0 <? dx then elem x idx
                    else elem y (set_nth ax (nth ax idx 0 - dx) idx))).

(** [F.pad(x, (0, n))]: [n] zeros appended on the last axis. *)
Definition pad_right (n : nat) (x : Tensor) : result Tensor :=
  match rev (shape x) with
  | [] => Raise RuntimeError
  | d :: s' =>
      Ok (mkTensor (rev (d + n :: s'))
            (fun idx => if last idx 0 <? d then elem x idx else zero))
  end.

(** [torch.stack(xs, dim=-1)] *)
Definition stack_last (xs : list Tensor) : result Tensor :=
  match xs with
  | [] => Raise RuntimeError
  | x0 :: rest =>
      _ <- guard (forallb (fun y => list_eqb (shape x0) (shape y)) rest)
                 RuntimeError ;;
      Ok (mkTensor (shape x0 ++ [length xs])
            (fun idx => elem (nth (last idx 0) xs x0) (removelast idx)))
  end.

(** Reductions over the last axis: [x.mean(-1)], [torch.sum(x, -1)]. *)
Definition reduce_last (red : nat -> (nat -> R) -> R) (x : Tensor)
  : result Tensor :=
  match rev (shape x) with
  | [] => Raise IndexError
  | d :: s' =>
      Ok (mkTensor (rev s') (fun idx => red d (fun j => elem x (idx ++ [j]))))
  end.

Definition mean_last := reduce_last mean_range.
Definition sum_last := reduce_last sum_range.

(** [x.mean(0)] *)
Definition mean_first (x : Tensor) : result Tensor :=
  match shape x with
  | [] => Raise IndexError
  | d :: s' =>
      Ok (mkTensor s' (fun idx => mean_range d (fun j => elem x (j :: idx))))
  end.


(** [x[:, :, j]] on a rank-3 tensor. *)
Definition select_last3 (j : nat) (x : Tensor) : result Tensor :=
  match shape x with
  | [b; t; f] =>
      _ <- guard (j <? f) IndexError ;;
      Ok (mkTensor [b; t] (fun idx => elem x (idx ++ [j])))
  | _ => Raise IndexError
  end.

(** Every multi-index of a shape, in row-major order. *)
Definition all_indices (s : list nat) : list (list nat) :=
  map (unravel s) (seq 0 (numel s)).

(** ** Layers of [torch.nn] *)

(** [nn.Dropout]: [mask] is the factor drawn for each position of this call
    (0 or 1/(1-p) when training, constantly one in evaluation mode). *)
Record Dropout : Type := mkDropout { mask : list nat -> R }.

Definition Dropout_forward (d : Dropout) (x : Tensor) : Tensor :=
  mkTensor (shape x) (fun idx => mul (elem x idx) (mask d idx)).

(** [nn.Linear(in_features, out_features)] *)
Record Linear : Type := mkLinear {
  in_features : nat;
  out_features : nat;
  lin_weight : list nat -> R;          (* [out_features, in_features] *)
  lin_bias : option (list nat -> R)    (* [out_features] *)
}.

Definition Linear_forward (l : Linear) (x : Tensor) : result Tensor :=
  d <- last_dim (shape x) ;;
  _ <- guard (d =? in_features l) RuntimeError ;;
  Ok (mkTensor (removelast (shape x) ++ [out_features l])
        (fun idx =>
           let o := last idx 0 in
           let acc := sum_range (in_features l)
                        (fun i => mul (elem x (removelast idx ++ [i]))
                                      (lin_weight l [o; i])) in
           match lin_bias l with
           | Some b => add acc (b [o])
           | None => acc
           end)).

(** [nn.LayerNorm(d)], normalising the last axis. *)
Record LayerNorm : Type := mkLayerNorm {
  normalized_shape : nat;
  ln_eps : R;
  ln_weight : list nat -> R;
  ln_bias : list nat -> R
}.

Definition LayerNorm_forward (l : LayerNorm) (x : Tensor) : result Tensor :=
  d <- last_dim (shape x) ;;
  _ <- guard (d =? normalized_shape l) RuntimeError ;;
  Ok (mkTensor (shape x)
        (fun idx =>
           let row j := elem x (removelast idx ++ [j]) in
           let mu := mean_range d row in
           let var := mean_range d (fun j => mul (sub (row j) mu)
                                                 (sub (row j) mu)) in
           add (mul (div (sub (elem x idx) mu) (sqrt (add var (ln_eps l))))
                    (ln_weight l [last idx 0]))
               (ln_bias l [last idx 0]))).

(** [nn.GELU] / [F.gelu]: x * Phi(x). *)
Definition gelu_scalar (v : R) : R :=
  mul (mul v (div one (of_nat 2)))
      (add one (erf (div v (sqrt (of_nat 2))))).

Definition gelu (x : Tensor) : Tensor := tmap gelu_scalar x.

(** [nn.Conv1d(..., padding_mode='circular', bias=False)] *)
Record Conv1d : Type := mkConv1d {
  c1_in : nat;
  c1_out : nat;
  c1_kernel : nat;
  c1_padding : nat;
  c1_weight : list nat -> R            (* [out, in, kernel] *)
}.

Definition Conv1d_forward (c : Conv1d) (x : Tensor) : result Tensor :=
  match shape x with
  | [b; ch; t] =>
      _ <- guard (ch =? c1_in c) RuntimeError ;;
      _ <- guard (c1_padding c <=? t) RuntimeError ;;
      _ <- guard (c1_kernel c <=? t + 2 * c1_padding c) RuntimeError ;;
      Ok (mkTensor [b; c1_out c; t + 2 * c1_padding c - c1_kernel c + 1]
            (fun idx =>
               let n := nth 0 idx 0 in
               let o := nth 1 idx 0 in
               let p := nth 2 idx 0 in
               sum_range (c1_in c) (fun ci =>
                 sum_range (c1_kernel c) (fun j =>
                   mul (c1_weight c [o; ci; j])
                       (elem x [n; ci; (p + j + t - c1_padding c) mod t])))))
  | _ => Raise RuntimeError
  end.

(** [nn.Conv2d(in, out, kernel_size=k, padding=p)], zero padding, with bias. *)
Record Conv2d : Type := mkConv2d {
  c2_in : nat;
  c2_out : nat;
  c2_kernel : nat;
  c2_padding : nat;
  c2_weight : list nat -> R;           (* [out, in, kernel, kernel] *)
  c2_bias : list nat -> R              (* [out] *)
}.

Definition Conv2d_forward (c : Conv2d) (x : Tensor) : result Tensor :=
  match shape x with
  | [b; ch; h; w] =>
      _ <- guard (ch =? c2_in c) RuntimeError ;;
      _ <- guard (c2_kernel c <=? h + 2 * c2_padding c) RuntimeError ;;
      _ <- guard (c2_kernel c <=? w + 2 * c2_padding c) RuntimeError ;;
      Ok (mkTensor [b; c2_out c; h + 2 * c2_padding c - c2_kernel c + 1;
                                 w + 2 * c2_padding c - c2_kernel c + 1]
            (fun idx =>
               let n := nth 0 idx 0 in
               let o := nth 1 idx 0 in
               let i := nth 2 idx 0 in
               let j := nth 3 idx 0 in
               add (c2_bias c [o])
                 (sum_range (c2_in c) (fun ci =>
                    sum_range (c2_kernel c) (fun di =>
                      sum_range (c2_kernel c) (fun dj =>
                        let r := i + di in
                        let q := j + dj in
                        if (c2_padding c <=? r) && (r <? h + c2_padding c) &&
                           (c2_padding c <=? q) && (q <? w + c2_padding c)
                        then mul (c2_weight c [o; ci; di; dj])
                                 (elem x [n; ci; r - c2_padding c;
                                          q - c2_padding c])
                        else zero))))))
  | _ => Raise RuntimeError
  end.

(** [nn.Embedding(num, dim)]: a table looked up by integer index. *)
Record Embedding : Type := mkEmbedding {
  num_embeddings : nat;
  embedding_dim : nat;
  emb_weight : list nat -> R           (* [num, dim] *)
}.

Definition Embedding_forward (e : Embedding) (ix : Tensor) : result Tensor :=
  _ <- guard (forallb (fun idx =>
                let v := to_long (elem ix idx) in
                (0 <=? v)%Z && (v <? Z.of_nat (num_embeddings e))%Z)
              (all_indices (shape ix))) IndexError ;;
  Ok (mkTensor (shape ix ++ [embedding_dim e])
        (fun idx => emb_weight e [Z.to_nat (to_long (elem ix (removelast idx)));
                                  last idx 0])).


(** ** The classes and functions of timesnet.py *)

Fixpoint mapM {A B : Type} (f : A -> result B) (l : list A) : result (list B) :=
  match l with
  | [] => Ok []
  | a :: l' => b <- f a ;; bs <- mapM f l' ;; Ok (b :: bs)
  end.

Definition neg (v : R) : R := sub zero v.

(** [x.unsqueeze(ax)] *)
Definition unsqueeze (ax : nat) (x : Tensor) : result Tensor :=
  _ <- guard (ax <=? length (shape x)) IndexError ;;
  Ok (mkTensor (firstn ax (shape x) ++ 1 :: skipn ax (shape x))
        (fun idx => elem x (firstn ax idx ++ skipn (S ax) idx))).

(** [x.repeat(r0, r1, ...)] with as many counts as [x] has axes. *)
Definition repeat_t (reps : list nat) (x : Tensor) : result Tensor :=
  _ <- guard (length reps =? length (shape x)) RuntimeError ;;
  Ok (mkTensor (map (fun '(r, d) => r * d) (combine reps (shape x)))
        (fun idx => elem x (map (fun '(i, d) => i mod d)
                                (combine idx (shape x))))).

(** [F.softmax(x, dim=1)] on a rank-2 tensor. *)
Definition softmax1 (x : Tensor) : result Tensor :=
  match shape x with
  | [b; k] =>
      Ok (mkTensor [b; k]
            (fun idx =>
               div (exp (elem x idx))
                   (sum_range k (fun j => exp (elem x [nth 0 idx 0; j])))))
  | _ => Raise IndexError
  end.

(** The sine/cosine table both [PositionalEmbedding] and [FixedEmbedding]
    fill in: column 2i holds sin(pos * div_term[i]), column 2i+1 the cosine,
    with div_term[i] = exp(2i * -(log(10000.0) / d_model)).  The assignment to
    the odd columns fails when [d_model] is odd, except for d_model = 1,
    where there is no odd column and the one cosine column is broadcast
    into the empty slice. *)
Definition sinusoid_table (rows d_model : nat) : result Tensor :=
  _ <- guard (negb (d_model =? 0)) ZeroDivisionError ;;
  _ <- guard (Nat.even d_model || (d_model =? 1)) RuntimeError ;;
  Ok (mkTensor [rows; d_model]
        (fun idx =>
           let pos := nth 0 idx 0 in
           let j := nth 1 idx 0 in
           let div_term :=
             exp (mul (of_nat (2 * (j / 2)))
                      (neg (div (ln (of_Z 10000)) (of_nat d_model)))) in
           if Nat.even j then sin (mul (of_nat pos) div_term)
           else cos (mul (of_nat pos) div_term))).

(** *** PositionalEmbedding *)

Record PositionalEmbedding : Type := mkPositionalEmbedding { pe : Tensor }.

Definition PositionalEmbedding_init (d_model max_len : nat)
  : result PositionalEmbedding :=
  t <- sinusoid_table max_len d_model ;;
  t <- unsqueeze 0 t ;;
  Ok (mkPositionalEmbedding t).

Definition PositionalEmbedding_forward (m : PositionalEmbedding) (x : Tensor)
  : result Tensor :=
  _ <- guard (1 <? length (shape x)) IndexError ;;
  slice_to 1 (nth 1 (shape x) 0) (pe m).

(** *** TokenEmbedding

    [new_torch] is the outcome of [torch.__version__ >= '1.5.0']. *)

Record TokenEmbedding : Type := mkTokenEmbedding { tokenConv : Conv1d }.

Definition TokenEmbedding_init (new_torch : bool) (c_in d_model : nat)
    (w : list nat -> R) : TokenEmbedding :=
  let padding := if new_torch then 1 else 2 in
  mkTokenEmbedding (mkConv1d c_in d_model 3 padding w).

Definition TokenEmbedding_forward (m : TokenEmbedding) (x : Tensor)
  : result Tensor :=
  x <- permute [0; 2; 1] x ;;
  x <- Conv1d_forward (tokenConv m) x ;;
  transpose12 x.

(** *** FixedEmbedding *)

Definition FixedEmbedding_init (c_in d_model : nat) : result Embedding :=
  w <- sinusoid_table c_in d_model ;;
  Ok (mkEmbedding c_in d_model (elem w)).

(** *** TemporalEmbedding *)

Record TemporalDraws : Type := mkTemporalDraws {
  minute_w : list nat -> R;
  hour_w : list nat -> R;
  weekday_w : list nat -> R;
  day_w : list nat -> R;
  month_w : list nat -> R
}.

Record TemporalEmbedding : Type := mkTemporalEmbedding {
  minute_embed : option Embedding;     (* the attribute may be missing *)
  hour_embed : Embedding;
  weekday_embed : Embedding;
  day_embed : Embedding;
  month_embed : Embedding
}.

Definition Embed (embed_type : string) (w : list nat -> R) (size d_model : nat)
  : result Embedding :=
  if String.eqb embed_type "fixed" then FixedEmbedding_init size d_model
  else Ok (mkEmbedding size d_model w).

Definition TemporalEmbedding_init (d_model : nat) (embed_type freq : string)
    (dr : TemporalDraws) : result TemporalEmbedding :=
  let minute_size := 4 in
  let hour_size := 24 in
  let weekday_size := 7 in
  let day_size := 32 in
  let month_size := 13 in
  mi <- (if String.eqb freq "t"
         then e <- Embed embed_type (minute_w dr) minute_size d_model ;;
              Ok (Some e)
         else Ok None) ;;
  ho <- Embed embed_type (hour_w dr) hour_size d_model ;;
  we <- Embed embed_type (weekday_w dr) weekday_size d_model ;;
  da <- Embed embed_type (day_w dr) day_size d_model ;;
  mo <- Embed embed_type (month_w dr) month_size d_model ;;
  Ok (mkTemporalEmbedding mi ho we da mo).

(** The value of [minute_x]: a tensor, or the float [0.]. *)
Inductive minute_term : Type :=
| MinuteTensor (t : Tensor)
| MinuteZero.

Definition TemporalEmbedding_minute (m : TemporalEmbedding) (x : Tensor)
  : result minute_term :=
  match minute_embed m with
  | Some e => c <- select_last3 4 x ;;
              t <- Embedding_forward e c ;;
              Ok (MinuteTensor t)
  | None => Ok MinuteZero
  end.

Definition TemporalEmbedding_forward (m : TemporalEmbedding) (x : Tensor)
  : result Tensor :=
  minute_x <- TemporalEmbedding_minute m x ;;
  c3 <- select_last3 3 x ;; hour_x <- Embedding_forward (hour_embed m) c3 ;;
  c2 <- select_last3 2 x ;; weekday_x <- Embedding_forward (weekday_embed m) c2 ;;
  c1 <- select_last3 1 x ;; day_x <- Embedding_forward (day_embed m) c1 ;;
  c0 <- select_last3 0 x ;; month_x <- Embedding_forward (month_embed m) c0 ;;
  s <- tadd hour_x weekday_x ;;
  s <- tadd s day_x ;;
  s <- tadd s month_x ;;
  match minute_x with
  | MinuteTensor t => tadd s t
  | MinuteZero => Ok (tadd_scalar s zero)
  end.

(** *** TimeFeatureEmbedding *)

Definition freq_map : list (string * nat) :=
  [("h", 4); ("t", 5); ("s", 6); ("m", 1); ("a", 1); ("w", 2); ("d", 3);
   ("b", 3)]%string.

Fixpoint dict_get {V : Type} (d : list (string * V)) (key : string) : result V :=
  match d with
  | [] => Raise KeyError
  | (k, v) :: d' => if String.eqb k key then Ok v else dict_get d' key
  end.

(** [d[key] = v]: an existing key keeps its place, a new one goes last. *)
Fixpoint dict_set {V : Type} (d : list (string * V)) (key : string) (v : V)
  : list (string * V) :=
  match d with
  | [] => [(key, v)]
  | (k, v0) :: d' =>
      if String.eqb k key then (k, v) :: d' else (k, v0) :: dict_set d' key v
  end.

Definition TimeFeatureEmbedding_init (d_model : nat) (freq : string)
    (w : list nat -> R) : result Linear :=
  d_inp <- dict_get freq_map freq ;;
  Ok (mkLinear d_inp d_model w None).

(** *** DataEmbedding *)

Inductive temporal_module : Type :=
| Temporal (m : TemporalEmbedding)
| TimeFeature (m : Linear).

Definition temporal_forward (m : temporal_module) (x_mark : Tensor)
  : result Tensor :=
  match m with
  | Temporal t => TemporalEmbedding_forward t x_mark
  | TimeFeature l => Linear_forward l x_mark
  end.

Record EmbedDraws : Type := mkEmbedDraws {
  token_w : list nat -> R;
  temporal_w : TemporalDraws;
  timef_w : list nat -> R;
  embed_mask : list nat -> R
}.

Record DataEmbedding : Type := mkDataEmbedding {
  value_embedding : TokenEmbedding;
  position_embedding : PositionalEmbedding;
  temporal_embedding : temporal_module;
  de_dropout : Dropout
}.

Definition DataEmbedding_init (new_torch : bool) (c_in d_model : nat)
    (embed_type freq : string) (dr : EmbedDraws) : result DataEmbedding :=
  let ve := TokenEmbedding_init new_torch c_in d_model (token_w dr) in
  pos <- PositionalEmbedding_init d_model 5000 ;;
  te <- (if negb (String.eqb embed_type "timeF")
         then t <- TemporalEmbedding_init d_model embed_type freq
                     (temporal_w dr) ;;
              Ok (Temporal t)
         else l <- TimeFeatureEmbedding_init d_model freq (timef_w dr) ;;
              Ok (TimeFeature l)) ;;
  Ok (mkDataEmbedding ve pos te (mkDropout (embed_mask dr))).

Definition DataEmbedding_forward (m : DataEmbedding) (x : Tensor)
    (x_mark : option Tensor) : result Tensor :=
  x <- match x_mark with
       | None =>
           v <- TokenEmbedding_forward (value_embedding m) x ;;
           p <- PositionalEmbedding_forward (position_embedding m) x ;;
           tadd v p
       | Some x_mark =>
           v <- TokenEmbedding_forward (value_embedding m) x ;;
           t <- temporal_forward (temporal_embedding m) x_mark ;;
           s <- tadd v t ;;
           p <- PositionalEmbedding_forward (position_embedding m) x ;;
           tadd s p
       end ;;
  Ok (Dropout_forward (de_dropout m) x).

(** *** Inception_Block_V1 *)

Record InceptionDraws : Type := mkInceptionDraws {
  kernel_w : nat -> list nat -> R;     (* the weights drawn for kernel i *)
  kernel_b : nat -> list nat -> R      (* its default bias *)
}.

Record Inception_Block_V1 : Type := mkInception {
  in_channels : nat;
  out_channels : nat;
  num_kernels : nat;
  kernels : list Conv2d
}.

Definition Inception_Block_V1_init (in_ch out_ch n_kernels : nat)
    (init_weight : bool) (dr : InceptionDraws) : Inception_Block_V1 :=
  mkInception in_ch out_ch n_kernels
    (map (fun i =>
            mkConv2d in_ch out_ch (2 * i + 1) i (kernel_w dr i)
              (if init_weight then (fun _ => zero) else kernel_b dr i))
         (seq 0 n_kernels)).

Definition Inception_Block_V1_branches (m : Inception_Block_V1) (x : Tensor)
  : result (list Tensor) :=
  mapM (fun i => match nth_error (kernels m) i with
                 | Some c => Conv2d_forward c x
                 | None => Raise IndexError
                 end)
       (seq 0 (num_kernels m)).

Definition Inception_Block_V1_forward (m : Inception_Block_V1) (x : Tensor)
  : result Tensor :=
  res_list <- Inception_Block_V1_branches m x ;;
  res <- stack_last res_list ;;
  mean_last res.

(** *** FFT_for_Period *)

(** [abs(torch.fft.rfft(x, dim=1))] for x of shape [B, T, C]: the modulus of
    the T/2+1 one-sided DFT coefficients along the time axis. *)
Definition rfft_abs (x : Tensor) : result Tensor :=
  match shape x with
  | [b; t; c] =>
      _ <- guard (0 <? t) RuntimeError ;;
      Ok (mkTensor [b; t / 2 + 1; c]
            (fun idx =>
               let n := nth 0 idx 0 in
               let f := nth 1 idx 0 in
               let ch := nth 2 idx 0 in
               let angle j :=
                 div (mul (mul (of_nat 2) pi) (of_nat (f * j))) (of_nat t) in
               let re := sum_range t (fun j =>
                           mul (elem x [n; j; ch]) (cos (angle j))) in
               let im := neg (sum_range t (fun j =>
                           mul (elem x [n; j; ch]) (sin (angle j)))) in
               sqrt (add (mul re re) (mul im im))))
  | _ => Raise RuntimeError
  end.

(** [v[0] = 0] on a rank-1 tensor. *)
Definition clear_first (v : Tensor) : result Tensor :=
  match shape v with
  | [n] => _ <- guard (0 <? n) IndexError ;;
           Ok (mkTensor [n] (fun idx => if nth 0 idx 0 =? 0 then zero
                                        else elem v idx))
  | _ => Raise IndexError
  end.

(** The entry of largest value; between equal values the backend's
    [tie_first] decides. *)
Fixpoint argmax (best : nat * R) (l : list (nat * R)) : nat * R :=
  match l with
  | [] => best
  | c :: l' =>
      if leb (snd c) (snd best)
      then if leb (snd best) (snd c) && tie_first (fst c) (fst best)
           then argmax c l'
           else argmax best l'
      else argmax c l'
  end.

Fixpoint select_top (k : nat) (l : list (nat * R)) : list nat :=
  match k with
  | 0 => []
  | S k' =>
      match l with
      | [] => []
      | c :: l' =>
          let m := argmax c l' in
          fst m :: select_top k' (filter (fun p => negb (fst p =? fst m)) l)
      end
  end.

(** The indices [torch.topk(v, k)] returns for a rank-1 tensor, largest value
    first.  torch does not fix the order of equal values: it is the
    backend's [tie_first]. *)
Definition topk (v : Tensor) (k : nat) : result (list nat) :=
  match shape v with
  | [n] => _ <- guard (k <=? n) RuntimeError ;;
           Ok (select_top k (map (fun i => (i, elem v [i])) (seq 0 n)))
  | _ => Raise RuntimeError
  end.

(** [m[:, top_list]] on a rank-2 tensor. *)
Definition take_columns (top_list : list nat) (m : Tensor) : result Tensor :=
  match shape m with
  | [b; f] =>
      _ <- guard (forallb (fun i => i <? f) top_list) IndexError ;;
      Ok (mkTensor [b; length top_list]
            (fun idx => elem m [nth 0 idx 0; nth (nth 1 idx 0) top_list 0]))
  | _ => Raise IndexError
  end.

(** [numpy]'s integer [//] and [%]: a zero divisor gives 0 (and a warning). *)
Definition np_floordiv (a b : nat) : nat := a / b.
Definition np_mod (a b : nat) : nat := if b =? 0 then 0 else a mod b.

(** [frequency_list] once its first entry has been cleared. *)
Definition FFT_frequency_list (xf : Tensor) : result Tensor :=
  m0 <- mean_first xf ;;
  frequency_list <- mean_last m0 ;;
  clear_first frequency_list.

Definition FFT_for_Period (x : Tensor) (k : nat)
  : result (list nat * Tensor) :=
  xf <- rfft_abs x ;;
  frequency_list <- FFT_frequency_list xf ;;
  top_list <- topk frequency_list k ;;
  let period := map (fun i => np_floordiv (nth 1 (shape x) 0) i) top_list in
  m <- mean_last xf ;;
  w <- take_columns top_list m ;;
  Ok (period, w).

(** The frequency indices [FFT_for_Period] selects ([top_list]). *)
Definition FFT_top_list (x : Tensor) (k : nat) : result (list nat) :=
  xf <- rfft_abs x ;;
  frequency_list <- FFT_frequency_list xf ;;
  topk frequency_list k.

(** *** TimesBlock *)

Record BlockDraws : Type := mkBlockDraws {
  conv_expand : InceptionDraws;
  conv_project : InceptionDraws
}.

Record TimesBlock : Type := mkTimesBlock {
  seq_len : nat;
  k : nat;
  conv_0 : Inception_Block_V1;
  conv_2 : Inception_Block_V1
}.

Definition TimesBlock_init (sequence_lenth d_model d_ff n_kernels top_k : nat)
    (dr : BlockDraws) : TimesBlock :=
  mkTimesBlock sequence_lenth top_k
    (Inception_Block_V1_init d_model d_ff n_kernels true (conv_expand dr))
    (Inception_Block_V1_init d_ff d_model n_kernels true (conv_project dr)).

(** [self.conv]: Inception, GELU, Inception. *)
Definition TimesBlock_conv (m : TimesBlock) (x : Tensor) : result Tensor :=
  y <- Inception_Block_V1_forward (conv_0 m) x ;;
  Inception_Block_V1_forward (conv_2 m) (gelu y).

(** One iteration of the loop over the periods. *)
Definition TimesBlock_period (m : TimesBlock) (x : Tensor) (b n : nat)
    (period : nat) : result Tensor :=
  '(length, out) <-
     (if negb (np_mod (seq_len m) period =? 0)
      then
        let length := (np_floordiv (seq_len m) period + 1) * period in
        let padding := zeros [nth 0 (shape x) 0; length - seq_len m;
                              nth 2 (shape x) 0] in
        out <- cat 1 x padding ;;
        Ok (length, out)
      else Ok (seq_len m, x)) ;;
  out <- reshape [b; np_floordiv length period; period; n] out ;;
  out <- permute [0; 3; 1; 2] out ;;
  out <- TimesBlock_conv m out ;;
  out <- permute [0; 2; 3; 1] out ;;
  out <- reshape_infer b n out ;;
  slice_to 1 (seq_len m) out.

(** The padding step of that iteration on its own: the length the sequence
    is brought to and the padded tensor. *)
Definition TimesBlock_padding (m : TimesBlock) (x : Tensor) (period : nat)
  : result (nat * Tensor) :=
  if negb (np_mod (seq_len m) period =? 0)
  then
    let length := (np_floordiv (seq_len m) period + 1) * period in
    let padding := zeros [nth 0 (shape x) 0; length - seq_len m;
                          nth 2 (shape x) 0] in
    out <- cat 1 x padding ;;
    Ok (length, out)
  else Ok (seq_len m, x).

Definition TimesBlock_forward (m : TimesBlock) (x : Tensor) : result Tensor :=
  match shape x with
  | [b; t; n] =>
      '(period_list, period_weight) <- FFT_for_Period x (k m) ;;
      res <- mapM (fun i => TimesBlock_period m x b n (nth i period_list 0))
                  (seq 0 (k m)) ;;
      res <- stack_last res ;;
      period_weight <- softmax1 period_weight ;;
      period_weight <- unsqueeze 1 period_weight ;;
      period_weight <- unsqueeze 1 period_weight ;;
      period_weight <- repeat_t [1; t; n; 1] period_weight ;;
      res <- tmul res period_weight ;;
      res <- sum_last res ;;
      tadd res x
  | _ => Raise ValueError
  end.

(** [F.interpolate(x, size)] on [B, C, L] with the default nearest mode. *)
Definition interpolate (size : nat) (x : Tensor) : result Tensor :=
  match shape x with
  | [b; c; l] =>
      _ <- guard ((0 <? l) && (0 <? size)) RuntimeError ;;
      Ok (mkTensor [b; c; size]
            (fun idx => elem x [nth 0 idx 0; nth 1 idx 0;
                                Nat.min (nth 2 idx 0 * l / size) (l - 1)]))
  | _ => Raise RuntimeError
  end.

(** *** Notions the properties are stated with *)

(** [torch.roll(x, -s, dims=1)] on a rank-3 tensor: time step p of the
    result is time step (p + s) mod T of [x]. *)
Definition roll1 (s : nat) (x : Tensor) : Tensor :=
  mkTensor (shape x)
    (fun idx => elem x (set_nth 1 ((nth 1 idx 0 + s) mod nth 1 (shape x) 0)
                          idx)).

(** Every entry of calendar column [col] of a [B, T, F] tensor, read as an
    integer, is an index into a table of [size] rows. *)
Definition calendar_in_range (x : Tensor) (col size : nat) : bool :=
  forallb (fun idx =>
             let v := to_long (elem x (idx ++ [col])) in
             (0 <=? v)%Z && (v <? Z.of_nat size)%Z)
          (all_indices (firstn 2 (shape x))).

(** The entry of table [e] that calendar column [col] selects at batch
    entry [n] and time step [p], read at position [o]; and the sum of the
    hour, weekday, day and month entries, in the order [forward] adds
    them. *)
Definition calendar_lookup (e : Embedding) (x : Tensor) (col n p o : nat)
  : R :=
  emb_weight e [Z.to_nat (to_long (elem x [n; p; col])); o].

Definition calendar_sum (m : TemporalEmbedding) (x : Tensor) (n p o : nat)
  : R :=
  add (add (add (calendar_lookup (hour_embed m) x 3 n p o)
                (calendar_lookup (weekday_embed m) x 2 n p o))
           (calendar_lookup (day_embed m) x 1 n p o))
      (calendar_lookup (month_embed m) x 0 n p o).

(** *** The collaborators of [.common]

    [ChannelMerger] and [SubjectLayers] are defined outside this file; they
    are taken as they are called: a constructor and a forward function. *)

Class Common : Type := {
  Batch : Type;
  subject_index : Batch -> Tensor;
  ChannelMerger : Type;
  ChannelMerger_init :
    nat -> nat -> R -> R -> nat -> bool -> result ChannelMerger;
  ChannelMerger_forward : ChannelMerger -> Tensor -> Batch -> result Tensor;
  SubjectLayers : Type;
  SubjectLayers_init : nat -> nat -> nat -> bool -> result SubjectLayers;
  SubjectLayers_forward : SubjectLayers -> Tensor -> Tensor -> result Tensor
}.

Context {common : Common}.

(** *** TimesNet *)

Record TimesNetArgs : Type := mkTimesNetArgs {
  a_out_channels : nat;
  a_hidden : list (string * nat);
  a_n_subjects : nat;
  a_subject_layers : bool;
  a_subject_dim : nat;
  a_subject_layers_dim : string;
  a_subject_layers_id : bool;
  a_merger : bool;
  a_merger_pos_dim : nat;
  a_merger_channels : nat;
  a_merger_dropout : R;
  a_merger_penalty : R;
  a_merger_per_subject : bool;
  a_sequence_lenth : nat;
  a_num_kernels : nat;
  a_top_k : nat;
  a_dropout_projection : R;
  a_d_model : nat;
  a_d_ff : nat;
  a_flatten_out_channels : nat;
  a_depth : nat
}.

(** What construction and one forward call draw at random. *)
Record NetDraws : Type := mkNetDraws {
  embed_draws : EmbedDraws;
  block_draws : nat -> BlockDraws;
  projection_w : list nat -> R;
  projection_b : list nat -> R;
  projection_mask : list nat -> R
}.

Record TimesNet : Type := mkTimesNet {
  sequence_lenth : nat;
  delta : Z;
  depth : nat;
  merger : option ChannelMerger;
  subject_layers : option SubjectLayers;
  enc_embedding : DataEmbedding;
  model : list TimesBlock;
  layer_norm : LayerNorm;
  dropout : Dropout;
  projection : Linear
}.

Definition set_delta (self : TimesNet) (d : Z) : TimesNet :=
  mkTimesNet (sequence_lenth self) d (depth self) (merger self)
    (subject_layers self) (enc_embedding self) (model self) (layer_norm self)
    (dropout self) (projection self).

Definition dict_mem {V : Type} (d : list (string * V)) (key : string) : bool :=
  existsb (fun p => String.eqb (fst p) key) d.

(** [TimesNet.__init__]; the state is the caller's [in_channels] dictionary. *)
Definition TimesNet_init (new_torch : bool) (a : TimesNetArgs) (dr : NetDraws)
  : State (list (string * nat)) TimesNet :=
  mg <~ (if a_merger a
         then
           m <~ lift (ChannelMerger_init (a_merger_channels a)
                        (a_merger_pos_dim a) (a_merger_dropout a)
                        (a_merger_penalty a) (a_n_subjects a)
                        (a_merger_per_subject a)) ;;
           in_ch <~ get ;;
           _ <~ put (dict_set in_ch "meg" (a_merger_channels a)) ;;
           ret (Some m)
         else ret None) ;;
  sl <~ (if a_subject_layers a
         then
           in_ch <~ get ;;
           _ <~ lift (guard (dict_mem in_ch "meg") AssertionError) ;;
           meg_dim <~ lift (dict_get in_ch "meg") ;;
           hid <~ lift (dict_get (a_hidden a) "meg") ;;
           dim <~ lift (dict_get [("hidden", hid); ("input", meg_dim)]%string
                          (a_subject_layers_dim a)) ;;
           s <~ lift (SubjectLayers_init meg_dim dim (a_n_subjects a)
                        (a_subject_layers_id a)) ;;
           _ <~ put (dict_set in_ch "meg" dim) ;;
           ret (Some s)
         else ret None) ;;
  in_ch <~ get ;;
  c_in <~ lift (dict_get in_ch "meg") ;;
  emb <~ lift (DataEmbedding_init new_torch c_in (a_d_model a) "fixed" "h"
                 (embed_draws dr)) ;;
  ret (mkTimesNet (a_sequence_lenth a) 0%Z (a_depth a) mg sl emb
         (map (fun i => TimesBlock_init (a_sequence_lenth a) (a_d_model a)
                          (a_d_ff a) (a_num_kernels a) (a_top_k a)
                          (block_draws dr i))
              (seq 0 (a_depth a)))
         (mkLayerNorm (a_d_model a) (div one (of_Z 100000))
            (fun _ => one) (fun _ => zero))
         (mkDropout (projection_mask dr))
         (mkLinear (a_d_model a) (a_flatten_out_channels a)
            (projection_w dr) (Some (projection_b dr)))).

(** [TimesNet.crop_or_pad]; the state is [self]. *)
Definition crop_or_pad (x : Tensor) : State TimesNet Tensor :=
  length <~ lift (last_dim (shape x)) ;;
  self <~ get ;;
  _ <~ put (set_delta self
              (Z.of_nat (sequence_lenth self) - Z.of_nat length)%Z) ;;
  self <~ get ;;
  if length <? sequence_lenth self
  then lift (pad_right (Z.to_nat (delta self)) x)
  else if sequence_lenth self <? length
       then lift (slice_to 2 (sequence_lenth self) x)
       else ret x.

(** The store [forward] works on: the module and the caller's [inputs]. *)
Record Heap : Type := mkHeap {
  self_of : TimesNet;
  inputs_of : list (string * Tensor)
}.

Definition on_self {A : Type} (m : State TimesNet A) : State Heap A :=
  fun h => let '(r, s) := m (self_of h) in (r, mkHeap s (inputs_of h)).

Definition get_input (key : string) : State Heap Tensor :=
  h <~ get ;; lift (dict_get (inputs_of h) key).

Definition set_input (key : string) (v : Tensor) : State Heap unit :=
  h <~ get ;; put (mkHeap (self_of h) (dict_set (inputs_of h) key v)).

(** [next(iter(inputs.values())).shape[-1]] *)
Definition first_length (inputs : list (string * Tensor)) : result nat :=
  match inputs with
  | [] => Raise StopIteration
  | (_, t) :: _ => last_dim (shape t)
  end.

(** The loop over [range(self.depth)]: every pass reads [x] and rebinds
    [enc_out]. *)
Fixpoint depth_loop (self : TimesNet) (x : Tensor) (range : list nat)
    (enc_out : option Tensor) : result (option Tensor) :=
  match range with
  | [] => Ok enc_out
  | i :: range' =>
      blk <- match nth_error (model self) i with
             | Some blk => Ok blk
             | None => Raise IndexError
             end ;;
      y <- TimesBlock_forward blk x ;;
      e <- LayerNorm_forward (layer_norm self) y ;;
      depth_loop self x range' (Some e)
  end.

Definition TimesNet_forward (batch : Batch) : State Heap Tensor :=
  let subjects := subject_index batch in
  h <~ get ;;
  length <~ lift (first_length (inputs_of h)) ;;
  _ <~ match merger (self_of h) with
       | Some mg =>
           meg <~ get_input "meg" ;;
           r <~ lift (ChannelMerger_forward mg meg batch) ;;
           set_input "meg" r
       | None => ret tt
       end ;;
  _ <~ match subject_layers (self_of h) with
       | Some sl =>
           meg <~ get_input "meg" ;;
           r <~ lift (SubjectLayers_forward sl meg subjects) ;;
           set_input "meg" r
       | None => ret tt
       end ;;
  meg <~ get_input "meg" ;;
  x <~ on_self (crop_or_pad meg) ;;
  x <~ lift (permute [0; 2; 1] x) ;;
  h <~ get ;;
  let self := self_of h in
  x <~ lift (DataEmbedding_forward (enc_embedding self) x None) ;;
  enc_out <~ lift (depth_loop self x (seq 0 (depth self)) None) ;;
  enc_out <~ lift (match enc_out with
                   | Some e => Ok e
                   | None => Raise UnboundLocalError
                   end) ;;
  let output := gelu enc_out in
  let output := Dropout_forward (dropout self) output in
  output <~ lift (Linear_forward (projection self) output) ;;
  output <~ lift (permute [0; 2; 1] output) ;;
  if (0 <=? delta self)%Z
  then lift (slice_to 2 length output)
  else lift (r <- interpolate length output ;; index0 r).

End Model.

Arguments Tensor R : clear implicits.
Arguments Common R : clear implicits.
Arguments TimesBlock R : clear implicits.
Arguments Inception_Block_V1 R : clear implicits.
Arguments DataEmbedding R : clear implicits.
Arguments TemporalEmbedding R : clear implicits.
Arguments TimesNet R {common}.
Arguments Heap R {common}.
Arguments NetDraws R : clear implicits.
Arguments BlockDraws R : clear implicits.
Arguments TimesNetArgs R : clear implicits.

(** ** A fixed-point backend

    Scalars with 16 fractional bits, used to run the model on concrete
    inputs.  The elementary functions are short polynomial approximations. *)

Module Fix.

Local Open Scope Z_scope.

Definition scale : Z := 65536.
Definition fmul (a b : Z) : Z := a * b / scale.
Definition fdiv (a b : Z) : Z := if b =? 0 then 0 else a * scale / b.
Definition fof_Z (n : Z) : Z := n * scale.
Definition fsqrt (a : Z) : Z := Z.sqrt (a * scale).
Definition fpi : Z := 205887.
Definition fln2 : Z := 45426.

(** exp: 2^n * (1 + r + r^2/2 + r^3/6 + r^4/24) with r in [0, ln 2). *)
Definition fexp (a : Z) : Z :=
  let n := a / fln2 in
  let r := a mod fln2 in
  let r2 := fmul r r in
  let r3 := fmul r2 r in
  let r4 := fmul r3 r in
  Z.shiftl (scale + r + r2 / 2 + r3 / 6 + r4 / 24) n.

(** ln: n * ln 2 + 2 (y + y^3/3 + y^5/5) with y = (m - 1) / (m + 1). *)
Definition fln (a : Z) : Z :=
  if a <=? 0 then 0 else
  let n := Z.log2 a - 16 in
  let m := Z.shiftl a (- n) in
  let y := fdiv (m - scale) (m + scale) in
  let y2 := fmul y y in
  let y3 := fmul y2 y in
  let y5 := fmul y3 y2 in
  n * fln2 + 2 * (y + y3 / 3 + y5 / 5).

(** sin on [-pi, pi] by its Taylor polynomial of degree 9. *)
Definition fsin (a : Z) : Z :=
  let x := (a + fpi) mod (2 * fpi) - fpi in
  let x2 := fmul x x in
  let x3 := fmul x2 x in
  let x5 := fmul x3 x2 in
  let x7 := fmul x5 x2 in
  let x9 := fmul x7 x2 in
  x - x3 / 6 + x5 / 120 - x7 / 5040 + x9 / 362880.

Definition fcos (a : Z) : Z := fsin (a + fpi / 2).

(** erf by 1 - 1/(1 + a1 x + a2 x^2 + a3 x^3 + a4 x^4)^4, odd in x. *)
Definition ferf (a : Z) : Z :=
  let x := Z.abs a in
  let x2 := fmul x x in
  let x3 := fmul x2 x in
  let x4 := fmul x3 x in
  let d := scale + fmul 18245 x + fmul 15099 x2 + fmul 64 x3 + fmul 5119 x4 in
  let d2 := fmul d d in
  let d4 := fmul d2 d2 in
  Z.sgn a * (scale - fdiv scale d4).

#[export] Instance scalar : Scalar Z := {|
  zero := 0;
  one := scale;
  add := Z.add;
  sub := Z.sub;
  mul := fmul;
  div := fdiv;
  of_Z := fof_Z;
  sqrt := fsqrt;
  exp := fexp;
  ln := fln;
  sin := fsin;
  cos := fcos;
  erf := ferf;
  pi := fpi;
  leb := Z.leb;
  to_long := fun a => Z.quot a scale;
  tie_first := fun _ _ => false
|}.

(** The same backend with the other order among equal values: the later
    index first. *)
Definition scalar_last : Scalar Z := {|
  zero := 0;
  one := scale;
  add := Z.add;
  sub := Z.sub;
  mul := fmul;
  div := fdiv;
  of_Z := fof_Z;
  sqrt := fsqrt;
  exp := fexp;
  ln := fln;
  sin := fsin;
  cos := fcos;
  erf := ferf;
  pi := fpi;
  leb := Z.leb;
  to_long := fun a => Z.quot a scale;
  tie_first := fun _ _ => true
|}.

End Fix.

(** ** Concrete inputs

    A configuration, parameter draws, collaborators and tensors on the
    fixed-point backend, for running the model. *)

Module Example.

Import Fix.

(** A fixed pseudo-random draw in [-1/2, 1/2), by position. *)
Definition noise (seed : Z) (idx : list nat) : Z :=
  (((fold_left (fun acc i => acc * 31 + Z.of_nat i + 7) idx 11) * 7919
    + seed * 104729) mod 65536 - 32768)%Z.

Definition ones (idx : list nat) : Z := scale.

Definition temporal_draws : TemporalDraws :=
  mkTemporalDraws (noise 2) (noise 3) (noise 4) (noise 5) (noise 6).

Definition embed_draws : EmbedDraws :=
  mkEmbedDraws (noise 7) temporal_draws (noise 8) ones.

Definition block_draws (i : nat) : BlockDraws Z :=
  mkBlockDraws
    (mkInceptionDraws (fun j => noise (Z.of_nat (10 + 7 * i + j)))
                      (fun j => noise 9))
    (mkInceptionDraws (fun j => noise (Z.of_nat (50 + 7 * i + j)))
                      (fun j => noise 9)).

Definition draws : NetDraws Z :=
  mkNetDraws embed_draws block_draws (noise 30) (noise 31) ones.

(** Stand-ins for the collaborators of [.common], with the shapes of their
    contracts: the merger averages the channels into [chout] copies, the
    subject layers mix the channels into [out] channels. *)
#[export] Instance collaborators : Common Z := {|
  Batch := Tensor Z;
  subject_index := fun batch => batch;
  ChannelMerger := nat;
  ChannelMerger_init := fun chout _ _ _ _ _ => Ok chout;
  ChannelMerger_forward := fun chout x _ =>
    match shape x with
    | [b; c; t] =>
        Ok (mkTensor [b; chout; t]
              (fun idx => mean_range c
                            (fun ch => elem x [nth 0 idx 0; ch; nth 2 idx 0])))
    | _ => Raise RuntimeError
    end;
  SubjectLayers := nat * nat;
  SubjectLayers_init := fun c_in c_out _ _ => Ok (c_in, c_out);
  SubjectLayers_forward := fun '(c_in, c_out) x _ =>
    match shape x with
    | [b; c; t] =>
        _ <- guard (c =? c_in) RuntimeError ;;
        Ok (mkTensor [b; c_out; t]
              (fun idx => sum_range c
                            (fun ch => mul (noise 40 [nth 1 idx 0; ch])
                                           (elem x [nth 0 idx 0; ch;
                                                    nth 2 idx 0]))))
    | _ => Raise RuntimeError
    end
|}.

Definition batch : Tensor Z := zeros [2].

(** depth=1, top_k=1, d_model=8, sequence_length=16, flatten_out_channels=4,
    no merger, no subject layers. *)
Definition args_16 : TimesNetArgs Z :=
  mkTimesNetArgs 4 [] 200 false 64 "input" false false 256 270 13107%Z 0%Z
    false 16 2 1 13107%Z 8 8 4 1.

(** A "meg" tensor of shape [2, 3, 20]. *)
Definition meg_20 : Tensor Z := mkTensor [2; 3; 20] (noise 1).

(** A small network: sequence length 6, d_model 2, two blocks. *)
Definition args_small : TimesNetArgs Z :=
  mkTimesNetArgs 3 [] 200 false 64 "input" false false 256 270 13107%Z 0%Z
    false 6 2 1 13107%Z 2 2 3 2.

(** The same with a merger to 2 channels and subject layers on the input
    width. *)
Definition args_merged : TimesNetArgs Z :=
  mkTimesNetArgs 3 [("meg"%string, 5)] 200 true 64 "input" false true 256 2 13107%Z
    0%Z false 6 2 1 13107%Z 2 2 3 2.

(** The same with subject layers of the "hidden" width, 5. *)
Definition args_hidden : TimesNetArgs Z :=
  mkTimesNetArgs 3 [("meg"%string, 5)] 200 true 64 "hidden" false true 256 2
    13107%Z 0%Z false 6 2 1 13107%Z 2 2 3 2.

(** The small network asking for four periods, as many as a sequence of
    length 6 has frequency bins. *)
Definition args_all_bins : TimesNetArgs Z :=
  mkTimesNetArgs 3 [] 200 false 64 "input" false false 256 270 13107%Z 0%Z
    false 6 2 4 13107%Z 2 2 3 2.

(** A "meg" tensor of shape [1, 1, 5]. *)
Definition meg_5 : Tensor Z := mkTensor [1; 1; 5] (noise 1).

(** One block on sequences of length 4 that asks for as many periods as
    there are frequency bins (4/2 + 1 = 3), and a ramp to feed it. *)
Definition block_3_of_3 : TimesBlock Z :=
  TimesBlock_init 4 1 1 1 3 (block_draws 0).

Definition ramp : Tensor Z :=
  mkTensor [1; 4; 1] (fun idx => Z.mul (Z.of_nat (nth 1 idx 0)) scale).

(** A ramp of length 5: its two strongest bins give the periods 5 and 2,
    and 2 does not divide 5. *)
Definition ramp_5 : Tensor Z :=
  mkTensor [1; 5; 1] (fun idx => Z.mul (Z.of_nat (nth 1 idx 0)) scale).

(** An input for the Inception block: [1, 1, 2, 3]. *)
Definition grid : Tensor Z := mkTensor [1; 1; 2; 3] (noise 1).

End Example.

(** ** Granularity, as the specification words it

    The frequency codes are the keys of [freq_map]: h hourly, t minutely,
    s secondly, m monthly, a yearly, w weekly, d daily, b business day.  This
    is the specification's "finer than hourly", not a definition of the
    source. *)
Definition spec_finer_than_hourly (freq : string) : bool :=
  (String.eqb freq "t" || String.eqb freq "s")%bool.

(** ** Collaborators that check the subject index

    A second stand-in for [.common]: the subject layers hold one transform
    per subject and raise IndexError for a subject index outside the table,
    as an indexed weight lookup does. *)

Module Example_subjects.

Import Fix.

#[export] Instance collaborators : Common Z := {|
  Batch := Tensor Z;
  subject_index := fun batch => batch;
  ChannelMerger := nat;
  ChannelMerger_init := fun chout _ _ _ _ _ => Ok chout;
  ChannelMerger_forward := fun chout x _ =>
    match shape x with
    | [b; c; t] =>
        Ok (mkTensor [b; chout; t]
              (fun idx => mean_range c
                            (fun ch => elem x [nth 0 idx 0; ch; nth 2 idx 0])))
    | _ => Raise RuntimeError
    end;
  SubjectLayers := nat;
  SubjectLayers_init := fun _ _ n_subjects _ => Ok n_subjects;
  SubjectLayers_forward := fun n_subjects x subjects =>
    _ <- guard (forallb (fun idx =>
                  let v := to_long (elem subjects idx) in
                  (0 <=? v)%Z && (v <? Z.of_nat n_subjects)%Z)
                (all_indices (shape subjects))) IndexError ;;
    Ok x
|}.

(** Two subjects, a merger to 2 channels and subject layers. *)
Definition args : TimesNetArgs Z :=
  mkTimesNetArgs 3 [("meg"%string, 5)] 2 true 64 "input" false true 256 2
    13107%Z 0%Z false 6 2 1 13107%Z 2 2 3 2.

(** A batch of one recording, of subject 7. *)
Definition batch_7 : Tensor Z := mkTensor [1] (fun _ => Z.mul 7 scale).

End Example_subjects.

(** * Properties *)

Section Proofs.

Context {R : Type} {SR : Scalar R}.

(** ** The error monad *)

Lemma bind_Ok (A B : Type) (m : result A) (f : A -> result B) (a : A) :
  m = Ok a -> bind m f = f a.
Proof. intros ->. reflexivity. Qed.

Lemma bind_inv (A B : Type) (m : result A) (f : A -> result B) (b : B) :
  bind m f = Ok b -> exists a, m = Ok a /\ f a = Ok b.
Proof. destruct m as [a|e]; simpl; intros E; [eauto | discriminate]. Qed.

Lemma guard_Ok (b : bool) (e : exn) : b = true -> guard b e = Ok tt.
Proof. intros ->. reflexivity. Qed.

Lemma guard_inv (b : bool) (e : exn) (u : unit) : guard b e = Ok u -> b = true.
Proof. destruct b; simpl; [reflexivity | discriminate]. Qed.

Lemma list_eqb_refl (s : list nat) : list_eqb s s = true.
Proof.
  induction s as [|d s IH]; simpl; [reflexivity|].
  now rewrite Nat.eqb_refl.
Qed.

Lemma list_eqb_eq (a b : list nat) : list_eqb a b = true -> a = b.
Proof.
  revert b. induction a as [|x a IH]; intros [|y b]; simpl; try discriminate.
  - reflexivity.
  - intros E. apply andb_prop in E as [E1 E2].
    apply Nat.eqb_eq in E1. f_equal; auto.
Qed.

(** ** Sums *)

Lemma sum_range_ext (n : nat) (f g : nat -> R) :
  (forall i, i < n -> f i = g i) -> sum_range n f = sum_range n g.
Proof.
  intros E. unfold sum_range.
  assert (E' : forall i, In i (seq 0 n) -> f i = g i)
    by (intros i Hi; apply E; apply in_seq in Hi; lia).
  clear E. induction (seq 0 n) as [|a l IH]; simpl; [reflexivity|].
  rewrite E' by now left. rewrite IH; [reflexivity|].
  intros i Hi. apply E'. now right.
Qed.

Lemma mean_range_ext (n : nat) (f g : nat -> R) :
  (forall i, i < n -> f i = g i) -> mean_range n f = mean_range n g.
Proof. intros E. unfold mean_range. now rewrite (sum_range_ext n f g E). Qed.

(** ** Shapes of the tensor operations *)

Definition has_shape (s : list nat) (x : Tensor R) : Prop := shape x = s.

Lemma permute_021_ok (x : Tensor R) (a b c : nat) :
  shape x = [a; b; c] ->
  exists y, permute [0; 2; 1] x = Ok y /\ shape y = [a; c; b].
Proof.
  intros S. unfold permute. rewrite S. simpl.
  eexists. split; reflexivity.
Qed.

Lemma permute_0312_ok (x : Tensor R) (a b c d : nat) :
  shape x = [a; b; c; d] ->
  exists y, permute [0; 3; 1; 2] x = Ok y /\ shape y = [a; d; b; c].
Proof.
  intros S. unfold permute. rewrite S. simpl.
  eexists. split; reflexivity.
Qed.

Lemma permute_0231_ok (x : Tensor R) (a b c d : nat) :
  shape x = [a; b; c; d] ->
  exists y, permute [0; 2; 3; 1] x = Ok y /\ shape y = [a; c; d; b].
Proof.
  intros S. unfold permute. rewrite S. simpl.
  eexists. split; reflexivity.
Qed.

Lemma reshape_ok (s : list nat) (x : Tensor R) :
  numel s = numel (shape x) ->
  exists y, reshape s x = Ok y /\ shape y = s.
Proof.
  intros E. unfold reshape.
  rewrite (guard_Ok _ _ (proj2 (Nat.eqb_eq _ _) E)). simpl.
  eexists. split; reflexivity.
Qed.

Lemma reshape_infer_ok (x : Tensor R) (b h w n : nat) :
  shape x = [b; h; w; n] -> 0 < b -> 0 < n ->
  exists y, reshape_infer b n x = Ok y /\ shape y = [b; h * w; n].
Proof.
  intros S Hb Hn. unfold reshape_infer.
  assert (Hbn : b * n <> 0) by nia.
  assert (Hnum : numel (shape x) = (h * w) * (b * n))
    by (rewrite S; simpl; nia).
  rewrite guard_Ok by (apply negb_true_iff, Nat.eqb_neq; assumption).
  cbn [bind].
  rewrite guard_Ok
    by (apply Nat.eqb_eq; rewrite Hnum; apply Nat.Div0.mod_mul).
  cbn [bind].
  replace (numel (shape x) / (b * n)) with (h * w)
    by (rewrite Hnum, Nat.div_mul; [reflexivity | assumption]).
  apply reshape_ok. rewrite Hnum. simpl. nia.
Qed.

Lemma slice_to_1_ok (x : Tensor R) (n a b c : nat) :
  shape x = [a; b; c] ->
  exists y, slice_to 1 n x = Ok y /\ shape y = [a; Nat.min n b; c].
Proof.
  intros S. unfold slice_to. rewrite S. simpl.
  eexists. split; reflexivity.
Qed.

Lemma slice_to_2_ok (x : Tensor R) (n a b c : nat) :
  shape x = [a; b; c] ->
  exists y, slice_to 2 n x = Ok y /\ shape y = [a; b; Nat.min n c] /\
            elem y = elem x.
Proof.
  intros S. unfold slice_to. rewrite S. simpl.
  eexists. split; [reflexivity | split; reflexivity].
Qed.

Lemma cat_1_ok (x y : Tensor R) (b t t' n : nat) :
  shape x = [b; t; n] -> shape y = [b; t'; n] ->
  exists z, cat 1 x y = Ok z /\ shape z = [b; t + t'; n].
Proof.
  intros Sx Sy. unfold cat. rewrite Sx, Sy. simpl.
  rewrite !Nat.eqb_refl. simpl.
  eexists. split; reflexivity.
Qed.

Lemma reduce_last_ok (red : nat -> (nat -> R) -> R) (x : Tensor R)
    (s : list nat) (d : nat) :
  shape x = s ++ [d] ->
  exists y, reduce_last red x = Ok y /\ shape y = s /\
            forall idx, elem y idx = red d (fun j => elem x (idx ++ [j])).
Proof.
  intros S. unfold reduce_last. rewrite S, rev_app_distr. simpl.
  eexists. split; [reflexivity|]. simpl. rewrite rev_involutive.
  split; reflexivity.
Qed.

Lemma mean_first_ok (x : Tensor R) (d : nat) (s : list nat) :
  shape x = d :: s ->
  exists y, mean_first x = Ok y /\ shape y = s /\
            forall idx, elem y idx = mean_range d (fun j => elem x (j :: idx)).
Proof.
  intros S. unfold mean_first. rewrite S.
  eexists. split; [reflexivity|]. split; reflexivity.
Qed.

Lemma stack_last_ok (xs : list (Tensor R)) (s : list nat) :
  xs <> [] -> Forall (has_shape s) xs ->
  exists z, stack_last xs = Ok z /\ shape z = s ++ [length xs] /\
            forall idx j, elem z (idx ++ [j]) =
                          elem (nth j xs (hd (zeros []) xs)) idx.
Proof.
  intros Hne Hall. destruct xs as [|x0 rest]; [congruence|].
  inversion Hall as [|? ? H0 Hrest]; subst. unfold stack_last.
  rewrite guard_Ok.
  - cbn [bind]. eexists. split; [reflexivity|]. cbn [shape elem hd].
    rewrite H0. split; [reflexivity|].
    intros idx j. now rewrite last_last, removelast_last.
  - apply forallb_forall. intros y Hy.
    rewrite Forall_forall in Hrest. rewrite H0, (Hrest y Hy).
    apply list_eqb_refl.
Qed.

Lemma binop_same_shape (f : R -> R -> R) (x y : Tensor R) (s : list nat) :
  shape x = s -> shape y = s ->
  exists z, binop f x y = Ok z /\ shape z = s.
Proof.
  intros Sx Sy. unfold binop, broadcast_shapes. rewrite Sx, Sy.
  assert (E : forall l, broadcast_rev l l = Ok l).
  { induction l as [|d l IH]; simpl; [reflexivity|].
    rewrite IH. simpl. now rewrite Nat.eqb_refl. }
  rewrite E. simpl. rewrite rev_involutive.
  eexists. split; reflexivity.
Qed.

(** ** Monadic map *)

Lemma mapM_ok (A B : Type) (f : A -> result B) (P : A -> B -> Prop)
    (l : list A) :
  (forall a, In a l -> exists b, f a = Ok b /\ P a b) ->
  exists bs, mapM f l = Ok bs /\ Forall2 P l bs.
Proof.
  induction l as [|a l IH]; intros Hf; simpl.
  - exists []. split; constructor.
  - destruct (Hf a (or_introl eq_refl)) as (b & Eb & Pb).
    destruct IH as (bs & Ebs & Pbs); [intros; apply Hf; now right|].
    rewrite Eb. cbn [bind]. rewrite Ebs. cbn [bind].
    exists (b :: bs). split; [reflexivity | now constructor].
Qed.

Lemma Forall2_length_eq (A B : Type) (P : A -> B -> Prop) (l : list A)
    (bs : list B) :
  Forall2 P l bs -> length bs = length l.
Proof. induction 1; simpl; congruence. Qed.

Lemma Forall2_Forall_r (A B : Type) (P : A -> B -> Prop) (Q : B -> Prop)
    (l : list A) (bs : list B) :
  Forall2 P l bs -> (forall a b, P a b -> Q b) -> Forall Q bs.
Proof. induction 1; intros HPQ; constructor; eauto. Qed.

Lemma Forall2_nth_error (A B : Type) (P : A -> B -> Prop) (l : list A)
    (bs : list B) (i : nat) (b : B) :
  Forall2 P l bs -> nth_error bs i = Some b ->
  exists a, nth_error l i = Some a /\ P a b.
Proof.
  intros F. revert i. induction F as [|a0 b0 l bs P0 F IH]; intros [|i] E;
    simpl in *; try discriminate.
  - injection E as <-. eauto.
  - auto.
Qed.

(** ** Inception_Block_V1 *)

Lemma Conv2d_forward_same (c : Conv2d) (x : Tensor R) (b h w : nat) :
  shape x = [b; c2_in c; h; w] -> c2_kernel c = 2 * c2_padding c + 1 ->
  1 <= h -> 1 <= w ->
  exists y, Conv2d_forward c x = Ok y /\ shape y = [b; c2_out c; h; w].
Proof.
  intros S K Hh Hw. unfold Conv2d_forward. rewrite S, K.
  rewrite Nat.eqb_refl. cbn [guard bind].
  rewrite !guard_Ok by (apply Nat.leb_le; lia). cbn [bind].
  eexists. split; [reflexivity|]. cbn [shape].
  repeat f_equal; lia.
Qed.

Lemma nth_error_map_seq (A : Type) (f : nat -> A) (n i : nat) :
  i < n -> nth_error (map f (seq 0 n)) i = Some (f i).
Proof.
  intros Hi. rewrite nth_error_map, nth_error_nth' with (d := 0)
    by (rewrite length_seq; assumption).
  rewrite seq_nth by assumption. reflexivity.
Qed.

Lemma Inception_kernels (in_ch out_ch nk i : nat) (iw : bool)
    (dr : InceptionDraws) :
  i < nk ->
  exists c, nth_error (kernels (Inception_Block_V1_init in_ch out_ch nk iw dr)) i
            = Some c /\
            c2_in c = in_ch /\ c2_out c = out_ch /\
            c2_kernel c = 2 * i + 1 /\ c2_padding c = i.
Proof.
  intros Hi. unfold Inception_Block_V1_init. cbn [kernels].
  rewrite nth_error_map_seq by assumption.
  eexists. split; [reflexivity|]. cbn. auto.
Qed.

(** Branch [i] of the block is the convolution [kernels[i]] applied to [x]. *)
Definition is_branch (m : Inception_Block_V1 R) (x : Tensor R) (i : nat)
    (y : Tensor R) : Prop :=
  exists c, nth_error (kernels m) i = Some c /\ Conv2d_forward c x = Ok y.

Lemma Inception_branches_ok (in_ch out_ch nk : nat) (iw : bool)
    (dr : InceptionDraws) (x : Tensor R) (b h w : nat) :
  shape x = [b; in_ch; h; w] -> 1 <= h -> 1 <= w ->
  let m := Inception_Block_V1_init in_ch out_ch nk iw dr in
  exists ys, Inception_Block_V1_branches m x = Ok ys /\
             Forall2 (fun i y => is_branch m x i y /\
                                 shape y = [b; out_ch; h; w])
                     (seq 0 nk) ys.
Proof.
  intros S Hh Hw m. unfold Inception_Block_V1_branches.
  replace (num_kernels m) with nk by reflexivity.
  apply mapM_ok. intros i Hi. apply in_seq in Hi.
  destruct (Inception_kernels in_ch out_ch nk i iw dr) as
    (c & Ec & Ci & Co & Ck & Cp); [lia|].
  fold m in Ec. rewrite Ec.
  destruct (Conv2d_forward_same c x b h w) as (y & Ey & Sy);
    try assumption; [congruence | lia |].
  exists y. split; [assumption|]. split; [exists c; auto | congruence].
Qed.

Lemma Inception_forward_ok (in_ch out_ch nk : nat) (iw : bool)
    (dr : InceptionDraws) (x : Tensor R) (b h w : nat) :
  1 <= nk -> shape x = [b; in_ch; h; w] -> 1 <= h -> 1 <= w ->
  let m := Inception_Block_V1_init in_ch out_ch nk iw dr in
  exists ys y,
    Forall2 (fun i y => is_branch m x i y /\ shape y = [b; out_ch; h; w])
            (seq 0 nk) ys /\
    Inception_Block_V1_forward m x = Ok y /\
    shape y = [b; out_ch; h; w] /\
    forall idx, elem y idx =
                mean_range nk (fun i => elem (nth i ys (zeros [])) idx).
Proof.
  intros Hnk S Hh Hw m.
  destruct (Inception_branches_ok in_ch out_ch nk iw dr x b h w S Hh Hw)
    as (ys & Eys & Fys). fold m in Eys, Fys.
  assert (Lys : length ys = nk)
    by (rewrite (Forall2_length_eq _ _ _ _ _ Fys); apply length_seq).
  destruct (stack_last_ok ys [b; out_ch; h; w]) as (z & Ez & Sz & Vz).
  { intros ->. simpl in Lys. lia. }
  { eapply Forall2_Forall_r; [exact Fys|]. intros i y [_ Sy]. exact Sy. }
  destruct (reduce_last_ok mean_range z [b; out_ch; h; w] (length ys) Sz)
    as (y & Ey & Sy & Vy).
  exists ys, y. split; [exact Fys|].
  unfold Inception_Block_V1_forward. rewrite Eys. cbn [bind].
  rewrite Ez. cbn [bind]. split; [exact Ey|]. split; [exact Sy|].
  intros idx. rewrite Vy, Lys. apply mean_range_ext. intros i Hi.
  rewrite Vz. f_equal. apply nth_indep. lia.
Qed.

(** C6. For every [num_kernels >= 1] and every input of shape
    [B, C_in, H, W] (H and W at least one), [Inception_Block_V1.forward]
    applies [num_kernels] parallel convolutions, branch [i] with kernel size
    [2*i+1] and padding [i], each returning [B, C_out, H, W], and returns
    their elementwise mean, of shape [B, C_out, H, W]. *)
Theorem Inception_Block_V1_forward_mean (in_ch out_ch nk : nat) (iw : bool)
    (dr : InceptionDraws) (x : Tensor R) (b h w : nat) :
  1 <= nk -> 1 <= h -> 1 <= w -> shape x = [b; in_ch; h; w] ->
  let m := Inception_Block_V1_init in_ch out_ch nk iw dr in
  exists ys y,
    length ys = nk /\
    (forall i, i < nk ->
       exists c yi, nth_error (kernels m) i = Some c /\
                    c2_kernel c = 2 * i + 1 /\ c2_padding c = i /\
                    nth_error ys i = Some yi /\
                    Conv2d_forward c x = Ok yi /\
                    shape yi = [b; out_ch; h; w]) /\
    Inception_Block_V1_forward m x = Ok y /\
    shape y = [b; out_ch; h; w] /\
    forall idx, elem y idx =
                mean_range nk (fun i => elem (nth i ys (zeros [])) idx).
Proof.
  intros Hnk Hh Hw S m.
  destruct (Inception_forward_ok in_ch out_ch nk iw dr x b h w Hnk S Hh Hw)
    as (ys & y & Fys & Ey & Sy & Vy). fold m in Fys, Ey.
  assert (Lys : length ys = nk)
    by (rewrite (Forall2_length_eq _ _ _ _ _ Fys); apply length_seq).
  exists ys, y. split; [exact Lys|]. split; [|auto].
  intros i Hi.
  destruct (Inception_kernels in_ch out_ch nk i iw dr Hi)
    as (c & Ec & _ & _ & Ck & Cp). fold m in Ec.
  destruct (nth_error ys i) as [yi|] eqn:Eyi;
    [|apply nth_error_None in Eyi; lia].
  destruct (Forall2_nth_error _ _ _ _ _ i yi Fys Eyi)
    as (j & Ej & (c' & Ec' & Eyc) & Syi).
  assert (j = i).
  { apply nth_error_nth with (d := 0) in Ej. rewrite seq_nth in Ej; lia. }
  subst j. rewrite Ec in Ec'. injection Ec' as <-.
  exists c, yi. auto 10.
Qed.

(** ** Top-k selection *)

Lemma argmax_In (c : nat * R) (l : list (nat * R)) : In (argmax c l) (c :: l).
Proof.
  revert c. induction l as [|a l IH]; intros c; simpl; [now left|].
  destruct (leb (snd a) (snd c));
    [destruct (leb (snd c) (snd a) && tie_first (fst a) (fst c))|].
  - right. apply IH.
  - destruct (IH c) as [E | Hin]; [now left | now right; right].
  - right. apply IH.
Qed.

Lemma filter_other_fst (i : nat) (l : list (nat * R)) :
  ~ In i (map fst l) -> filter (fun p => negb (fst p =? i)) l = l.
Proof.
  induction l as [|a l IH]; simpl; intros Hn; [reflexivity|].
  destruct (Nat.eqb_spec (fst a) i) as [E | NE]; simpl.
  - exfalso. apply Hn. now left.
  - rewrite IH; [reflexivity|]. intros Hi. apply Hn. now right.
Qed.

Lemma filter_drop_length (m : nat * R) (l : list (nat * R)) :
  NoDup (map fst l) -> In m l ->
  S (length (filter (fun p => negb (fst p =? fst m)) l)) = length l.
Proof.
  induction l as [|a l IH]; simpl; intros ND Hin; [contradiction|].
  inversion ND as [|? ? Ha ND']; subst.
  destruct Hin as [-> | Hin].
  - rewrite Nat.eqb_refl. simpl. now rewrite filter_other_fst.
  - destruct (Nat.eqb_spec (fst a) (fst m)) as [E | NE]; simpl.
    + exfalso. apply Ha. rewrite E. now apply in_map.
    + now rewrite IH.
Qed.

Lemma filter_fst_In (i j : nat) (l : list (nat * R)) :
  In j (map fst (filter (fun p => negb (fst p =? i)) l)) ->
  j <> i /\ In j (map fst l).
Proof.
  rewrite !in_map_iff. intros (p & <- & Hp).
  apply filter_In in Hp as [Hp Hne].
  apply negb_true_iff, Nat.eqb_neq in Hne. split; [assumption|].
  exists p. auto.
Qed.

Lemma filter_fst_NoDup (i : nat) (l : list (nat * R)) :
  NoDup (map fst l) ->
  NoDup (map fst (filter (fun p => negb (fst p =? i)) l)).
Proof.
  induction l as [|a l IH]; simpl; intros ND; [constructor|].
  inversion ND as [|? ? Ha ND']; subst.
  destruct (negb (fst a =? i)); simpl; [|auto].
  constructor; [|auto]. intros Hin. apply Ha.
  now apply filter_fst_In in Hin.
Qed.

Lemma select_top_S (k : nat) (c : nat * R) (l : list (nat * R)) :
  select_top (S k) (c :: l) =
  fst (argmax c l)
  :: select_top k (filter (fun p => negb (fst p =? fst (argmax c l))) (c :: l)).
Proof. reflexivity. Qed.

Lemma select_top_In (k : nat) (l : list (nat * R)) (i : nat) :
  In i (select_top k l) -> In i (map fst l).
Proof.
  revert l. induction k as [|k IH]; intros l; [contradiction|].
  destruct l as [|c l]; [contradiction|].
  rewrite select_top_S. intros [<- | Hin].
  - apply in_map. apply argmax_In.
  - apply IH in Hin. now apply filter_fst_In in Hin.
Qed.

Lemma select_top_length (k : nat) (l : list (nat * R)) :
  NoDup (map fst l) -> k <= length l -> length (select_top k l) = k.
Proof.
  revert l. induction k as [|k IH]; intros l ND Hk; [reflexivity|].
  destruct l as [|c l]; [simpl in Hk; lia|].
  rewrite select_top_S. cbn [length]. f_equal. apply IH.
  - now apply filter_fst_NoDup.
  - pose proof (filter_drop_length (argmax c l) (c :: l) ND (argmax_In c l))
      as E.
    rewrite <- E in Hk. lia.
Qed.

Lemma select_top_NoDup (k : nat) (l : list (nat * R)) :
  NoDup (map fst l) -> NoDup (select_top k l).
Proof.
  revert l. induction k as [|k IH]; intros l ND; [constructor|].
  destruct l as [|c l]; [constructor|].
  rewrite select_top_S. constructor.
  - intros Hin. apply select_top_In, filter_fst_In in Hin. now destruct Hin.
  - apply IH. now apply filter_fst_NoDup.
Qed.

(** ** FFT_for_Period *)

Lemma rfft_abs_ok (x : Tensor R) (b t c : nat) :
  shape x = [b; t; c] -> 1 <= t ->
  exists xf, rfft_abs x = Ok xf /\ shape xf = [b; t / 2 + 1; c].
Proof.
  intros S Ht. unfold rfft_abs. rewrite S.
  rewrite guard_Ok by (apply Nat.ltb_lt; lia). cbn [bind].
  eexists. split; reflexivity.
Qed.

(** The amplitude of frequency bin [i]: the modulus averaged over the batch,
    then over the channels. *)
Definition amplitude (xf : Tensor R) (b c i : nat) : R :=
  mean_range c (fun ch => mean_range b (fun n => elem xf [n; i; ch])).

Lemma FFT_frequency_list_ok (xf : Tensor R) (b f c : nat) :
  shape xf = [b; f; c] -> 1 <= f ->
  exists fl, FFT_frequency_list xf = Ok fl /\ shape fl = [f] /\
             elem fl [0] = zero /\
             forall i, i <> 0 -> elem fl [i] = amplitude xf b c i.
Proof.
  intros S Hf. unfold FFT_frequency_list.
  destruct (mean_first_ok xf b [f; c] S) as (m0 & E0 & S0 & V0).
  rewrite E0. cbn [bind].
  destruct (reduce_last_ok mean_range m0 [f] c S0) as (m1 & E1 & S1 & V1).
  unfold mean_last. rewrite E1. cbn [bind].
  unfold clear_first. rewrite S1.
  rewrite guard_Ok by (apply Nat.ltb_lt; lia). cbn [bind].
  eexists. split; [reflexivity|]. cbn [shape elem nth].
  split; [reflexivity|]. split; [reflexivity|].
  intros i Hi. destruct (Nat.eqb_spec i 0) as [E | _]; [contradiction|].
  rewrite V1. unfold amplitude. apply mean_range_ext. intros ch _.
  rewrite V0. reflexivity.
Qed.

(** The bins with their values, as [topk] reads them. *)
Definition bins (v : Tensor R) (n : nat) : list (nat * R) :=
  map (fun i => (i, elem v [i])) (seq 0 n).

Lemma bins_fst (v : Tensor R) (n : nat) : map fst (bins v n) = seq 0 n.
Proof.
  unfold bins. rewrite map_map. cbn [fst]. apply map_id.
Qed.

Lemma topk_ok (v : Tensor R) (n k : nat) :
  shape v = [n] -> k <= n ->
  topk v k = Ok (select_top k (bins v n)) /\
  length (select_top k (bins v n)) = k /\
  NoDup (select_top k (bins v n)) /\
  Forall (fun i => i < n) (select_top k (bins v n)).
Proof.
  intros S Hk. unfold topk. rewrite S.
  rewrite guard_Ok by (apply Nat.leb_le; assumption). cbn [bind].
  assert (ND : NoDup (map fst (bins v n)))
    by (rewrite bins_fst; apply seq_NoDup).
  split; [reflexivity|]. split; [|split].
  - apply select_top_length; [assumption|].
    unfold bins. now rewrite length_map, length_seq.
  - now apply select_top_NoDup.
  - apply Forall_forall. intros i Hi. apply select_top_In in Hi.
    rewrite bins_fst in Hi. apply in_seq in Hi. lia.
Qed.

Lemma take_columns_ok (top : list nat) (m : Tensor R) (b f : nat) :
  shape m = [b; f] -> Forall (fun i => i < f) top ->
  exists w, take_columns top m = Ok w /\ shape w = [b; length top] /\
            forall n j, elem w [n; j] = elem m [n; nth j top 0].
Proof.
  intros S Ht. unfold take_columns. rewrite S.
  rewrite guard_Ok.
  - cbn [bind]. eexists. split; [reflexivity|]. split; reflexivity.
  - apply forallb_forall. intros i Hi. rewrite Forall_forall in Ht.
    apply Nat.ltb_lt. auto.
Qed.

(** What [FFT_for_Period] computes, step by step. *)
Lemma FFT_for_Period_ok (x : Tensor R) (b t c k : nat) :
  shape x = [b; t; c] -> 1 <= t -> k <= t / 2 + 1 ->
  exists xf fl w,
    rfft_abs x = Ok xf /\ shape xf = [b; t / 2 + 1; c] /\
    FFT_frequency_list xf = Ok fl /\ shape fl = [t / 2 + 1] /\
    elem fl [0] = zero /\
    (forall i, i <> 0 -> elem fl [i] = amplitude xf b c i) /\
    let top := select_top k (bins fl (t / 2 + 1)) in
    FFT_top_list x k = Ok top /\
    length top = k /\ NoDup top /\ Forall (fun i => i < t / 2 + 1) top /\
    FFT_for_Period x k = Ok (map (fun i => t / i) top, w) /\
    shape w = [b; k] /\
    forall n j, elem w [n; j] =
                mean_range c (fun ch => elem xf [n; nth j top 0; ch]).
Proof.
  intros S Ht Hk.
  destruct (rfft_abs_ok x b t c S Ht) as (xf & Exf & Sxf).
  destruct (FFT_frequency_list_ok xf b (t / 2 + 1) c Sxf) as
    (fl & Efl & Sfl & V0 & Vfl); [lia|].
  destruct (topk_ok fl (t / 2 + 1) k Sfl Hk) as (Etop & Ltop & NDtop & Ftop).
  destruct (reduce_last_ok mean_range xf [b; t / 2 + 1] c Sxf)
    as (m & Em & Sm & Vm).
  destruct (take_columns_ok _ m b (t / 2 + 1) Sm Ftop) as (w & Ew & Sw & Vw).
  exists xf, fl, w. repeat (split; [assumption|]). cbn zeta.
  split; [unfold FFT_top_list; rewrite Exf; cbn [bind]; rewrite Efl;
          cbn [bind]; exact Etop|].
  repeat (split; [assumption|]).
  split; [|split].
  - unfold FFT_for_Period. rewrite Exf. cbn [bind]. rewrite Efl. cbn [bind].
    rewrite Etop. cbn [bind]. unfold mean_last. rewrite Em. cbn [bind].
    rewrite Ew. cbn [bind]. rewrite S. reflexivity.
  - now rewrite Sw, Ltop.
  - intros n j. rewrite Vw, Vm. reflexivity.
Qed.

(** C7. For an input of shape [B, T, C] and every k between 1 and the number
    of rfft bins T/2+1, [FFT_for_Period] returns (raises nothing) with k
    periods and a [B, k] weight tensor.  Nothing special is done when k
    exceeds the bins of nonzero amplitude: with k equal to the number of bins
    the cleared DC bin is among the selected ones. *)
Theorem FFT_for_Period_returns (x : Tensor R) (b t c k : nat) :
  shape x = [b; t; c] -> 1 <= t -> 1 <= k -> k <= t / 2 + 1 ->
  exists top period w,
    FFT_top_list x k = Ok top /\
    FFT_for_Period x k = Ok (period, w) /\
    period = map (fun i => t / i) top /\
    length period = k /\ shape w = [b; k] /\
    (k = t / 2 + 1 -> In 0 top).
Proof.
  intros S Ht Hk1 Hk.
  destruct (FFT_for_Period_ok x b t c k S Ht Hk) as
    (xf & fl & w & _ & _ & _ & _ & _ & _ & Etop & Ltop & ND & Ftop & E & Sw & _).
  eexists _, _, w. split; [exact Etop|]. split; [exact E|].
  split; [reflexivity|]. split; [now rewrite length_map|].
  split; [assumption|]. intros ->.
  apply (NoDup_length_incl ND (l' := seq 0 (t / 2 + 1))).
  - rewrite length_seq, Ltop. lia.
  - intros i Hi. rewrite Forall_forall in Ftop. apply in_seq.
    specialize (Ftop i Hi). lia.
  - apply in_seq. lia.
Qed.

Section Ordered.

(** On an ordered backend (no NaN) the selection is of the largest values. *)
Hypothesis leb_total : forall a b : R, leb a b = true \/ leb b a = true.
Hypothesis leb_trans :
  forall a b c : R, leb a b = true -> leb b c = true -> leb a c = true.

Lemma argmax_max (c : nat * R) (l : list (nat * R)) (p : nat * R) :
  In p (c :: l) -> leb (snd p) (snd (argmax c l)) = true.
Proof.
  revert c p. induction l as [|a l IH]; intros c p Hin; simpl.
  - destruct Hin as [<- | []]. destruct (leb_total (snd c) (snd c)); auto.
  - destruct (leb (snd a) (snd c)) eqn:E;
      [destruct (leb (snd c) (snd a) && tie_first (fst a) (fst c)) eqn:E'|].
    + apply andb_true_iff in E' as [E' _].
      destruct Hin as [<- | [<- | Hin]].
      * eapply leb_trans; [exact E'|]. apply IH. now left.
      * apply IH. now left.
      * apply IH. now right.
    + destruct Hin as [<- | [<- | Hin]].
      * apply IH. now left.
      * eapply leb_trans; [exact E|]. apply IH. now left.
      * apply IH. now right.
    + destruct Hin as [<- | [<- | Hin]].
      * eapply leb_trans; [|apply IH; now left].
        destruct (leb_total (snd c) (snd a)); congruence.
      * apply IH. now left.
      * apply IH. now right.
Qed.

Lemma select_top_largest (k : nat) (l : list (nat * R)) (p q : nat * R) :
  NoDup (map fst l) -> In p l -> In q l ->
  In (fst p) (select_top k l) -> ~ In (fst q) (select_top k l) ->
  leb (snd q) (snd p) = true.
Proof.
  revert l. induction k as [|k IH]; intros l ND Hp Hq Sp Sq;
    [contradiction|].
  destruct l as [|c l]; [contradiction|].
  rewrite select_top_S in Sp, Sq.
  set (m := argmax c l) in *.
  assert (Hm : In m (c :: l)) by apply argmax_In.
  assert (Hq' : In q (filter (fun r => negb (fst r =? fst m)) (c :: l))).
  { apply filter_In. split; [assumption|].
    apply negb_true_iff, Nat.eqb_neq. intros E. apply Sq. now left. }
  destruct Sp as [E | Sp].
  - assert (p = m) as ->.
    { clear - ND Hp Hm E. induction (c :: l) as [|a l' IH'];
        [contradiction|].
      inversion ND as [|? ? Ha ND']; subst.
      destruct Hp as [-> | Hp], Hm as [-> | Hm]; auto.
      - exfalso. apply Ha. rewrite <- E. now apply in_map.
      - exfalso. apply Ha. rewrite E. now apply in_map. }
    now apply argmax_max.
  - assert (Hp' : In p (filter (fun r => negb (fst r =? fst m)) (c :: l))).
    { apply filter_In. split; [assumption|].
      apply negb_true_iff, Nat.eqb_neq. intros E.
      apply select_top_In, filter_fst_In in Sp. now destruct Sp. }
    apply (IH (filter (fun r => negb (fst r =? fst m)) (c :: l))
              (filter_fst_NoDup _ _ ND) Hp' Hq' Sp).
    intros Hin. apply Sq. now right.
Qed.

(** C4, as the code has it.  For an input of shape [B, T, C] with T >= 1
    and 1 <= k <= T // 2 + 1, the number of bins (beyond it [torch.topk]
    raises), [FFT_for_Period] takes the modulus of the real-input DFT along the
    time axis, averages it over batch and channels into one amplitude per
    bin, sets the amplitude of bin 0 to zero, selects k distinct bins of
    largest amplitude, and returns the k periods [T // index] together with
    the [B, k] tensor of the channel-averaged modulus at the selected bins. *)
Theorem FFT_for_Period_spec (x : Tensor R) (b t c k : nat) :
  shape x = [b; t; c] -> 1 <= t -> 1 <= k -> k <= t / 2 + 1 ->
  exists xf fl top w,
    rfft_abs x = Ok xf /\ shape xf = [b; t / 2 + 1; c] /\
    FFT_frequency_list xf = Ok fl /\
    shape fl = [t / 2 + 1] /\ elem fl [0] = zero /\
    (forall i, i <> 0 -> elem fl [i] = amplitude xf b c i) /\
    FFT_top_list x k = Ok top /\
    length top = k /\ NoDup top /\ Forall (fun i => i < t / 2 + 1) top /\
    (forall i j, In i top -> j < t / 2 + 1 -> ~ In j top ->
                 leb (elem fl [j]) (elem fl [i]) = true) /\
    FFT_for_Period x k = Ok (map (fun i => t / i) top, w) /\
    shape w = [b; k] /\
    forall n j, j < k ->
      elem w [n; j] = mean_range c (fun ch => elem xf [n; nth j top 0; ch]).
Proof.
  intros S Ht Hk1 Hk.
  destruct (FFT_for_Period_ok x b t c k S Ht Hk) as
    (xf & fl & w & Exf & Sxf & Efl & Sfl & V0 & Vfl & Etop & Ltop & ND & Ftop
     & E & Sw & Vw).
  exists xf, fl, (select_top k (bins fl (t / 2 + 1))), w.
  repeat (split; [assumption|]).
  split; [|split; [assumption|split; [assumption|intros; apply Vw]]].
  intros i j Hi Hj Hnj.
  assert (Hbin : forall a, a < t / 2 + 1 ->
                           In (a, elem fl [a]) (bins fl (t / 2 + 1))).
  { intros a Ha. unfold bins. apply in_map_iff. exists a. split; auto.
    apply in_seq. lia. }
  apply (select_top_largest k (bins fl (t / 2 + 1))
           (i, elem fl [i]) (j, elem fl [j])); auto.
  - rewrite bins_fst. apply seq_NoDup.
  - apply Hbin. rewrite Forall_forall in Ftop. auto.
Qed.

End Ordered.

(** ** TimesBlock *)

Lemma FFT_top_list_inv (x : Tensor R) (b t c k : nat) (top : list nat) :
  shape x = [b; t; c] -> FFT_top_list x k = Ok top ->
  1 <= t /\ k <= t / 2 + 1.
Proof.
  intros S E. unfold FFT_top_list in E.
  destruct (Nat.le_gt_cases 1 t) as [Ht | Ht].
  - split; [assumption|].
    destruct (rfft_abs_ok x b t c S Ht) as (xf & Exf & Sxf).
    rewrite Exf in E. cbn [bind] in E.
    destruct (FFT_frequency_list_ok xf b (t / 2 + 1) c Sxf) as
      (fl & Efl & Sfl & _); [lia|].
    rewrite Efl in E. cbn [bind] in E. unfold topk in E. rewrite Sfl in E.
    destruct (Nat.leb_spec k (t / 2 + 1)); [assumption | discriminate].
  - exfalso. unfold rfft_abs in E. rewrite S in E.
    replace t with 0 in E by lia. discriminate.
Qed.

Lemma TimesBlock_conv_ok (t d_model d_ff nk top_k : nat) (dr : BlockDraws R)
    (x : Tensor R) (b h w : nat) :
  1 <= nk -> shape x = [b; d_model; h; w] -> 1 <= h -> 1 <= w ->
  exists y, TimesBlock_conv (TimesBlock_init t d_model d_ff nk top_k dr) x
            = Ok y /\ shape y = [b; d_model; h; w].
Proof.
  intros Hnk S Hh Hw. unfold TimesBlock_conv, TimesBlock_init.
  cbn [conv_0 conv_2].
  destruct (Inception_forward_ok d_model d_ff nk true (conv_expand dr)
              x b h w Hnk S Hh Hw) as (_ & y & _ & Ey & Sy & _).
  rewrite Ey. cbn [bind].
  destruct (Inception_forward_ok d_ff d_model nk true (conv_project dr)
              (gelu y) b h w Hnk Sy Hh Hw) as (_ & z & _ & Ez & Sz & _).
  exists z. auto.
Qed.

(** The 2-D grid the loop builds for a positive period. *)
Lemma TimesBlock_grid (m : TimesBlock R) (x : Tensor R) (b n period : nat) :
  shape x = [b; seq_len m; n] -> 1 <= seq_len m -> 1 <= period ->
  exists length out,
    (if negb (np_mod (seq_len m) period =? 0)
     then
       let length := (np_floordiv (seq_len m) period + 1) * period in
       let padding := zeros [nth 0 (shape x) 0; length - seq_len m;
                             nth 2 (shape x) 0] in
       out <- cat 1 x padding ;;
       Ok (length, out)
     else Ok (seq_len m, x)) = Ok (length, out) /\
    shape out = [b; length; n] /\
    seq_len m <= length /\ 1 <= length / period /\
    length = length / period * period.
Proof.
  intros S Ht Hp. set (t := seq_len m) in *.
  unfold np_mod, np_floordiv.
  destruct (Nat.eqb_spec period 0) as [E0 | _]; [lia|].
  pose proof (Nat.div_mod_eq t period) as Hdm.
  pose proof (Nat.mod_upper_bound t period ltac:(lia)) as Hub.
  destruct (Nat.eqb_spec (t mod period) 0) as [Ez | Enz]; cbn [negb].
  - exists t, x. split; [reflexivity|]. split; [assumption|].
    split; [lia|].
    assert (t = t / period * period) by lia.
    split; [|assumption].
    destruct (t / period); [lia | lia].
  - set (len := (t / period + 1) * period).
    assert (Hlen : t <= len) by (unfold len; nia).
    destruct (cat_1_ok x (zeros [nth 0 (shape x) 0; len - t;
                                 nth 2 (shape x) 0]) b t (len - t) n S)
      as (out & Eo & So); [rewrite S; reflexivity|].
    cbn zeta. fold len. rewrite Eo. cbn [bind].
    exists len, out. split; [reflexivity|].
    replace (t + (len - t)) with len in So by lia.
    split; [assumption|]. split; [assumption|].
    assert (Hd : len / period = t / period + 1)
      by (unfold len; apply Nat.div_mul; lia).
    rewrite Hd. split; [lia | reflexivity].
Qed.

Lemma TimesBlock_period_ok (t d_model d_ff nk top_k : nat) (dr : BlockDraws R)
    (x : Tensor R) (b period : nat) :
  shape x = [b; t; d_model] -> 1 <= b -> 1 <= d_model -> 1 <= nk ->
  1 <= t -> 1 <= period ->
  exists y,
    TimesBlock_period (TimesBlock_init t d_model d_ff nk top_k dr) x b
      d_model period = Ok y /\
    shape y = [b; t; d_model].
Proof.
  intros S Hb Hn Hnk Ht Hp.
  set (m := TimesBlock_init t d_model d_ff nk top_k dr).
  destruct (TimesBlock_grid m x b d_model period S Ht Hp)
    as (len & out & Eg & So & Hlen & Hh & Hmul).
  unfold TimesBlock_period. cbv zeta in Eg. rewrite Eg. cbn [bind].
  unfold np_floordiv.
  destruct (reshape_ok [b; len / period; period; d_model] out)
    as (o1 & E1 & S1).
  { rewrite So. simpl. rewrite Hmul at 2. nia. }
  rewrite E1. cbn [bind].
  destruct (permute_0312_ok o1 _ _ _ _ S1) as (o2 & E2 & S2).
  rewrite E2. cbn [bind].
  destruct (TimesBlock_conv_ok t d_model d_ff nk top_k dr o2 b
              (len / period) period Hnk S2 Hh Hp) as (o3 & E3 & S3).
  fold m in E3. rewrite E3. cbn [bind].
  destruct (permute_0231_ok o3 _ _ _ _ S3) as (o4 & E4 & S4).
  rewrite E4. cbn [bind].
  destruct (reshape_infer_ok o4 b (len / period) period d_model S4)
    as (o5 & E5 & S5); [lia | lia |].
  rewrite E5. cbn [bind]. rewrite <- Hmul in S5.
  destruct (slice_to_1_ok o5 (seq_len m) b len d_model S5) as (y & Ey & Sy).
  exists y. split; [assumption|]. rewrite Sy. cbn [seq_len m TimesBlock_init].
  repeat f_equal. apply Nat.min_l. exact Hlen.
Qed.

Lemma softmax1_ok (w : Tensor R) (b k : nat) :
  shape w = [b; k] -> exists y, softmax1 w = Ok y /\ shape y = [b; k].
Proof.
  intros S. unfold softmax1. rewrite S. eexists. split; reflexivity.
Qed.

Lemma period_weight_ok (w : Tensor R) (b t n k : nat) :
  shape w = [b; k] ->
  exists y, (pw <- softmax1 w ;;
             pw <- unsqueeze 1 pw ;;
             pw <- unsqueeze 1 pw ;;
             repeat_t [1; t; n; 1] pw) = Ok y /\
            shape y = [b; t; n; k].
Proof.
  intros S. destruct (softmax1_ok w b k S) as (y0 & E0 & S0).
  rewrite E0. cbn [bind]. unfold unsqueeze at 1. rewrite S0.
  cbn [length Nat.leb guard bind firstn skipn app].
  unfold unsqueeze. cbn [shape length Nat.leb guard bind firstn skipn app].
  unfold repeat_t.
  cbn [shape length Nat.eqb guard bind firstn skipn app combine map].
  eexists. split; [reflexivity|]. cbn [shape]. repeat f_equal; lia.
Qed.

(** The block succeeds and keeps the shape once every selected bin is a
    positive frequency. *)
Lemma TimesBlock_forward_ok (t d_model d_ff nk top_k : nat) (dr : BlockDraws R)
    (x : Tensor R) (b : nat) (top : list nat) :
  shape x = [b; t; d_model] -> 1 <= b -> 1 <= d_model -> 1 <= nk ->
  1 <= top_k -> FFT_top_list x top_k = Ok top ->
  Forall (fun i => i <> 0) top ->
  exists y, TimesBlock_forward (TimesBlock_init t d_model d_ff nk top_k dr) x
            = Ok y /\ shape y = [b; t; d_model].
Proof.
  intros S Hb Hn Hnk Hk Etop Hnz.
  destruct (FFT_top_list_inv x b t d_model top_k top S Etop) as [Ht Hkf].
  destruct (FFT_for_Period_ok x b t d_model top_k S Ht Hkf) as
    (xf & fl & w & _ & _ & _ & _ & _ & _ & Etop' & Ltop & _ & Ftop & E & Sw
     & _).
  cbv zeta in Etop', Ltop, Ftop, E.
  assert (Et : select_top top_k (bins fl (t / 2 + 1)) = top) by congruence.
  rewrite Et in Ltop, Ftop, E. clear Et Etop'.
  set (m := TimesBlock_init t d_model d_ff nk top_k dr).
  unfold TimesBlock_forward. rewrite S.
  replace (k m) with top_k by reflexivity.
  rewrite E. cbn [bind].
  destruct (mapM_ok _ _
              (fun i => TimesBlock_period m x b d_model
                          (nth i (map (fun i => t / i) top) 0))
              (fun _ y => shape y = [b; t; d_model]) (seq 0 top_k))
    as (res & Eres & Fres).
  { intros i Hi. apply in_seq in Hi.
    apply TimesBlock_period_ok; try assumption.
    assert (Hin : In (nth i top 0) top) by (apply nth_In; lia).
    rewrite Forall_forall in Hnz, Ftop.
    specialize (Hnz _ Hin). specialize (Ftop _ Hin).
    rewrite (nth_indep _ 0 ((fun i => t / i) 0))
      by (rewrite length_map; lia).
    rewrite map_nth.
    apply Nat.div_str_pos. split; [lia|].
    pose proof (Nat.div_mod_eq t 2). lia. }
  rewrite Eres. cbn [bind].
  assert (Lres : length res = top_k)
    by (rewrite (Forall2_length_eq _ _ _ _ _ Fres); apply length_seq).
  destruct (stack_last_ok res [b; t; d_model]) as (st & Est & Sst & _).
  { intros ->. simpl in Lres. lia. }
  { eapply Forall2_Forall_r; [exact Fres|]. intros ? ? Sy. exact Sy. }
  rewrite Est. cbn [bind]. rewrite Lres in Sst. cbn [app] in Sst.
  destruct (period_weight_ok w b t d_model top_k Sw) as (pw & Epw & Spw).
  cbn [bind] in Epw.
  destruct (softmax1 w) as [w1|]; [|discriminate]. cbn [bind] in Epw |- *.
  destruct (unsqueeze 1 w1) as [w2|]; [|discriminate]. cbn [bind] in Epw |- *.
  destruct (unsqueeze 1 w2) as [w3|]; [|discriminate]. cbn [bind] in Epw |- *.
  rewrite Epw. cbn [bind].
  destruct (binop_same_shape mul st pw _ Sst Spw) as (pr & Epr & Spr).
  unfold tmul. rewrite Epr. cbn [bind].
  destruct (reduce_last_ok sum_range pr [b; t; d_model] top_k Spr)
    as (sm & Esm & Ssm & _).
  unfold sum_last. rewrite Esm. cbn [bind].
  apply binop_same_shape; assumption.
Qed.

(** ** Embeddings *)

Lemma Embed_inv (embed_type : string) (w : list nat -> R) (size d_model : nat)
    (e : Embedding) :
  Embed embed_type w size d_model = Ok e ->
  num_embeddings e = size /\ embedding_dim e = d_model.
Proof.
  unfold Embed, FixedEmbedding_init.
  destruct (String.eqb embed_type "fixed").
  - intros E. apply bind_inv in E as (t & _ & E). injection E as <-. auto.
  - intros E. injection E as <-. auto.
Qed.

Lemma DataEmbedding_forward_flat (m : DataEmbedding R) (x : Tensor R) :
  DataEmbedding_forward m x None =
    (v <- TokenEmbedding_forward (value_embedding m) x ;;
     p <- PositionalEmbedding_forward (position_embedding m) x ;;
     s <- tadd v p ;;
     Ok (Dropout_forward (de_dropout m) s)).
Proof.
  unfold DataEmbedding_forward.
  destruct (TokenEmbedding_forward (value_embedding m) x) as [v|e];
    [|reflexivity]. cbn [bind].
  destruct (PositionalEmbedding_forward (position_embedding m) x) as [p|e];
    [|reflexivity]. cbn [bind].
  destruct (tadd v p); reflexivity.
Qed.

(** C9. With [x_mark] None, [DataEmbedding.forward] is
    dropout(TokenEmbedding(x) + PositionalEmbedding(x)): the temporal
    embedding is not evaluated and whatever module stands there does not
    change the result. *)
Theorem DataEmbedding_forward_None (m : DataEmbedding R) (x : Tensor R) :
  DataEmbedding_forward m x None =
    (v <- TokenEmbedding_forward (value_embedding m) x ;;
     p <- PositionalEmbedding_forward (position_embedding m) x ;;
     s <- tadd v p ;;
     Ok (Dropout_forward (de_dropout m) s)) /\
  forall te : temporal_module,
    DataEmbedding_forward
      (mkDataEmbedding (value_embedding m) (position_embedding m) te
         (de_dropout m)) x None
    = DataEmbedding_forward m x None.
Proof.
  split; [apply DataEmbedding_forward_flat|].
  intros te. rewrite !DataEmbedding_forward_flat. reflexivity.
Qed.

(** ** Outcomes that depend on shapes only

    Whether an operation raises, which exception, and the shape it returns
    are decided by the shapes of its arguments.  [rshape] keeps exactly that
    of a result. *)

Definition rshape (r : result (Tensor R)) : result (list nat) :=
  match r with
  | Ok t => Ok (shape t)
  | Raise e => Raise e
  end.

Definition rshapes (r : result (list (Tensor R))) : result (list (list nat)) :=
  match r with
  | Ok ts => Ok (map shape ts)
  | Raise e => Raise e
  end.

Lemma rshape_bind (m m' : result (Tensor R)) (f f' : Tensor R -> result (Tensor R)) :
  rshape m = rshape m' ->
  (forall a a', shape a = shape a' -> rshape (f a) = rshape (f' a')) ->
  rshape (bind m f) = rshape (bind m' f').
Proof.
  destruct m as [a|e], m' as [a'|e']; simpl; intros E Hf;
    try discriminate; [|congruence].
  apply Hf. congruence.
Qed.

Lemma rshape_bind_same (A : Type) (m : result A)
    (f f' : A -> result (Tensor R)) :
  (forall a, rshape (f a) = rshape (f' a)) ->
  rshape (bind m f) = rshape (bind m f').
Proof. destruct m as [a|e]; simpl; auto. Qed.

Lemma rshapes_bind (m m' : result (list (Tensor R)))
    (f f' : list (Tensor R) -> result (Tensor R)) :
  rshapes m = rshapes m' ->
  (forall a a', map shape a = map shape a' -> rshape (f a) = rshape (f' a')) ->
  rshape (bind m f) = rshape (bind m' f').
Proof.
  destruct m as [a|e], m' as [a'|e']; simpl; intros E Hf;
    try discriminate; [|congruence].
  apply Hf. congruence.
Qed.

Lemma mapM_rshapes (A : Type) (f f' : A -> result (Tensor R)) (l : list A) :
  (forall a, In a l -> rshape (f a) = rshape (f' a)) ->
  rshapes (mapM f l) = rshapes (mapM f' l).
Proof.
  induction l as [|a l IH]; intros Hf; [reflexivity|]. simpl.
  pose proof (Hf a (or_introl eq_refl)) as Ha.
  assert (IH' : rshapes (mapM f l) = rshapes (mapM f' l))
    by (apply IH; intros; apply Hf; now right).
  destruct (f a) as [b|e], (f' a) as [b'|e']; simpl in Ha;
    try discriminate; cbn [bind]; [|simpl; congruence].
  destruct (mapM f l) as [bs|e], (mapM f' l) as [bs'|e']; simpl in IH';
    try discriminate; cbn [bind rshapes map]; congruence.
Qed.

Ltac shape_only E :=
  rewrite ?E;
  repeat match goal with
         | |- context [guard ?b ?e] => destruct b; cbn [guard bind]
         end;
  try reflexivity.

Lemma permute_rshape (perm : list nat) (x x' : Tensor R) :
  shape x = shape x' -> rshape (permute perm x) = rshape (permute perm x').
Proof. intros E. unfold permute. shape_only E. Qed.

Lemma reshape_rshape (s : list nat) (x x' : Tensor R) :
  shape x = shape x' -> rshape (reshape s x) = rshape (reshape s x').
Proof. intros E. unfold reshape. shape_only E. Qed.

Lemma reshape_infer_rshape (b n : nat) (x x' : Tensor R) :
  shape x = shape x' ->
  rshape (reshape_infer b n x) = rshape (reshape_infer b n x').
Proof.
  intros E. unfold reshape_infer. rewrite E.
  destruct (guard (negb (b * n =? 0)) RuntimeError); [|reflexivity].
  cbn [bind].
  destruct (guard (numel (shape x') mod (b * n) =? 0) RuntimeError);
    [|reflexivity].
  cbn [bind]. now apply reshape_rshape.
Qed.

Lemma slice_to_rshape (ax n : nat) (x x' : Tensor R) :
  shape x = shape x' -> rshape (slice_to ax n x) = rshape (slice_to ax n x').
Proof. intros E. unfold slice_to. shape_only E. Qed.

Lemma reduce_last_rshape (red : nat -> (nat -> R) -> R) (x x' : Tensor R) :
  shape x = shape x' ->
  rshape (reduce_last red x) = rshape (reduce_last red x').
Proof.
  intros E. unfold reduce_last. rewrite E.
  destruct (rev (shape x')); reflexivity.
Qed.

Lemma binop_rshape (f : R -> R -> R) (x x' y y' : Tensor R) :
  shape x = shape x' -> shape y = shape y' ->
  rshape (binop f x y) = rshape (binop f x' y').
Proof.
  intros Ex Ey. unfold binop. rewrite Ex, Ey.
  destruct (broadcast_shapes (shape x') (shape y')); reflexivity.
Qed.

Lemma stack_last_rshape (xs xs' : list (Tensor R)) :
  map shape xs = map shape xs' ->
  rshape (stack_last xs) = rshape (stack_last xs').
Proof.
  intros E. destruct xs as [|x0 rest], xs' as [|x0' rest'];
    try discriminate; [reflexivity|].
  injection E as E0 Er. unfold stack_last.
  assert (Eg : forallb (fun y => list_eqb (shape x0) (shape y)) rest =
               forallb (fun y => list_eqb (shape x0') (shape y)) rest').
  { rewrite E0. clear E0. revert rest' Er.
    induction rest as [|y r IH]; intros [|y' r'] Er; try discriminate;
      [reflexivity|].
    injection Er as Ey Er. simpl. rewrite Ey. f_equal. auto. }
  rewrite Eg.
  destruct (forallb _ rest'); cbn [guard bind rshape shape]; [|reflexivity].
  apply (f_equal (@length _)) in Er. rewrite !length_map in Er.
  cbn [length]. rewrite E0, Er. reflexivity.
Qed.

Lemma Conv2d_forward_rshape (c c' : Conv2d) (x x' : Tensor R) :
  c2_in c = c2_in c' -> c2_out c = c2_out c' ->
  c2_kernel c = c2_kernel c' -> c2_padding c = c2_padding c' ->
  shape x = shape x' ->
  rshape (Conv2d_forward c x) = rshape (Conv2d_forward c' x').
Proof.
  intros Ei Eo Ek Ep E. unfold Conv2d_forward. rewrite E, Ei, Eo, Ek, Ep.
  destruct (shape x') as [|b [|ch [|h [|w [|? ?]]]]]; try reflexivity.
  shape_only E.
Qed.

Lemma LayerNorm_forward_rshape (l : LayerNorm) (x x' : Tensor R) :
  shape x = shape x' ->
  rshape (LayerNorm_forward l x) = rshape (LayerNorm_forward l x').
Proof.
  intros E. unfold LayerNorm_forward. rewrite E.
  destruct (last_dim (shape x')); cbn [bind]; [|reflexivity].
  shape_only E.
Qed.

Lemma Inception_forward_rshape (in_ch out_ch nk : nat) (iw iw' : bool)
    (dr dr' : InceptionDraws) (x x' : Tensor R) :
  shape x = shape x' ->
  rshape (Inception_Block_V1_forward
            (Inception_Block_V1_init in_ch out_ch nk iw dr) x) =
  rshape (Inception_Block_V1_forward
            (Inception_Block_V1_init in_ch out_ch nk iw' dr') x').
Proof.
  intros E. unfold Inception_Block_V1_forward.
  apply rshapes_bind.
  - unfold Inception_Block_V1_branches.
    change (num_kernels (Inception_Block_V1_init in_ch out_ch nk iw dr))
      with nk.
    change (num_kernels (Inception_Block_V1_init in_ch out_ch nk iw' dr'))
      with nk.
    apply mapM_rshapes. intros i Hi. apply in_seq in Hi.
    destruct (Inception_kernels in_ch out_ch nk i iw dr) as
      (c & Ec & Ci & Co & Ck & Cp); [lia|].
    destruct (Inception_kernels in_ch out_ch nk i iw' dr') as
      (c' & Ec' & Ci' & Co' & Ck' & Cp'); [lia|].
    rewrite Ec, Ec'. apply Conv2d_forward_rshape; congruence.
  - intros ys ys' Eys. apply rshape_bind.
    + now apply stack_last_rshape.
    + intros a a' Ea. now apply reduce_last_rshape.
Qed.

(** Two blocks built with the same configuration end the same way on the
    same input: the same exception, or results of the same shape. *)
Lemma TimesBlock_forward_rshape (t d_model d_ff nk top_k : nat)
    (dr dr' : BlockDraws R) (x : Tensor R) :
  rshape (TimesBlock_forward (TimesBlock_init t d_model d_ff nk top_k dr) x) =
  rshape (TimesBlock_forward (TimesBlock_init t d_model d_ff nk top_k dr') x).
Proof.
  unfold TimesBlock_forward.
  destruct (shape x) as [|b [|t0 [|n [|? ?]]]]; try reflexivity.
  cbn [k TimesBlock_init].
  apply rshape_bind_same. intros [period_list period_weight].
  apply rshapes_bind.
  - apply mapM_rshapes. intros i _. unfold TimesBlock_period.
    cbn [seq_len TimesBlock_init].
    apply rshape_bind_same. intros [len out].
    apply rshape_bind_same. intros o1.
    apply rshape_bind_same. intros o2.
    apply rshape_bind.
    + unfold TimesBlock_conv. cbn [conv_0 conv_2 TimesBlock_init].
      apply rshape_bind.
      * now apply Inception_forward_rshape.
      * intros a a' Ea. now apply Inception_forward_rshape.
    + intros a a' Ea. apply rshape_bind; [now apply permute_rshape|].
      intros c c' Ec. apply rshape_bind; [now apply reshape_infer_rshape|].
      intros d d' Ed. now apply slice_to_rshape.
  - intros res res' Eres. apply rshape_bind; [now apply stack_last_rshape|].
    intros st st' Est.
    apply rshape_bind_same. intros w1.
    apply rshape_bind_same. intros w2.
    apply rshape_bind_same. intros w3.
    apply rshape_bind_same. intros w4.
    apply rshape_bind; [now apply binop_rshape|].
    intros pr pr' Epr. apply rshape_bind; [now apply reduce_last_rshape|].
    intros sm sm' Esm. now apply binop_rshape.
Qed.

(** ** Dictionaries *)

Lemma dict_get_set_same (V : Type) (d : list (string * V)) (key : string)
    (v : V) :
  dict_get (dict_set d key v) key = Ok v.
Proof.
  induction d as [|[k0 v0] d IH]; simpl.
  - now rewrite String.eqb_refl.
  - destruct (String.eqb k0 key) eqn:E; simpl; rewrite E; auto.
Qed.

Lemma dict_set_set (V : Type) (d : list (string * V)) (key : string)
    (v v' : V) :
  dict_set (dict_set d key v) key v' = dict_set d key v'.
Proof.
  induction d as [|[k0 v0] d IH]; simpl.
  - now rewrite String.eqb_refl.
  - destruct (String.eqb k0 key) eqn:E; simpl; rewrite E; congruence.
Qed.

(** ** The pieces of [TimesNet.forward] *)

Context {common : Common R}.

(** The "meg" tensor after the optional merger and subject layers. *)
Definition preprocessed (self : TimesNet R) (batch : Batch) (meg : Tensor R)
  : result (Tensor R) :=
  m1 <- match merger self with
        | Some mg => ChannelMerger_forward mg meg batch
        | None => Ok meg
        end ;;
  match subject_layers self with
  | Some sl => SubjectLayers_forward sl m1 (subject_index batch)
  | None => Ok m1
  end.

Definition pre_merger (batch : Batch) (self : TimesNet R)
  : State (Heap R) unit :=
  match merger self with
  | Some mg =>
      meg <~ get_input "meg" ;;
      r <~ lift (ChannelMerger_forward mg meg batch) ;;
      set_input "meg" r
  | None => ret tt
  end.

Definition pre_subject (batch : Batch) (self : TimesNet R)
  : State (Heap R) unit :=
  match subject_layers self with
  | Some sl =>
      meg <~ get_input "meg" ;;
      r <~ lift (SubjectLayers_forward sl meg (subject_index batch)) ;;
      set_input "meg" r
  | None => ret tt
  end.

(** From [crop_or_pad] to the return. *)
Definition TimesNet_tail (length : nat) (meg : Tensor R)
  : State (Heap R) (Tensor R) :=
  x <~ on_self (crop_or_pad meg) ;;
  x <~ lift (permute [0; 2; 1] x) ;;
  h <~ get ;;
  let self := self_of h in
  x <~ lift (DataEmbedding_forward (enc_embedding self) x None) ;;
  enc_out <~ lift (depth_loop self x (seq 0 (depth self)) None) ;;
  enc_out <~ lift (match enc_out with
                   | Some e => Ok e
                   | None => Raise UnboundLocalError
                   end) ;;
  let output := gelu enc_out in
  let output := Dropout_forward (dropout self) output in
  output <~ lift (Linear_forward (projection self) output) ;;
  output <~ lift (permute [0; 2; 1] output) ;;
  if (0 <=? delta self)%Z
  then lift (slice_to 2 length output)
  else lift (r <- interpolate length output ;; index0 r).

Lemma TimesNet_forward_unfold (batch : Batch) (h : Heap R) :
  TimesNet_forward batch h =
  (length <~ lift (first_length (inputs_of h)) ;;
   _ <~ pre_merger batch (self_of h) ;;
   _ <~ pre_subject batch (self_of h) ;;
   meg <~ get_input "meg" ;;
   TimesNet_tail length meg) h.
Proof. reflexivity. Qed.

(** The embedded input the blocks read, and whether every bin they select
    is a positive frequency. *)
Definition TimesNet_embedded (self : TimesNet R) (meg : Tensor R)
  : result (Tensor R) :=
  x <- fst (crop_or_pad meg self) ;;
  x <- permute [0; 2; 1] x ;;
  DataEmbedding_forward (enc_embedding self) x None.

Definition periods_positive (top_k : nat) (self : TimesNet R)
    (meg : Tensor R) : bool :=
  match (e <- TimesNet_embedded self meg ;; FFT_top_list e top_k) with
  | Ok top => forallb (fun i => negb (i =? 0)) top
  | Raise _ => false
  end.

(** The inputs dictionary after the preprocessing stored [meg']. *)
Definition inputs_after (self : TimesNet R) (inputs : list (string * Tensor R))
    (meg' : Tensor R) : list (string * Tensor R) :=
  match merger self, subject_layers self with
  | None, None => inputs
  | _, _ => dict_set inputs "meg" meg'
  end.

Lemma pre_run (A : Type) (batch : Batch) (self s : TimesNet R)
    (inputs : list (string * Tensor R)) (meg meg' : Tensor R)
    (K : State (Heap R) A) :
  dict_get inputs "meg" = Ok meg ->
  preprocessed self batch meg = Ok meg' ->
  (_ <~ pre_merger batch self ;; _ <~ pre_subject batch self ;; K)
    (mkHeap s inputs)
  = K (mkHeap s (inputs_after self inputs meg')) /\
  dict_get (inputs_after self inputs meg') "meg" = Ok meg'.
Proof.
  intros Hg Hp. unfold preprocessed in Hp.
  unfold pre_merger, pre_subject, inputs_after, get_input, set_input,
    bindS, lift, get, put, ret.
  destruct (merger self) as [mg|], (subject_layers self) as [sl|];
    cbn [self_of inputs_of].
  - rewrite Hg. destruct (ChannelMerger_forward mg meg batch) as [m1|];
      [|discriminate]. cbn [bind] in Hp. cbn [self_of inputs_of].
    rewrite dict_get_set_same, Hp, dict_set_set.
    split; [reflexivity | apply dict_get_set_same].
  - rewrite Hg. destruct (ChannelMerger_forward mg meg batch) as [m1|];
      [|discriminate]. cbn [bind] in Hp. injection Hp as <-.
    split; [reflexivity | apply dict_get_set_same].
  - cbn [bind] in Hp. rewrite Hg, Hp.
    split; [reflexivity | apply dict_get_set_same].
  - cbn [bind] in Hp. injection Hp as <-. split; [reflexivity | assumption].
Qed.

Lemma TimesNet_tail_inputs (length : nat) (meg : Tensor R) (h : Heap R) :
  inputs_of (snd (TimesNet_tail length meg h)) = inputs_of h.
Proof.
  unfold TimesNet_tail, bindS, lift, get, on_self.
  destruct (crop_or_pad meg (self_of h)) as [[x|e] s]; [|reflexivity].
  destruct (permute [0; 2; 1] x) as [x1|]; [|reflexivity].
  cbn [self_of].
  destruct (DataEmbedding_forward _ x1 None) as [x2|]; [|reflexivity].
  destruct (depth_loop s x2 _ None) as [[e|]|]; try reflexivity.
  destruct (Linear_forward _ _) as [o|]; [|reflexivity].
  destruct (permute [0; 2; 1] o) as [o1|]; [|reflexivity].
  destruct (0 <=? delta s)%Z; reflexivity.
Qed.

(** ** crop_or_pad *)

Lemma crop_or_pad_ok (meg : Tensor R) (self : TimesNet R) (b c t : nat) :
  shape meg = [b; c; t] ->
  exists x,
    crop_or_pad meg self =
      (Ok x, set_delta self
               (Z.of_nat (sequence_lenth self) - Z.of_nat t)%Z) /\
    shape x = [b; c; sequence_lenth self] /\
    (forall idx, last idx 0 < t -> elem x idx = elem meg idx) /\
    (forall idx, t <= last idx 0 -> last idx 0 < sequence_lenth self ->
                 elem x idx = zero).
Proof.
  intros S. unfold crop_or_pad, bindS, lift, get, put.
  unfold last_dim. rewrite S. cbn [rev app].
  cbn [sequence_lenth delta set_delta].
  destruct (Nat.ltb_spec t (sequence_lenth self)) as [Hlt | Hge].
  - unfold pad_right. rewrite S. cbn [rev app].
    eexists. split; [reflexivity|]. cbn [shape elem].
    split; [repeat f_equal; lia|]. split.
    + intros idx Hi. destruct (Nat.ltb_spec (last idx 0) t); [reflexivity|lia].
    + intros idx Hi _. destruct (Nat.ltb_spec (last idx 0) t); [lia|reflexivity].
  - destruct (Nat.ltb_spec (sequence_lenth self) t) as [Hgt | Hle].
    + destruct (slice_to_2_ok meg (sequence_lenth self) b c t S)
        as (x & Ex & Sx & Vx).
      rewrite Ex. exists x. split; [reflexivity|].
      split; [rewrite Sx; repeat f_equal; lia|]. split.
      * intros idx _. now rewrite Vx.
      * intros idx Hi Hi'. lia.
    + exists meg. split; [reflexivity|].
      split; [rewrite S; repeat f_equal; lia|]. split.
      * reflexivity.
      * intros idx Hi Hi'. lia.
Qed.

Lemma crop_or_pad_state (meg : Tensor R) (self : TimesNet R) :
  exists d, snd (crop_or_pad meg self) = set_delta self d.
Proof.
  unfold crop_or_pad, bindS, lift, get, put, ret.
  destruct (last_dim (shape meg)) as [len|].
  - cbn [sequence_lenth delta set_delta].
    eexists. destruct (len <? sequence_lenth self); [reflexivity|].
    destruct (sequence_lenth self <? len); reflexivity.
  - exists (delta self). destruct self. reflexivity.
Qed.

(** ** DataEmbedding on the cropped input *)

Lemma tadd_row_ok (v p : Tensor R) (b t d : nat) :
  shape v = [b; t; d] -> shape p = [1; t; d] ->
  exists s, tadd v p = Ok s /\ shape s = [b; t; d].
Proof.
  intros Sv Sp. unfold tadd, binop, broadcast_shapes. rewrite Sv, Sp.
  cbn [rev app broadcast_rev bind]. rewrite !Nat.eqb_refl. cbn [bind].
  destruct (b =? 1); cbn [bind rev app]; eexists; split; reflexivity.
Qed.

Lemma TokenEmbedding_forward_ok (c_in d_model : nat) (w : list nat -> R)
    (x : Tensor R) (b t : nat) :
  shape x = [b; t; c_in] -> 1 <= t ->
  exists y, TokenEmbedding_forward (TokenEmbedding_init true c_in d_model w) x
            = Ok y /\ shape y = [b; t; d_model].
Proof.
  intros S Ht. unfold TokenEmbedding_forward, TokenEmbedding_init.
  destruct (permute_021_ok x b t c_in S) as (x1 & E1 & S1).
  rewrite E1. cbn [bind tokenConv].
  unfold Conv1d_forward. rewrite S1.
  cbn [c1_in c1_out c1_kernel c1_padding].
  rewrite Nat.eqb_refl. cbn [guard bind].
  rewrite !guard_Ok by (apply Nat.leb_le; lia). cbn [bind].
  unfold transpose12.
  match goal with
  | |- exists y, permute _ ?z = _ /\ _ =>
      destruct (permute_021_ok z b d_model (t + 2 * 1 - 3 + 1) eq_refl)
        as (y & Ey & Sy)
  end.
  exists y. split; [assumption|]. rewrite Sy. repeat f_equal. lia.
Qed.

Lemma PositionalEmbedding_init_inv (d_model max_len : nat)
    (m : PositionalEmbedding) :
  PositionalEmbedding_init d_model max_len = Ok m ->
  shape (pe m) = [1; max_len; d_model] /\ 1 <= d_model /\
  (Nat.even d_model = true \/ d_model = 1).
Proof.
  unfold PositionalEmbedding_init, sinusoid_table. intros E.
  destruct (d_model =? 0) eqn:E0; [discriminate|]. cbn [negb guard bind] in E.
  destruct (Nat.even d_model || (d_model =? 1)) eqn:Ee; [|discriminate].
  cbn [guard bind] in E. unfold unsqueeze in E.
  cbn [shape length Nat.leb guard bind firstn skipn app] in E.
  injection E as <-. cbn [pe shape].
  apply Nat.eqb_neq in E0. apply orb_true_iff in Ee.
  rewrite Nat.eqb_eq in Ee. repeat split; [lia | assumption].
Qed.

Lemma DataEmbedding_init_inv (nt : bool) (c_in d_model : nat)
    (embed_type freq : string) (dr : EmbedDraws) (m : DataEmbedding R) :
  DataEmbedding_init nt c_in d_model embed_type freq dr = Ok m ->
  value_embedding m = TokenEmbedding_init nt c_in d_model (token_w dr) /\
  shape (pe (position_embedding m)) = [1; 5000; d_model] /\
  1 <= d_model /\ (Nat.even d_model = true \/ d_model = 1) /\
  de_dropout m = mkDropout (embed_mask dr).
Proof.
  unfold DataEmbedding_init. intros E.
  apply bind_inv in E as (pos & Epos & E).
  apply bind_inv in E as (te & _ & E). injection E as <-.
  cbn [value_embedding position_embedding de_dropout].
  destruct (PositionalEmbedding_init_inv _ _ _ Epos) as (Sp & Hd & He).
  auto.
Qed.

Lemma DataEmbedding_forward_ok (c_in d_model : nat) (embed_type freq : string)
    (dr : EmbedDraws) (m : DataEmbedding R) (x : Tensor R) (b t : nat) :
  DataEmbedding_init true c_in d_model embed_type freq dr = Ok m ->
  shape x = [b; t; c_in] -> 1 <= t -> t <= 5000 ->
  exists y, DataEmbedding_forward m x None = Ok y /\
            shape y = [b; t; d_model].
Proof.
  intros Ei S Ht Ht'.
  destruct (DataEmbedding_init_inv _ _ _ _ _ _ _ Ei) as (Ev & Sp & _ & _ & _).
  rewrite DataEmbedding_forward_flat, Ev.
  destruct (TokenEmbedding_forward_ok c_in d_model (token_w dr) x b t S Ht)
    as (v & Ev' & Sv).
  rewrite Ev'. cbn [bind]. unfold PositionalEmbedding_forward. rewrite S.
  cbn [length Nat.ltb Nat.leb guard bind nth].
  destruct (slice_to_1_ok (pe (position_embedding m)) t _ _ _ Sp)
    as (p & Ep & Sp').
  rewrite Ep. cbn [bind]. rewrite Nat.min_l in Sp' by assumption.
  destruct (tadd_row_ok v p b t d_model Sv Sp') as (s & Es & Ss).
  rewrite Es. cbn [bind]. eexists. split; reflexivity || exact Ss.
Qed.

(** ** The block stack and the projection *)

Lemma LayerNorm_forward_ok (l : LayerNorm) (x : Tensor R) (s : list nat) :
  shape x = s ++ [normalized_shape l] ->
  exists y, LayerNorm_forward l x = Ok y /\ shape y = shape x.
Proof.
  intros S. unfold LayerNorm_forward, last_dim.
  rewrite S, rev_app_distr. cbn [rev app bind].
  rewrite Nat.eqb_refl. cbn [guard bind].
  eexists. split; reflexivity.
Qed.

Lemma Linear_forward_ok (l : Linear) (x : Tensor R) (b t : nat) :
  shape x = [b; t; in_features l] ->
  exists y, Linear_forward l x = Ok y /\ shape y = [b; t; out_features l].
Proof.
  intros S. unfold Linear_forward, last_dim. rewrite S.
  cbn [rev app bind]. rewrite Nat.eqb_refl. cbn [guard bind].
  eexists. split; reflexivity.
Qed.

(** The blocks [TimesNet.__init__] builds. *)
Definition built_blocks (t d_model d_ff nk top_k depth : nat)
    (draws : nat -> BlockDraws R) : list (TimesBlock R) :=
  map (fun i => TimesBlock_init t d_model d_ff nk top_k (draws i))
      (seq 0 depth).

Lemma depth_loop_cons (self : TimesNet R) (x : Tensor R) (i : nat)
    (range : list nat) (enc_out : option (Tensor R)) :
  depth_loop self x (i :: range) enc_out =
  (blk <- match nth_error (model self) i with
          | Some blk => Ok blk
          | None => Raise IndexError
          end ;;
   y <- TimesBlock_forward blk x ;;
   e <- LayerNorm_forward (layer_norm self) y ;;
   depth_loop self x range (Some e)).
Proof. reflexivity. Qed.

(** The loop keeps the last pass only.  Every pass ends as the last one does
    (blocks of one configuration fail or succeed together on the same [x]),
    so the earlier passes change nothing but [enc_out], which is rebound. *)
Lemma depth_loop_last (self : TimesNet R) (t d_model d_ff nk top_k : nat)
    (draws : nat -> BlockDraws R) (x : Tensor R) :
  model self = built_blocks t d_model d_ff nk top_k (depth self) draws ->
  forall (range : list nat) (enc_out : option (Tensor R)),
    range <> [] -> Forall (fun i => i < depth self) range ->
    depth_loop self x range enc_out =
    (y <- TimesBlock_forward
            (TimesBlock_init t d_model d_ff nk top_k (draws (last range 0))) x ;;
     e <- LayerNorm_forward (layer_norm self) y ;;
     Ok (Some e)).
Proof.
  intros Hm range. induction range as [|i range IH]; intros enc Hne Hall;
    [congruence|].
  inversion Hall as [|? ? Hi Hall']; subst.
  assert (Eblk : nth_error (model self) i =
                 Some (TimesBlock_init t d_model d_ff nk top_k (draws i)))
    by (rewrite Hm; apply nth_error_map_seq; assumption).
  rewrite depth_loop_cons, Eblk. cbn [bind].
  destruct range as [|j range]; [reflexivity|].
  change (last (i :: j :: range) 0) with (last (j :: range) 0).
  pose proof (TimesBlock_forward_rshape t d_model d_ff nk top_k (draws i)
                (draws (last (j :: range) 0)) x) as Hsame.
  destruct (TimesBlock_forward
              (TimesBlock_init t d_model d_ff nk top_k (draws i)) x)
    as [y|e];
    destruct (TimesBlock_forward
                (TimesBlock_init t d_model d_ff nk top_k
                   (draws (last (j :: range) 0))) x) as [y'|e'] eqn:EF;
    simpl in Hsame; try discriminate; cbn [bind].
  - injection Hsame as Hs.
    pose proof (LayerNorm_forward_rshape (layer_norm self) y y' Hs) as Hln.
    destruct (LayerNorm_forward (layer_norm self) y) as [z|e];
      destruct (LayerNorm_forward (layer_norm self) y') as [z'|e'] eqn:EL;
      simpl in Hln; try discriminate; cbn [bind].
    + rewrite (IH _ ltac:(discriminate) Hall'). cbn [bind].
      rewrite EL. reflexivity.
    + congruence.
  - congruence.
Qed.

Lemma depth_loop_ok (self : TimesNet R) (t d_model d_ff nk top_k : nat)
    (draws : nat -> BlockDraws R) (x : Tensor R) (b : nat) (top : list nat) :
  model self = built_blocks t d_model d_ff nk top_k (depth self) draws ->
  layer_norm self =
    mkLayerNorm d_model (div one (of_Z 100000)) (fun _ => one) (fun _ => zero) ->
  1 <= depth self ->
  shape x = [b; t; d_model] -> 1 <= b -> 1 <= d_model -> 1 <= nk ->
  1 <= top_k -> FFT_top_list x top_k = Ok top ->
  Forall (fun i => i <> 0) top ->
  exists e, depth_loop self x (seq 0 (depth self)) None = Ok (Some e) /\
            shape e = [b; t; d_model].
Proof.
  intros Hm Hln Hd S Hb Hn Hnk Hk Etop Hnz.
  rewrite (depth_loop_last self t d_model d_ff nk top_k draws x Hm).
  - destruct (TimesBlock_forward_ok t d_model d_ff nk top_k
                (draws (last (seq 0 (depth self)) 0)) x b top S Hb Hn Hnk Hk
                Etop Hnz) as (y & Ey & Sy).
    rewrite Ey. cbn [bind].
    destruct (LayerNorm_forward_ok (layer_norm self) y [b; t]) as (e & Ee & Se).
    { rewrite Hln. exact Sy. }
    rewrite Ee. cbn [bind]. exists e. split; [reflexivity | congruence].
  - destruct (depth self); [lia | discriminate].
  - apply Forall_forall. intros i Hi. apply in_seq in Hi. lia.
Qed.

(** ** What [TimesNet.__init__] builds *)

(** [net] is wired as [__init__] wires it for an embedding of [c_in]
    channels. *)
Record wired (nt : bool) (a : TimesNetArgs R) (dr : NetDraws R) (c_in : nat)
    (net : TimesNet R) : Prop := mkWired {
  w_seq : sequence_lenth net = a_sequence_lenth a;
  w_delta : delta net = 0%Z;
  w_depth : depth net = a_depth a;
  w_embed : DataEmbedding_init nt c_in (a_d_model a) "fixed" "h"
              (embed_draws dr) = Ok (enc_embedding net);
  w_model : model net =
            built_blocks (a_sequence_lenth a) (a_d_model a) (a_d_ff a)
              (a_num_kernels a) (a_top_k a) (a_depth a) (block_draws dr);
  w_norm : layer_norm net =
           mkLayerNorm (a_d_model a) (div one (of_Z 100000))
             (fun _ => one) (fun _ => zero);
  w_dropout : dropout net = mkDropout (projection_mask dr);
  w_projection : projection net =
                 mkLinear (a_d_model a) (a_flatten_out_channels a)
                   (projection_w dr) (Some (projection_b dr));
  w_merger : (merger net <> None <-> a_merger a = true);
  w_subject : (subject_layers net <> None <-> a_subject_layers a = true)
}.

Lemma TimesNet_init_inv (nt : bool) (a : TimesNetArgs R) (dr : NetDraws R)
    (ic ic' : list (string * nat)) (net : TimesNet R) :
  TimesNet_init nt a dr ic = (Ok net, ic') ->
  exists c_in,
    dict_get ic' "meg" = Ok c_in /\ wired nt a dr c_in net /\
    (a_merger a = false -> a_subject_layers a = false -> ic' = ic) /\
    (a_merger a = true -> a_subject_layers a = false ->
     ic' = dict_set ic "meg" (a_merger_channels a) /\
     c_in = a_merger_channels a) /\
    (a_subject_layers a = true -> ic' = dict_set ic "meg" c_in).
Proof.
  unfold TimesNet_init, bindS, lift, get, put, ret. intros E.
  destruct (a_merger a) eqn:Em, (a_subject_layers a) eqn:Es.
  - destruct (ChannelMerger_init _ _ _ _ _ _) as [mg|]; [|discriminate].
    rewrite dict_get_set_same in E.
    destruct (guard _ AssertionError); [|discriminate].
    destruct (dict_get (a_hidden a) "meg") as [hid|]; [|discriminate].
    destruct (dict_get _ (a_subject_layers_dim a)) as [dim|]; [|discriminate].
    destruct (SubjectLayers_init _ _ _ _) as [sl|]; [|discriminate].
    rewrite dict_set_set, dict_get_set_same in E.
    destruct (DataEmbedding_init _ _ _ _ _ _) as [emb|] eqn:Ee; [|discriminate].
    injection E as <- <-. exists dim.
    split; [apply dict_get_set_same|].
    split; [constructor; cbn; try reflexivity; try assumption;
            split; congruence|].
    repeat split; congruence.
  - destruct (ChannelMerger_init _ _ _ _ _ _) as [mg|]; [|discriminate].
    rewrite dict_get_set_same in E.
    destruct (DataEmbedding_init _ _ _ _ _ _) as [emb|] eqn:Ee; [|discriminate].
    injection E as <- <-. exists (a_merger_channels a).
    split; [apply dict_get_set_same|].
    split; [constructor; cbn; try reflexivity; try assumption;
            split; congruence|].
    repeat split; congruence.
  - destruct (guard _ AssertionError); [|discriminate].
    destruct (dict_get ic "meg") as [meg_dim|]; [|discriminate].
    destruct (dict_get (a_hidden a) "meg") as [hid|]; [|discriminate].
    destruct (dict_get _ (a_subject_layers_dim a)) as [dim|]; [|discriminate].
    destruct (SubjectLayers_init _ _ _ _) as [sl|]; [|discriminate].
    rewrite dict_get_set_same in E.
    destruct (DataEmbedding_init _ _ _ _ _ _) as [emb|] eqn:Ee; [|discriminate].
    injection E as <- <-. exists dim.
    split; [apply dict_get_set_same|].
    split; [constructor; cbn; try reflexivity; try assumption;
            split; congruence|].
    repeat split; congruence.
  - destruct (dict_get ic "meg") as [c_in|] eqn:Eg; [|discriminate].
    destruct (DataEmbedding_init _ _ _ _ _ _) as [emb|] eqn:Ee; [|discriminate].
    injection E as <- <-. exists c_in.
    split; [assumption|].
    split; [constructor; cbn; try reflexivity; try assumption;
            split; congruence|].
    repeat split; congruence.
Qed.

(** ** The forward pass after the preprocessing *)

Lemma periods_positive_inv (top_k : nat) (self : TimesNet R) (meg : Tensor R) :
  periods_positive top_k self meg = true ->
  exists e top, TimesNet_embedded self meg = Ok e /\
                FFT_top_list e top_k = Ok top /\
                Forall (fun i => i <> 0) top.
Proof.
  unfold periods_positive. intros E.
  destruct (TimesNet_embedded self meg) as [e|]; [|discriminate].
  cbn [bind] in E.
  destruct (FFT_top_list e top_k) as [top|] eqn:Et; [|discriminate].
  exists e, top. split; [reflexivity|]. split; [exact Et|].
  apply Forall_forall. intros i Hi.
  rewrite forallb_forall in E. specialize (E i Hi).
  apply negb_true_iff, Nat.eqb_neq in E. exact E.
Qed.

(** The tensor the length restoration receives: [B, flatten_out, seq]. *)
Lemma TimesNet_tail_ok (a : TimesNetArgs R) (dr : NetDraws R) (c_in : nat)
    (net : TimesNet R) (inputs : list (string * Tensor R)) (length : nat)
    (meg : Tensor R) (b t : nat) :
  wired true a dr c_in net ->
  shape meg = [b; c_in; t] -> 1 <= b ->
  1 <= a_sequence_lenth a -> a_sequence_lenth a <= 5000 ->
  1 <= a_num_kernels a -> 1 <= a_top_k a -> 1 <= a_depth a ->
  periods_positive (a_top_k a) net meg = true ->
  let d := (Z.of_nat (a_sequence_lenth a) - Z.of_nat t)%Z in
  exists out,
    shape out = [b; a_flatten_out_channels a; a_sequence_lenth a] /\
    TimesNet_tail length meg (mkHeap net inputs) =
    ((if (0 <=? d)%Z then slice_to 2 length out
      else r <- interpolate length out ;; index0 r),
     mkHeap (set_delta net d) inputs).
Proof.
  intros W S Hb Hs Hs' Hnk Hk Hd Hpp d.
  destruct W as [Wseq Wdelta Wdepth Wemb Wmodel Wnorm Wdrop Wproj _ _].
  destruct (periods_positive_inv _ _ _ Hpp) as (e & top & Ee & Etop & Hnz).
  unfold TimesNet_embedded in Ee.
  destruct (crop_or_pad_ok meg net b c_in t S) as (x & Ex & Sx & _).
  rewrite Wseq in Ex, Sx. fold d in Ex.
  rewrite Ex in Ee. cbn [fst bind] in Ee.
  destruct (permute_021_ok x _ _ _ Sx) as (x1 & E1 & S1).
  rewrite E1 in Ee. cbn [bind] in Ee.
  destruct (DataEmbedding_forward_ok c_in (a_d_model a) _ _ _ _ x1 b
              (a_sequence_lenth a) Wemb S1 Hs Hs') as (x2 & E2 & S2).
  assert (e = x2) as -> by congruence. clear Ee.
  destruct (DataEmbedding_init_inv _ _ _ _ _ _ _ Wemb) as (_ & _ & Hdm & _).
  destruct (depth_loop_ok (set_delta net d) (a_sequence_lenth a) (a_d_model a)
              (a_d_ff a) (a_num_kernels a) (a_top_k a) (block_draws dr) x2 b
              top) as (enc & Eenc & Senc); try assumption.
  { cbn [model depth set_delta]. rewrite Wmodel, Wdepth. reflexivity. }
  { cbn [depth set_delta]. rewrite Wdepth. assumption. }
  destruct (Linear_forward_ok (projection net)
              (Dropout_forward (dropout net) (gelu enc)) b
              (a_sequence_lenth a)) as (o & Eo & So).
  { rewrite Wproj. exact Senc. }
  rewrite Wproj in So. cbn [out_features] in So.
  destruct (permute_021_ok o _ _ _ So) as (out & Eout & Sout).
  exists out. split; [exact Sout|].
  unfold TimesNet_tail, bindS, on_self, lift, get. cbn [self_of inputs_of].
  rewrite Ex, E1. cbn [self_of inputs_of enc_embedding set_delta].
  rewrite E2, Eenc.
  cbn [dropout projection set_delta delta]. rewrite Eo, Eout.
  destruct (0 <=? d)%Z; reflexivity.
Qed.

(** ** The whole forward pass *)

Lemma TimesNet_forward_run (a : TimesNetArgs R) (dr : NetDraws R)
    (c_in : nat) (net : TimesNet R) (batch : Batch)
    (inputs : list (string * Tensor R)) (length : nat)
    (meg meg' : Tensor R) (b t : nat) :
  wired true a dr c_in net ->
  first_length inputs = Ok length ->
  dict_get inputs "meg" = Ok meg ->
  preprocessed net batch meg = Ok meg' ->
  shape meg' = [b; c_in; t] -> 1 <= b ->
  1 <= a_sequence_lenth a -> a_sequence_lenth a <= 5000 ->
  1 <= a_num_kernels a -> 1 <= a_top_k a -> 1 <= a_depth a ->
  periods_positive (a_top_k a) net meg' = true ->
  let d := (Z.of_nat (a_sequence_lenth a) - Z.of_nat t)%Z in
  exists out,
    shape out = [b; a_flatten_out_channels a; a_sequence_lenth a] /\
    TimesNet_forward batch (mkHeap net inputs) =
    ((if (0 <=? d)%Z then slice_to 2 length out
      else r <- interpolate length out ;; index0 r),
     mkHeap (set_delta net d) (inputs_after net inputs meg')).
Proof.
  intros W Hl Hg Hp S Hb Hs Hs' Hnk Hk Hd Hpp d.
  destruct (TimesNet_tail_ok a dr c_in net (inputs_after net inputs meg')
              length meg' b t W S Hb Hs Hs' Hnk Hk Hd Hpp)
    as (out & Sout & Et).
  exists out. split; [exact Sout|].
  rewrite TimesNet_forward_unfold. cbn [inputs_of self_of].
  unfold bindS at 1. unfold lift at 1. rewrite Hl.
  destruct (pre_run _ batch net net inputs meg meg'
              (meg0 <~ get_input "meg" ;; TimesNet_tail length meg0) Hg Hp)
    as [Erun Eget].
  rewrite Erun. unfold bindS at 1. unfold get_input at 1.
  unfold bindS at 1. unfold get at 1. unfold lift at 1.
  cbn [inputs_of]. rewrite Eget. exact Et.
Qed.

Lemma wired_no_collaborators (nt : bool) (a : TimesNetArgs R)
    (dr : NetDraws R) (c_in : nat) (net : TimesNet R) (batch : Batch)
    (meg : Tensor R) :
  wired nt a dr c_in net -> a_merger a = false ->
  a_subject_layers a = false ->
  preprocessed net batch meg = Ok meg.
Proof.
  intros W Hm Hs. unfold preprocessed.
  destruct (merger net) as [mg|] eqn:Em.
  - exfalso. destruct (w_merger _ _ _ _ _ W) as [H1 _].
    rewrite Em in H1. specialize (H1 ltac:(discriminate)). congruence.
  - cbn [bind]. destruct (subject_layers net) as [sl|] eqn:Es; [|reflexivity].
    exfalso. destruct (w_subject _ _ _ _ _ W) as [H1 _].
    rewrite Es in H1. specialize (H1 ltac:(discriminate)). congruence.
Qed.

(** C5, as the code has it.  For a "meg" input whose time length
    [t_actual] is at most the configured sequence length, [crop_or_pad] pads
    the time axis with zeros on the right up to the sequence length and
    records delta = sequence_lenth - t_actual >= 0; the forward pass then
    returns a tensor whose time axis, after the restoring slice, has length
    [t_actual], provided the pass runs through: the model is one [__init__]
    built, every input has the "meg" length, and no selected frequency bin
    is bin 0. *)
Theorem TimesNet_forward_restores_length (a : TimesNetArgs R)
    (dr : NetDraws R) (ic ic' : list (string * nat)) (net : TimesNet R)
    (c_in : nat) (batch : Batch) (inputs : list (string * Tensor R))
    (meg meg' : Tensor R) (b t_actual : nat) :
  TimesNet_init true a dr ic = (Ok net, ic') ->
  dict_get ic' "meg" = Ok c_in ->
  first_length inputs = Ok t_actual ->
  dict_get inputs "meg" = Ok meg ->
  preprocessed net batch meg = Ok meg' ->
  shape meg' = [b; c_in; t_actual] ->
  t_actual <= a_sequence_lenth a ->
  1 <= b -> 1 <= a_sequence_lenth a -> a_sequence_lenth a <= 5000 ->
  1 <= a_num_kernels a -> 1 <= a_top_k a -> 1 <= a_depth a ->
  periods_positive (a_top_k a) net meg' = true ->
  let d := (Z.of_nat (a_sequence_lenth a) - Z.of_nat t_actual)%Z in
  exists x y h',
    crop_or_pad meg' net = (Ok x, set_delta net d) /\
    shape x = [b; c_in; a_sequence_lenth a] /\
    (forall idx, last idx 0 < t_actual -> elem x idx = elem meg' idx) /\
    (forall idx, t_actual <= last idx 0 -> last idx 0 < a_sequence_lenth a ->
                 elem x idx = zero) /\
    (0 <= d)%Z /\
    TimesNet_forward batch (mkHeap net inputs) = (Ok y, h') /\
    delta (self_of h') = d /\
    shape y = [b; a_flatten_out_channels a; t_actual].
Proof.
  intros Ei Ec Hl Hg Hp S Ht Hb Hs Hs' Hnk Hk Hd Hpp d.
  destruct (TimesNet_init_inv _ _ _ _ _ _ Ei) as (c0 & Ec0 & W & _).
  assert (c0 = c_in) as -> by congruence.
  destruct (crop_or_pad_ok meg' net b c_in t_actual S)
    as (x & Ex & Sx & Vx & Vz).
  rewrite (w_seq _ _ _ _ _ W) in Ex, Sx, Vz. fold d in Ex.
  destruct (TimesNet_forward_run a dr c_in net batch inputs t_actual meg meg'
              b t_actual W Hl Hg Hp S Hb Hs Hs' Hnk Hk Hd Hpp)
    as (out & Sout & Ef).
  fold d in Ef. assert (Hd0 : (0 <= d)%Z) by (unfold d; lia).
  rewrite (proj2 (Z.leb_le 0 d) Hd0) in Ef.
  destruct (slice_to_2_ok out t_actual _ _ _ Sout) as (y & Ey & Sy & _).
  rewrite Ey in Ef. rewrite Nat.min_l in Sy by assumption.
  exists x, y, (mkHeap (set_delta net d) (inputs_after net inputs meg')).
  repeat (split; [assumption|]). split; [reflexivity | assumption].
Qed.

(** C1, as the code runs.  With depth=1, top_k=1, d_model=8,
    sequence_length=16, flatten_out_channels=4, no merger and no subject
    layers, a "meg" tensor of shape [2, C, 20] takes the interpolation branch
    (delta = -4 < 0), and what [forward] returns is
    [F.interpolate(output, 20)[0]], of shape [4, 20]: the batch axis is
    gone. *)
Theorem TimesNet_forward_interpolation_branch (a : TimesNetArgs R)
    (dr : NetDraws R) (ic ic' : list (string * nat)) (net : TimesNet R)
    (batch : Batch) (meg : Tensor R) (c : nat) :
  a_depth a = 1 -> a_top_k a = 1 -> a_d_model a = 8 ->
  a_sequence_lenth a = 16 -> a_flatten_out_channels a = 4 ->
  a_merger a = false -> a_subject_layers a = false ->
  1 <= a_num_kernels a ->
  TimesNet_init true a dr ic = (Ok net, ic') ->
  dict_get ic "meg" = Ok c ->
  shape meg = [2; c; 20] ->
  periods_positive 1 net meg = true ->
  exists y h',
    TimesNet_forward batch (mkHeap net [("meg"%string, meg)]) = (Ok y, h') /\
    delta (self_of h') = (-4)%Z /\
    (0 <=? delta (self_of h'))%Z = false /\
    shape y = [4; 20].
Proof.
  intros Hd Hk Hdm Hs Hf Hm Hsl Hnk Ei Ec S Hpp.
  destruct (TimesNet_init_inv _ _ _ _ _ _ Ei) as (c0 & Ec0 & W & Hic & _).
  rewrite (Hic Hm Hsl) in Ec0. assert (c0 = c) as -> by congruence.
  assert (Hl : first_length [("meg"%string, meg)] = Ok 20)
    by (unfold first_length, last_dim; rewrite S; reflexivity).
  assert (Hp : preprocessed net batch meg = Ok meg)
    by (eapply wired_no_collaborators; eassumption).
  assert (Hs' : a_sequence_lenth a <= 5000)
    by (rewrite Hs; apply Nat.leb_le; vm_compute; reflexivity).
  assert (Hpp' : periods_positive (a_top_k a) net meg = true)
    by (rewrite Hk; assumption).
  destruct (TimesNet_forward_run a dr c net batch [("meg"%string, meg)] 20
              meg meg 2 20 W Hl eq_refl Hp S ltac:(lia) ltac:(lia) Hs' Hnk
              ltac:(lia) ltac:(lia) Hpp') as (out & Sout & Ef).
  rewrite Hs, Hf in Sout. rewrite Hs in Ef.
  change (Z.of_nat 16 - Z.of_nat 20)%Z with (-4)%Z in Ef.
  change (0 <=? -4)%Z with false in Ef. cbv iota in Ef.
  unfold interpolate in Ef. rewrite Sout in Ef.
  cbn [Nat.ltb Nat.leb andb guard bind] in Ef.
  unfold index0 in Ef. cbn [shape guard bind Nat.ltb Nat.leb] in Ef.
  eexists _, _. split; [exact Ef|]. cbn [self_of delta set_delta shape].
  repeat split.
Qed.

(** C2, as the code has it.  For a non-empty input [x] of shape [B, T, N]
    with T the configured sequence length and N = d_model, a block with at
    least one kernel and top_k >= 1 returns a tensor of shape exactly
    [B, T, N] whenever none of the selected frequency bins is bin 0; this
    holds for every such selection, periods that do not divide T included
    (zero padding up to the next multiple, then truncation to T). *)
Theorem TimesBlock_forward_shape (t d_model d_ff nk top_k : nat)
    (dr : BlockDraws R) (x : Tensor R) (b : nat) (top : list nat) :
  shape x = [b; t; d_model] -> 1 <= b -> 1 <= d_model -> 1 <= nk ->
  1 <= top_k -> FFT_top_list x top_k = Ok top ->
  Forall (fun i => i <> 0) top ->
  let m := TimesBlock_init t d_model d_ff nk top_k dr in
  (forall i, In i top ->
     exists y, TimesBlock_period m x b d_model (t / i) = Ok y /\
               shape y = shape x) /\
  exists y, TimesBlock_forward m x = Ok y /\ shape y = shape x.
Proof.
  intros S Hb Hn Hnk Hk Etop Hnz m. split.
  - intros i Hi. rewrite S.
    destruct (FFT_top_list_inv x b t d_model top_k top S Etop) as [Ht Hkf].
    apply TimesBlock_period_ok; try assumption.
    destruct (FFT_for_Period_ok x b t d_model top_k S Ht Hkf) as
      (xf & fl & w & _ & _ & _ & _ & _ & _ & Etop' & _ & _ & Ftop & _).
    cbv zeta in Etop', Ftop.
    assert (Et : select_top top_k (bins fl (t / 2 + 1)) = top) by congruence.
    rewrite Et in Ftop. rewrite Forall_forall in Hnz, Ftop.
    specialize (Hnz i Hi). specialize (Ftop i Hi).
    apply Nat.div_str_pos. split; [lia|].
    pose proof (Nat.div_mod_eq t 2). lia.
  - rewrite S. eapply TimesBlock_forward_ok; eassumption.
Qed.

(** With subject layers [__init__] writes the subject-layer width: the
    entry of [hidden] for "hidden", for "input" the width the layers read
    (the merger's when there is one, else the caller's). *)
Lemma TimesNet_init_subject_width (nt : bool) (a : TimesNetArgs R)
    (dr : NetDraws R) (ic ic' : list (string * nat)) (net : TimesNet R) :
  TimesNet_init nt a dr ic = (Ok net, ic') -> a_subject_layers a = true ->
  exists meg_dim hid dim,
    (if a_merger a then meg_dim = a_merger_channels a
     else dict_get ic "meg" = Ok meg_dim) /\
    dict_get (a_hidden a) "meg" = Ok hid /\
    ((a_subject_layers_dim a = "hidden"%string /\ dim = hid) \/
     (a_subject_layers_dim a = "input"%string /\ dim = meg_dim)) /\
    ic' = dict_set ic "meg" dim.
Proof.
  unfold TimesNet_init, bindS, lift, get, put, ret. intros E Es.
  rewrite Es in E.
  assert (Hdim : forall hid meg_dim dim : nat,
            dict_get [("hidden"%string, hid); ("input"%string, meg_dim)]
              (a_subject_layers_dim a) = Ok dim ->
            (a_subject_layers_dim a = "hidden"%string /\ dim = hid) \/
            (a_subject_layers_dim a = "input"%string /\ dim = meg_dim)).
  { intros hid meg_dim dim. cbn [dict_get].
    destruct (String.eqb_spec "hidden" (a_subject_layers_dim a)) as [E1 | _].
    - intros [= <-]. left. auto.
    - destruct (String.eqb_spec "input" (a_subject_layers_dim a))
        as [E2 | _]; [|discriminate].
      intros [= <-]. right. auto. }
  destruct (a_merger a) eqn:Em.
  - destruct (ChannelMerger_init _ _ _ _ _ _) as [mg|]; [|discriminate].
    rewrite dict_get_set_same in E.
    destruct (guard _ AssertionError); [|discriminate].
    destruct (dict_get (a_hidden a) "meg") as [hid|]; [|discriminate].
    destruct (dict_get _ (a_subject_layers_dim a)) as [dim|] eqn:Ed;
      [|discriminate].
    destruct (SubjectLayers_init _ _ _ _) as [sl|]; [|discriminate].
    rewrite dict_set_set, dict_get_set_same in E.
    destruct (DataEmbedding_init _ _ _ _ _ _) as [emb|]; [|discriminate].
    injection E as <- <-.
    exists (a_merger_channels a), hid, dim.
    split; [reflexivity|]. split; [reflexivity|].
    split; [exact (Hdim _ _ _ Ed) | reflexivity].
  - destruct (guard _ AssertionError); [|discriminate].
    destruct (dict_get ic "meg") as [meg_dim|]; [|discriminate].
    destruct (dict_get (a_hidden a) "meg") as [hid|]; [|discriminate].
    destruct (dict_get _ (a_subject_layers_dim a)) as [dim|] eqn:Ed;
      [|discriminate].
    destruct (SubjectLayers_init _ _ _ _) as [sl|]; [|discriminate].
    rewrite dict_get_set_same in E.
    destruct (DataEmbedding_init _ _ _ _ _ _) as [emb|]; [|discriminate].
    injection E as <- <-.
    exists meg_dim, hid, dim.
    split; [reflexivity|]. split; [reflexivity|].
    split; [exact (Hdim _ _ _ Ed) | reflexivity].
Qed.

(** C10. When a channel merger or subject layers are configured,
    [__init__] overwrites the caller's [in_channels["meg"]]: with the merger
    width, and with subject layers then with the subject-layer width, which
    is [hidden["meg"]] for "hidden" and the width the layers read for
    "input".  [forward] stores the merged / subject-adapted tensor under
    [inputs["meg"]]: after the call the caller's dictionary holds that
    tensor in place of the one passed in, whether or not the rest of the
    pass succeeds. *)
Theorem TimesNet_mutates_caller_dicts (nt : bool) (a : TimesNetArgs R)
    (dr : NetDraws R) (ic ic' : list (string * nat)) (net : TimesNet R)
    (batch : Batch) (inputs : list (string * Tensor R)) (length : nat)
    (meg meg' : Tensor R) :
  a_merger a = true \/ a_subject_layers a = true ->
  TimesNet_init nt a dr ic = (Ok net, ic') ->
  first_length inputs = Ok length ->
  dict_get inputs "meg" = Ok meg ->
  preprocessed net batch meg = Ok meg' ->
  (exists width,
     ic' = dict_set ic "meg" width /\ dict_get ic' "meg" = Ok width /\
     (a_subject_layers a = false -> width = a_merger_channels a) /\
     (a_subject_layers a = true ->
      exists meg_dim hid,
        (if a_merger a then meg_dim = a_merger_channels a
         else dict_get ic "meg" = Ok meg_dim) /\
        dict_get (a_hidden a) "meg" = Ok hid /\
        ((a_subject_layers_dim a = "hidden"%string /\ width = hid) \/
         (a_subject_layers_dim a = "input"%string /\ width = meg_dim)))) /\
  let h' := snd (TimesNet_forward batch (mkHeap net inputs)) in
  inputs_of h' = dict_set inputs "meg" meg' /\
  dict_get (inputs_of h') "meg" = Ok meg'.
Proof.
  intros Hcfg Ei Hl Hg Hp.
  destruct (TimesNet_init_inv _ _ _ _ _ _ Ei)
    as (c_in & Ec & W & _ & Hmg & Hsl).
  split.
  - exists c_in. destruct (a_subject_layers a) eqn:Es.
    + split; [auto|]. split; [assumption|]. split; [discriminate|].
      intros _.
      destruct (TimesNet_init_subject_width _ _ _ _ _ _ Ei Es)
        as (meg_dim & hid & dim & Hmd & Hh & Hd & Eic).
      assert (dim = c_in) as ->.
      { rewrite Eic, dict_get_set_same in Ec. congruence. }
      exists meg_dim, hid. auto.
    + destruct Hcfg as [Hm | Hs]; [|discriminate].
      destruct (Hmg Hm eq_refl) as [E1 E2]. subst c_in.
      split; [assumption|]. split; [assumption|].
      split; [reflexivity | discriminate].
  - cbv zeta.
    assert (Ea : inputs_after net inputs meg' = dict_set inputs "meg" meg').
    { unfold inputs_after.
      destruct (merger net) as [mg|] eqn:Em; [reflexivity|].
      destruct (subject_layers net) as [sl|] eqn:Esl; [reflexivity|].
      exfalso. destruct Hcfg as [Hm | Hs].
      - apply (proj2 (w_merger _ _ _ _ _ W)) in Hm. congruence.
      - apply (proj2 (w_subject _ _ _ _ _ W)) in Hs. congruence. }
    assert (Eh : inputs_of (snd (TimesNet_forward batch (mkHeap net inputs)))
                 = dict_set inputs "meg" meg').
    { rewrite TimesNet_forward_unfold. cbn [inputs_of self_of].
      unfold bindS at 1. unfold lift at 1. rewrite Hl.
      destruct (pre_run _ batch net net inputs meg meg'
                  (meg0 <~ get_input "meg" ;; TimesNet_tail length meg0)
                  Hg Hp) as [Erun Eget].
      rewrite Erun. unfold bindS at 1. unfold get_input at 1.
      unfold bindS at 1. unfold get at 1. unfold lift at 1.
      cbn [inputs_of]. rewrite Eget. rewrite TimesNet_tail_inputs.
      cbn [inputs_of]. exact Ea. }
    rewrite Eh. split; [reflexivity | apply dict_get_set_same].
Qed.

(** ** Only the last block counts *)

(** The constructor arguments with another depth, the draws with other
    block parameters, and a network with another stack. *)
Definition with_depth (a : TimesNetArgs R) (d : nat) : TimesNetArgs R :=
  mkTimesNetArgs (a_out_channels a) (a_hidden a) (a_n_subjects a)
    (a_subject_layers a) (a_subject_dim a) (a_subject_layers_dim a)
    (a_subject_layers_id a) (a_merger a) (a_merger_pos_dim a)
    (a_merger_channels a) (a_merger_dropout a) (a_merger_penalty a)
    (a_merger_per_subject a) (a_sequence_lenth a) (a_num_kernels a)
    (a_top_k a) (a_dropout_projection a) (a_d_model a) (a_d_ff a)
    (a_flatten_out_channels a) d.

Definition with_block_draws (dr : NetDraws R) (bd : nat -> BlockDraws R)
  : NetDraws R :=
  mkNetDraws (embed_draws dr) bd (projection_w dr) (projection_b dr)
    (projection_mask dr).

Definition reblock (net : TimesNet R) (d : nat) (blocks : list (TimesBlock R))
  : TimesNet R :=
  mkTimesNet (sequence_lenth net) (delta net) d (merger net)
    (subject_layers net) (enc_embedding net) blocks (layer_norm net)
    (dropout net) (projection net).

Lemma TimesNet_init_reblock (nt : bool) (a : TimesNetArgs R) (dr : NetDraws R)
    (ic ic' : list (string * nat)) (net : TimesNet R) (d : nat)
    (bd : nat -> BlockDraws R) :
  TimesNet_init nt a dr ic = (Ok net, ic') ->
  TimesNet_init nt (with_depth a d) (with_block_draws dr bd) ic =
  (Ok (reblock net d
         (built_blocks (a_sequence_lenth a) (a_d_model a) (a_d_ff a)
            (a_num_kernels a) (a_top_k a) d bd)), ic').
Proof.
  unfold TimesNet_init, bindS, lift, get, put, ret.
  cbn [a_merger a_subject_layers a_merger_channels a_merger_pos_dim
       a_merger_dropout a_merger_penalty a_n_subjects a_merger_per_subject
       a_hidden a_subject_layers_dim a_subject_layers_id a_d_model a_d_ff
       a_sequence_lenth a_num_kernels a_top_k a_flatten_out_channels a_depth
       with_depth with_block_draws embed_draws block_draws projection_w
       projection_b projection_mask].
  intros E.
  destruct (a_merger a), (a_subject_layers a);
    repeat match type of E with
           | context [match ?e with Ok _ => _ | Raise _ => _ end] =>
               destruct e; try discriminate
           end;
    injection E as <- <-; reflexivity.
Qed.

Lemma crop_or_pad_reblock (meg : Tensor R) (net : TimesNet R) (d : nat)
    (blocks : list (TimesBlock R)) :
  crop_or_pad meg (reblock net d blocks) =
  (fst (crop_or_pad meg net), reblock (snd (crop_or_pad meg net)) d blocks).
Proof.
  unfold crop_or_pad, bindS, lift, get, put, ret.
  destruct (last_dim (shape meg)) as [len|]; [|reflexivity].
  cbn [sequence_lenth delta set_delta reblock].
  destruct (len <? sequence_lenth net); [reflexivity|].
  destruct (sequence_lenth net <? len); reflexivity.
Qed.

Lemma TimesNet_tail_reblock (net : TimesNet R) (d : nat)
    (blocks : list (TimesBlock R)) (length : nat) (meg : Tensor R)
    (inputs : list (string * Tensor R)) :
  (forall dl x,
     depth_loop (reblock (set_delta net dl) d blocks) x (seq 0 d) None =
     depth_loop (set_delta net dl) x (seq 0 (depth net)) None) ->
  let r := TimesNet_tail length meg (mkHeap net inputs) in
  TimesNet_tail length meg (mkHeap (reblock net d blocks) inputs) =
  (fst r, mkHeap (reblock (self_of (snd r)) d blocks) (inputs_of (snd r))).
Proof.
  intros Hloop. cbv zeta.
  unfold TimesNet_tail, bindS, on_self, lift, get. cbn [self_of inputs_of].
  rewrite crop_or_pad_reblock.
  destruct (crop_or_pad_state meg net) as [dl Ecrop].
  destruct (crop_or_pad meg net) as [r s]. cbn [fst snd] in Ecrop |- *.
  subst s. destruct r as [x|]; [|reflexivity].
  destruct (permute [0; 2; 1] x) as [x1|]; [|reflexivity].
  cbn [self_of inputs_of enc_embedding reblock depth set_delta].
  destruct (DataEmbedding_forward (enc_embedding net) x1 None) as [x2|];
    [|reflexivity].
  rewrite (Hloop dl x2).
  destruct (depth_loop (set_delta net dl) x2 (seq 0 (depth net)) None)
    as [[e|]|]; try reflexivity.
  cbn [dropout projection delta set_delta reblock].
  destruct (Linear_forward _ _) as [o|]; [|reflexivity].
  destruct (permute [0; 2; 1] o) as [o1|]; [|reflexivity].
  destruct (0 <=? dl)%Z; reflexivity.
Qed.

Lemma TimesNet_forward_reblock (net : TimesNet R) (d : nat)
    (blocks : list (TimesBlock R)) (batch : Batch)
    (inputs : list (string * Tensor R)) :
  (forall dl x,
     depth_loop (reblock (set_delta net dl) d blocks) x (seq 0 d) None =
     depth_loop (set_delta net dl) x (seq 0 (depth net)) None) ->
  let r := TimesNet_forward batch (mkHeap net inputs) in
  TimesNet_forward batch (mkHeap (reblock net d blocks) inputs) =
  (fst r, mkHeap (reblock (self_of (snd r)) d blocks) (inputs_of (snd r))).
Proof.
  intros Hloop. cbv zeta. rewrite !TimesNet_forward_unfold.
  unfold pre_merger, pre_subject, get_input, set_input.
  unfold bindS, lift, get, put, ret.
  cbn [merger subject_layers reblock self_of inputs_of].
  destruct (first_length inputs) as [len|]; [|reflexivity].
  destruct (merger net) as [mg|], (subject_layers net) as [sl|];
    repeat first
      [ progress cbn [self_of inputs_of fst snd]
      | match goal with
        | |- context [match ?e with Ok _ => _ | Raise _ => _ end] =>
            destruct e; try reflexivity
        end ];
    apply TimesNet_tail_reblock; assumption.
Qed.

(** C3. For every depth >= 1 the result of [forward] is that of the last
    block alone: every pass of the loop applies [model[i]] to the same
    embedded [x] and rebinds [enc_out], so the loop equals one application of
    the last block followed by the layer norm, and the network returns
    (result, inputs and delta alike) what the depth-1 network built with the
    last block's parameters returns. *)
Theorem TimesNet_forward_last_block_only (nt : bool) (a : TimesNetArgs R)
    (dr : NetDraws R) (ic ic' : list (string * nat)) (net : TimesNet R) :
  1 <= a_depth a ->
  TimesNet_init nt a dr ic = (Ok net, ic') ->
  let last_draws := fun _ : nat => block_draws dr (a_depth a - 1) in
  exists net1,
    TimesNet_init nt (with_depth a 1) (with_block_draws dr last_draws) ic =
      (Ok net1, ic') /\
    (forall x,
       depth_loop net x (seq 0 (depth net)) None =
       (y <- TimesBlock_forward
               (TimesBlock_init (a_sequence_lenth a) (a_d_model a) (a_d_ff a)
                  (a_num_kernels a) (a_top_k a)
                  (block_draws dr (a_depth a - 1))) x ;;
        e <- LayerNorm_forward (layer_norm net) y ;;
        Ok (Some e))) /\
    forall batch inputs,
      let r := TimesNet_forward batch (mkHeap net inputs) in
      let r1 := TimesNet_forward batch (mkHeap net1 inputs) in
      fst r1 = fst r /\
      inputs_of (snd r1) = inputs_of (snd r) /\
      delta (self_of (snd r1)) = delta (self_of (snd r)).
Proof.
  intros Hd Ei last_draws.
  destruct (TimesNet_init_inv _ _ _ _ _ _ Ei) as (c_in & _ & W & _).
  destruct W as [_ _ Wdepth _ Wmodel _ _ _ _ _].
  set (cfg_blocks := built_blocks (a_sequence_lenth a) (a_d_model a) (a_d_ff a)
                       (a_num_kernels a) (a_top_k a)).
  assert (Hlast : forall n, 1 <= n -> last (seq 0 n) 0 = n - 1).
  { intros n Hn. replace n with (S (n - 1)) at 1 by lia.
    rewrite seq_S, last_last. lia. }
  assert (Hnet : forall dl x,
            depth_loop (set_delta net dl) x (seq 0 (depth net)) None =
            (y <- TimesBlock_forward
                    (TimesBlock_init (a_sequence_lenth a) (a_d_model a)
                       (a_d_ff a) (a_num_kernels a) (a_top_k a)
                       (block_draws dr (a_depth a - 1))) x ;;
             e <- LayerNorm_forward (layer_norm net) y ;;
             Ok (Some e))).
  { intros dl x.
    rewrite (depth_loop_last (set_delta net dl) (a_sequence_lenth a)
               (a_d_model a) (a_d_ff a) (a_num_kernels a) (a_top_k a)
               (block_draws dr) x).
    - rewrite Wdepth, Hlast by assumption. reflexivity.
    - cbn [model depth set_delta]. rewrite Wmodel, Wdepth. reflexivity.
    - rewrite Wdepth. destruct (a_depth a); [lia | discriminate].
    - apply Forall_forall. intros i Hi. apply in_seq in Hi.
      cbn [depth set_delta]. lia. }
  exists (reblock net 1 (cfg_blocks 1 last_draws)).
  split; [apply TimesNet_init_reblock; assumption|]. split.
  - intros x. specialize (Hnet (delta net) x).
    replace (set_delta net (delta net)) with net in Hnet
      by (destruct net; reflexivity).
    exact Hnet.
  - intros batch inputs. cbv zeta.
    rewrite (TimesNet_forward_reblock net 1 (cfg_blocks 1 last_draws)).
    + cbn [fst snd self_of inputs_of delta reblock]. auto.
    + intros dl x. rewrite Hnet.
      rewrite (depth_loop_last (reblock (set_delta net dl) 1
                                  (cfg_blocks 1 last_draws))
                 (a_sequence_lenth a) (a_d_model a) (a_d_ff a)
                 (a_num_kernels a) (a_top_k a) last_draws x).
      * reflexivity.
      * reflexivity.
      * discriminate.
      * repeat constructor.
Qed.

End Proofs.

(** * Further properties of the module *)

Section Coverage.

Context {R : Type} {SR : Scalar R} {common : Common R}.

(** ** crop_or_pad *)

(** Cropping or padding twice: the second call returns the tensor as it is
    and overwrites the recorded difference with 0. *)
Theorem crop_or_pad_twice (meg : Tensor R) (self : TimesNet R) (b c t : nat) :
  shape meg = [b; c; t] ->
  exists x,
    fst (crop_or_pad meg self) = Ok x /\
    shape x = [b; c; sequence_lenth self] /\
    delta (snd (crop_or_pad meg self)) =
      (Z.of_nat (sequence_lenth self) - Z.of_nat t)%Z /\
    crop_or_pad x (snd (crop_or_pad meg self)) = (Ok x, set_delta self 0%Z).
Proof.
  intros S. destruct (crop_or_pad_ok meg self b c t S) as (x & Ex & Sx & _).
  exists x. rewrite Ex. cbn [fst snd delta set_delta].
  repeat split; try assumption.
  unfold crop_or_pad, bindS, lift, get, put. unfold last_dim. rewrite Sx.
  cbn [rev app sequence_lenth delta set_delta].
  rewrite Nat.ltb_irrefl, Z.sub_diag. reflexivity.
Qed.

(** On a tensor of rank 1 or 2 padding still works, but truncation raises
    IndexError (the slice [x[:, :, :n]] has too many indices), and by then
    [self.delta] has been overwritten. *)
Theorem crop_or_pad_low_rank (meg : Tensor R) (self : TimesNet R)
    (s : list nat) (t : nat) :
  shape meg = s ++ [t] -> length s <= 1 ->
  delta (snd (crop_or_pad meg self)) =
    (Z.of_nat (sequence_lenth self) - Z.of_nat t)%Z /\
  (sequence_lenth self < t ->
   fst (crop_or_pad meg self) = Raise IndexError) /\
  (t <= sequence_lenth self ->
   exists x, fst (crop_or_pad meg self) = Ok x /\
             shape x = s ++ [sequence_lenth self]).
Proof.
  intros S Hs. unfold crop_or_pad, bindS, lift, get, put. unfold last_dim.
  rewrite S, rev_app_distr. cbn [rev app sequence_lenth delta set_delta].
  destruct (Nat.ltb_spec t (sequence_lenth self)) as [Hlt | Hge].
  - cbn [fst snd delta set_delta]. split; [reflexivity|].
    split; [intros; lia|]. intros _.
    unfold pad_right. rewrite S, rev_app_distr. cbn [rev app].
    eexists. split; [reflexivity|]. cbn [shape].
    rewrite rev_involutive. repeat f_equal. lia.
  - destruct (Nat.ltb_spec (sequence_lenth self) t) as [Hgt | Hle].
    + cbn [fst snd delta set_delta]. split; [reflexivity|].
      split; [|intros; lia]. intros _.
      unfold slice_to. rewrite S, length_app. cbn [length].
      destruct s as [|a [|a' s']]; cbn in Hs |- *; try reflexivity; lia.
    + cbn [fst snd delta set_delta]. split; [reflexivity|].
      split; [intros; lia|]. intros _.
      exists meg. split; [reflexivity|]. rewrite S. repeat f_equal. lia.
Qed.

(** A tensor without axes has no last axis: IndexError, and [self] is left
    as it was. *)
Lemma crop_or_pad_scalar (meg : Tensor R) (self : TimesNet R) :
  shape meg = [] -> crop_or_pad meg self = (Raise IndexError, self).
Proof.
  intros S. unfold crop_or_pad, bindS, lift. unfold last_dim. rewrite S.
  reflexivity.
Qed.

(** ** TimesNet.forward: what it needs and what it returns *)

Lemma dict_get_missing (V : Type) (d : list (string * V)) (key : string) :
  dict_mem d key = false -> dict_get d key = Raise KeyError.
Proof.
  unfold dict_mem. induction d as [|[k0 v0] d IH]; simpl; [reflexivity|].
  destruct (String.eqb k0 key); simpl; [discriminate | exact IH].
Qed.

Lemma dict_get_present (V : Type) (d : list (string * V)) (key : string) :
  dict_mem d key = true -> exists v, dict_get d key = Ok v.
Proof.
  unfold dict_mem. induction d as [|[k0 v0] d IH]; simpl; [discriminate|].
  destruct (String.eqb k0 key); simpl; [eauto | exact IH].
Qed.

(** Without inputs [forward] raises StopIteration, and with inputs that lack
    the "meg" key it raises KeyError; in both cases neither the module nor
    the dictionary has been touched. *)
Theorem TimesNet_forward_missing_meg (batch : Batch) (h : Heap R) :
  (inputs_of h = [] ->
   TimesNet_forward batch h = (Raise StopIteration, h)) /\
  (forall length, first_length (inputs_of h) = Ok length ->
   dict_mem (inputs_of h) "meg" = false ->
   TimesNet_forward batch h = (Raise KeyError, h)).
Proof.
  split.
  - intros E. rewrite TimesNet_forward_unfold. unfold bindS at 1.
    unfold lift at 1. rewrite E. reflexivity.
  - intros len Hl Hm. apply dict_get_missing in Hm.
    rewrite TimesNet_forward_unfold. unfold bindS at 1. unfold lift at 1.
    rewrite Hl.
    unfold pre_merger, pre_subject, get_input, set_input.
    unfold bindS, lift, get, put, ret.
    destruct (merger (self_of h)) as [mg|]; [rewrite Hm; reflexivity|].
    destruct (subject_layers (self_of h)) as [sl|]; rewrite Hm; reflexivity.
Qed.

(** With depth = 0 the loop body never runs, [enc_out] is never bound, and
    the pass raises UnboundLocalError once the embedding is done. *)
Theorem TimesNet_forward_depth_zero (a : TimesNetArgs R) (dr : NetDraws R)
    (ic ic' : list (string * nat)) (net : TimesNet R) (c_in : nat)
    (batch : Batch) (inputs : list (string * Tensor R)) (length : nat)
    (meg meg' : Tensor R) (b t : nat) :
  a_depth a = 0 ->
  TimesNet_init true a dr ic = (Ok net, ic') ->
  dict_get ic' "meg" = Ok c_in ->
  first_length inputs = Ok length ->
  dict_get inputs "meg" = Ok meg ->
  preprocessed net batch meg = Ok meg' ->
  shape meg' = [b; c_in; t] ->
  1 <= a_sequence_lenth a -> a_sequence_lenth a <= 5000 ->
  fst (TimesNet_forward batch (mkHeap net inputs)) = Raise UnboundLocalError.
Proof.
  intros Hd Ei Ec Hl Hg Hp S Hs Hs'.
  destruct (TimesNet_init_inv _ _ _ _ _ _ Ei) as (c0 & Ec0 & W & _).
  assert (c0 = c_in) as -> by congruence.
  destruct W as [Wseq _ Wdepth Wemb _ _ _ _ _ _].
  rewrite TimesNet_forward_unfold. cbn [inputs_of self_of].
  unfold bindS at 1. unfold lift at 1. rewrite Hl.
  destruct (pre_run _ batch net net inputs meg meg'
              (meg0 <~ get_input "meg" ;; TimesNet_tail length meg0) Hg Hp)
    as [Erun Eget].
  rewrite Erun. unfold bindS at 1. unfold get_input at 1.
  unfold bindS at 1. unfold get at 1. unfold lift at 1.
  cbn [inputs_of]. rewrite Eget.
  destruct (crop_or_pad_ok meg' net b c_in t S) as (x & Ex & Sx & _).
  rewrite Wseq in Sx.
  destruct (permute_021_ok x _ _ _ Sx) as (x1 & E1 & S1).
  destruct (DataEmbedding_forward_ok c_in (a_d_model a) _ _ _ _ x1 b
              (a_sequence_lenth a) Wemb S1 Hs Hs') as (x2 & E2 & S2).
  unfold TimesNet_tail, bindS, on_self, lift, get. cbn [self_of inputs_of].
  rewrite Ex, E1. cbn [self_of inputs_of enc_embedding set_delta depth].
  rewrite E2, Wdepth, Hd. reflexivity.
Qed.

(** The length the output is cut back to is read from the first entry of
    [inputs], whatever key it has.  For a network [__init__] built (torch >=
    1.5.0, sequence length in 1..5000, num_kernels, top_k, depth >= 1), on a
    non-empty "meg" tensor of the network's channel count for which no block
    selects bin 0 (so that the pass reaches the return): with a "meg" tensor
    no longer than the sequence length the output has min (that length,
    sequence length) time steps; with a longer one the interpolation needs
    that length to be positive and returns a tensor without batch axis. *)
Theorem TimesNet_forward_length_of_first_input (a : TimesNetArgs R)
    (dr : NetDraws R) (ic ic' : list (string * nat)) (net : TimesNet R)
    (c_in : nat) (batch : Batch) (inputs : list (string * Tensor R))
    (length : nat) (meg meg' : Tensor R) (b t : nat) :
  TimesNet_init true a dr ic = (Ok net, ic') ->
  dict_get ic' "meg" = Ok c_in ->
  first_length inputs = Ok length ->
  dict_get inputs "meg" = Ok meg ->
  preprocessed net batch meg = Ok meg' ->
  shape meg' = [b; c_in; t] -> 1 <= b ->
  1 <= a_sequence_lenth a -> a_sequence_lenth a <= 5000 ->
  1 <= a_num_kernels a -> 1 <= a_top_k a -> 1 <= a_depth a ->
  periods_positive (a_top_k a) net meg' = true ->
  let r := fst (TimesNet_forward batch (mkHeap net inputs)) in
  (t <= a_sequence_lenth a ->
   exists y, r = Ok y /\
             shape y = [b; a_flatten_out_channels a;
                        Nat.min length (a_sequence_lenth a)]) /\
  (a_sequence_lenth a < t -> 1 <= length ->
   exists y, r = Ok y /\ shape y = [a_flatten_out_channels a; length]) /\
  (a_sequence_lenth a < t -> length = 0 -> r = Raise RuntimeError).
Proof.
  intros Ei Ec Hl Hg Hp S Hb Hs Hs' Hnk Hk Hd Hpp r.
  destruct (TimesNet_init_inv _ _ _ _ _ _ Ei) as (c0 & Ec0 & W & _).
  assert (c0 = c_in) as -> by congruence.
  destruct (TimesNet_forward_run a dr c_in net batch inputs length meg meg'
              b t W Hl Hg Hp S Hb Hs Hs' Hnk Hk Hd Hpp)
    as (out & Sout & Ef).
  subst r. rewrite Ef. cbn [fst]. clear Ef.
  split; [|split].
  - intros Ht. rewrite (proj2 (Z.leb_le 0 _)) by lia.
    destruct (slice_to_2_ok out length _ _ _ Sout) as (y & Ey & Sy & _).
    exists y. split; assumption.
  - intros Ht Hlen. rewrite (proj2 (Z.leb_gt _ _)) by lia.
    unfold interpolate. rewrite Sout.
    rewrite guard_Ok
      by (apply andb_true_intro; split; apply Nat.ltb_lt; lia).
    cbn [bind]. unfold index0. cbn [shape].
    rewrite guard_Ok by (apply Nat.ltb_lt; lia). cbn [bind].
    eexists. split; reflexivity.
  - intros Ht ->. rewrite (proj2 (Z.leb_gt _ _)) by lia.
    unfold interpolate. rewrite Sout. rewrite andb_false_r. reflexivity.
Qed.

(** What [self.delta] held before the call is never read: [forward] returns
    the same result and leaves the same inputs whatever it was. *)
Theorem TimesNet_forward_ignores_old_delta (net : TimesNet R) (d0 : Z)
    (batch : Batch) (inputs : list (string * Tensor R)) :
  let r := TimesNet_forward batch (mkHeap net inputs) in
  let r0 := TimesNet_forward batch (mkHeap (set_delta net d0) inputs) in
  fst r0 = fst r /\ inputs_of (snd r0) = inputs_of (snd r).
Proof.
  cbv zeta.
  assert (Htail : forall len meg inp,
            let q := TimesNet_tail len meg (mkHeap net inp) in
            let q0 := TimesNet_tail len meg (mkHeap (set_delta net d0) inp) in
            fst q0 = fst q /\ inputs_of (snd q0) = inputs_of (snd q)).
  { intros len meg inp. cbv zeta. rewrite !TimesNet_tail_inputs.
    split; [|reflexivity].
    unfold TimesNet_tail, bindS, on_self, lift, get.
    cbn [self_of inputs_of].
    unfold crop_or_pad, bindS, lift, get, put.
    destruct (last_dim (shape meg)) as [l|]; [|reflexivity].
    cbn [sequence_lenth delta set_delta].
    destruct (l <? sequence_lenth net);
      [|destruct (sequence_lenth net <? l)]; reflexivity. }
  rewrite !TimesNet_forward_unfold.
  unfold pre_merger, pre_subject, get_input, set_input.
  unfold bindS, lift, get, put, ret.
  cbn [merger subject_layers set_delta self_of inputs_of].
  destruct (first_length inputs) as [len|]; [|split; reflexivity].
  destruct (merger net) as [mg|], (subject_layers net) as [sl|];
    repeat first
      [ progress cbn [self_of inputs_of fst snd]
      | match goal with
        | |- context [match ?e with Ok _ => _ | Raise _ => _ end] =>
            destruct e; try (split; reflexivity)
        end ];
    apply Htail.
Qed.

(** ** FFT_for_Period: bounds *)

(** On a [B, T, C] tensor with B, C >= 1 the function returns exactly when
    T >= 1 and k is at most the number of bins T//2 + 1; otherwise it raises
    RuntimeError (rfft of an empty axis, or topk out of range). *)
Theorem FFT_for_Period_ok_iff (x : Tensor R) (b t c k : nat) :
  shape x = [b; t; c] -> 1 <= b -> 1 <= c ->
  (is_ok (FFT_for_Period x k) = true <-> 1 <= t /\ k <= t / 2 + 1) /\
  (is_ok (FFT_for_Period x k) = false ->
   FFT_for_Period x k = Raise RuntimeError).
Proof.
  intros S _ _.
  destruct (Nat.le_gt_cases 1 t) as [Ht | Ht].
  - destruct (Nat.le_gt_cases k (t / 2 + 1)) as [Hk | Hk].
    + destruct (FFT_for_Period_ok x b t c k S Ht Hk) as
        (xf & fl & w & _ & _ & _ & _ & _ & _ & _ & _ & _ & _ & E & _).
      cbv zeta in E. rewrite E. cbn [is_ok].
      split; [tauto | discriminate].
    + assert (E : FFT_for_Period x k = Raise RuntimeError).
      { unfold FFT_for_Period.
        destruct (rfft_abs_ok x b t c S Ht) as (xf & Exf & Sxf).
        rewrite Exf. cbn [bind].
        destruct (FFT_frequency_list_ok xf b (t / 2 + 1) c Sxf) as
          (fl & Efl & Sfl & _); [lia|].
        rewrite Efl. cbn [bind]. unfold topk. rewrite Sfl.
        destruct (Nat.leb_spec k (t / 2 + 1)); [lia | reflexivity]. }
      rewrite E. cbn [is_ok]. split; [|reflexivity].
      split; [discriminate | lia].
  - assert (E : FFT_for_Period x k = Raise RuntimeError).
    { unfold FFT_for_Period, rfft_abs. rewrite S.
      replace t with 0 by lia. reflexivity. }
    rewrite E. cbn [is_ok]. split; [|reflexivity].
    split; [discriminate | lia].
Qed.

(** Every period that comes from a bin other than bin 0 lies between 2 and
    T, and only bin 0 gives the period 0. *)
Theorem FFT_for_Period_period_bounds (x : Tensor R) (b t c k : nat)
    (top : list nat) :
  shape x = [b; t; c] -> FFT_top_list x k = Ok top ->
  forall i, In i top ->
    (i <> 0 -> 2 <= np_floordiv t i /\ np_floordiv t i <= t) /\
    (np_floordiv t i = 0 <-> i = 0).
Proof.
  intros S Etop i Hi.
  destruct (FFT_top_list_inv x b t c k top S Etop) as [Ht Hk].
  destruct (FFT_for_Period_ok x b t c k S Ht Hk) as
    (xf & fl & w & _ & _ & _ & _ & _ & _ & Etop' & _ & _ & Ftop & _).
  cbv zeta in Etop', Ftop.
  assert (Et : select_top k (bins fl (t / 2 + 1)) = top) by congruence.
  rewrite Et in Ftop. rewrite Forall_forall in Ftop. specialize (Ftop i Hi).
  pose proof (Nat.div_mod_eq t 2) as H2.
  pose proof (Nat.mod_upper_bound t 2 ltac:(lia)) as H2'.
  unfold np_floordiv. destruct (Nat.eq_dec i 0) as [-> | Hnz].
  - split; [intros C; contradiction|]. split; reflexivity.
  - assert (Hi2 : 2 * i <= t) by lia.
    assert (Hlo : 2 <= t / i)
      by (apply Nat.div_le_lower_bound; lia).
    assert (Hhi : t / i <= t) by (apply Nat.Div0.div_le_upper_bound; nia).
    split; [intros _; split; assumption|]. split; intros; lia.
Qed.

Section OrderedCoverage.

Hypothesis leb_total : forall a b : R, leb a b = true \/ leb b a = true.
Hypothesis leb_trans :
  forall a b c : R, leb a b = true -> leb b c = true -> leb a c = true.

(** On an ordered backend bin 0 stays out of the selection as soon as k
    other bins have an amplitude that is not below or equal to zero. *)
Theorem FFT_top_list_avoids_dc (x : Tensor R) (b t c k : nat)
    (top positive : list nat) (xf : Tensor R) :
  shape x = [b; t; c] -> rfft_abs x = Ok xf ->
  FFT_top_list x k = Ok top ->
  NoDup positive -> k <= length positive ->
  (forall j, In j positive ->
     j <> 0 /\ j < t / 2 + 1 /\ leb (amplitude xf b c j) zero = false) ->
  ~ In 0 top.
Proof.
  intros S Exf Etop NDp Hlen Hpos Hin0.
  destruct (FFT_top_list_inv x b t c k top S Etop) as [Ht Hk].
  destruct (FFT_for_Period_ok x b t c k S Ht Hk) as
    (xf' & fl & w & Exf' & _ & _ & _ & V0 & Vfl & Etop' & Ltop & NDtop & Ftop
     & _).
  cbv zeta in Etop', Ltop, NDtop, Ftop.
  assert (xf' = xf) as -> by congruence.
  assert (Et : select_top k (bins fl (t / 2 + 1)) = top) by congruence.
  assert (Hbin : forall a, a < t / 2 + 1 ->
                           In (a, elem fl [a]) (bins fl (t / 2 + 1))).
  { intros a Ha. unfold bins. apply in_map_iff. exists a. split; auto.
    apply in_seq. lia. }
  assert (Hincl : incl (0 :: positive) top).
  { intros j [<- | Hj]; [assumption|].
    destruct (Hpos j Hj) as (Hj0 & Hjf & Hamp).
    destruct (in_dec Nat.eq_dec j top) as [Hjt | Hjt]; [assumption|].
    exfalso.
    assert (Hle : leb (elem fl [j]) (elem fl [0]) = true).
    { rewrite <- Et in Hin0, Hjt.
      apply (select_top_largest leb_total leb_trans k
               (bins fl (t / 2 + 1)) (0, elem fl [0]) (j, elem fl [j]));
        try assumption.
      - rewrite bins_fst. apply seq_NoDup.
      - apply Hbin. lia.
      - apply Hbin. assumption. }
    rewrite V0, (Vfl j Hj0), Hamp in Hle. discriminate. }
  assert (ND : NoDup (0 :: positive)).
  { constructor; [|assumption]. intros H0. destruct (Hpos 0 H0). congruence. }
  pose proof (NoDup_incl_length ND Hincl) as Hl. cbn [length] in Hl.
  rewrite <- Et in Hl. rewrite Ltop in Hl. lia.
Qed.

End OrderedCoverage.

(** ** Inception_Block_V1 and TimesBlock: when they raise *)

Lemma mapM_raise_uniform (A B : Type) (f : A -> result B) (l : list A)
    (e : exn) :
  (forall a, In a l -> is_ok (f a) = true \/ f a = Raise e) ->
  (exists a, In a l /\ f a = Raise e) ->
  mapM f l = Raise e.
Proof.
  induction l as [|a0 l IH]; intros Hall (a & Hin & Ha); [contradiction|].
  simpl. destruct (Hall a0 (or_introl eq_refl)) as [Hok | Hr].
  - destruct (f a0) as [b0|e0] eqn:E0; [|discriminate]. cbn [bind].
    destruct Hin as [-> | Hin]; [congruence|].
    rewrite IH; [reflexivity | intros; apply Hall; now right | eauto].
  - rewrite Hr. reflexivity.
Qed.

(** A block with in_channels, out_channels >= 1, on a [B, C, H, W] tensor
    with B >= 1: it returns exactly when it has at least one kernel, C is its
    in_channels, and H and W are at least 1; otherwise it raises
    RuntimeError (no tensor to stack, a channel mismatch, or a kernel larger
    than the input). *)
Theorem Inception_Block_V1_forward_ok_iff (in_ch out_ch nk : nat) (iw : bool)
    (dr : InceptionDraws) (x : Tensor R) (b ch h w : nat) :
  shape x = [b; ch; h; w] -> 1 <= b -> 1 <= in_ch -> 1 <= out_ch ->
  let r := Inception_Block_V1_forward
             (Inception_Block_V1_init in_ch out_ch nk iw dr) x in
  (is_ok r = true <-> 1 <= nk /\ ch = in_ch /\ 1 <= h /\ 1 <= w) /\
  (is_ok r = false -> r = Raise RuntimeError).
Proof.
  intros S _ _ _ r.
  assert (Hcases : (1 <= nk /\ ch = in_ch /\ 1 <= h /\ 1 <= w) \/
                   r = Raise RuntimeError).
  { destruct nk as [|nk'].
    - right. reflexivity.
    - destruct (Nat.eq_dec ch in_ch) as [-> | Hch];
        [destruct (Nat.le_gt_cases 1 h) as [Hh | Hh];
         [destruct (Nat.le_gt_cases 1 w) as [Hw | Hw]|]|].
      + left. repeat split; try assumption; lia.
      + right. subst r. unfold Inception_Block_V1_forward,
          Inception_Block_V1_branches.
        cbn [num_kernels kernels Inception_Block_V1_init seq map mapM
             nth_error].
        unfold Conv2d_forward at 1. rewrite S.
        cbn [c2_in c2_kernel c2_padding]. rewrite Nat.eqb_refl.
        cbn [guard bind].
        destruct (Nat.leb_spec (2 * 0 + 1) (h + 2 * 0)); cbn [guard bind];
          [|reflexivity].
        destruct (Nat.leb_spec (2 * 0 + 1) (w + 2 * 0)); cbn [guard bind];
          [lia | reflexivity].
      + right. subst r. unfold Inception_Block_V1_forward,
          Inception_Block_V1_branches.
        cbn [num_kernels kernels Inception_Block_V1_init seq map mapM
             nth_error].
        unfold Conv2d_forward at 1. rewrite S.
        cbn [c2_in c2_kernel c2_padding]. rewrite Nat.eqb_refl.
        cbn [guard bind].
        destruct (Nat.leb_spec (2 * 0 + 1) (h + 2 * 0)); cbn [guard bind];
          [lia | reflexivity].
      + right. subst r. unfold Inception_Block_V1_forward,
          Inception_Block_V1_branches.
        cbn [num_kernels kernels Inception_Block_V1_init seq map mapM
             nth_error].
        unfold Conv2d_forward at 1. rewrite S. cbn [c2_in].
        destruct (Nat.eqb_spec ch in_ch); [contradiction | reflexivity]. }
  destruct Hcases as [(Hnk & -> & Hh & Hw) | Hr].
  - destruct (Inception_forward_ok in_ch out_ch nk iw dr x b h w Hnk S Hh Hw)
      as (_ & y & _ & Ey & _).
    subst r. rewrite Ey. cbn [is_ok]. split; [tauto | discriminate].
  - rewrite Hr. cbn [is_ok]. split; [|reflexivity].
    split; [discriminate|]. intros (Hnk & Hch & Hh & Hw). subst ch.
    destruct (Inception_forward_ok in_ch out_ch nk iw dr x b h w Hnk S Hh Hw)
      as (_ & y & _ & Ey & _).
    subst r. congruence.
Qed.

(** A period of 0 makes the reshape to [B, 0, 0, N] fail. *)
Lemma TimesBlock_period_zero (m : TimesBlock R) (x : Tensor R) (b t n : nat) :
  shape x = [b; t; n] -> 1 <= b -> 1 <= n -> 1 <= t ->
  TimesBlock_period m x b n 0 = Raise RuntimeError.
Proof.
  intros S Hb Hn Ht. unfold TimesBlock_period, np_mod, np_floordiv.
  cbn [Nat.eqb negb bind]. unfold reshape. rewrite S.
  destruct (Nat.eqb_spec (numel [b; seq_len m / 0; 0; n]) (numel [b; t; n]))
    as [E | _]; [|reflexivity].
  exfalso. cbn [numel fold_right] in E. nia.
Qed.

Lemma TimesBlock_period_wrong_length (m : TimesBlock R) (x : Tensor R)
    (b t n period : nat) :
  shape x = [b; t; n] -> 1 <= b -> 1 <= n -> 1 <= t -> t <> seq_len m ->
  TimesBlock_period m x b n period = Raise RuntimeError.
Proof.
  intros S Hb Hn Ht Hne.
  destruct (Nat.eq_dec period 0) as [-> | Hp];
    [eapply TimesBlock_period_zero; eassumption|].
  unfold TimesBlock_period, np_mod, np_floordiv.
  destruct (Nat.eqb_spec period 0) as [E0 | _]; [contradiction|].
  set (s := seq_len m) in *.
  pose proof (Nat.div_mod_eq s period) as Hdm.
  pose proof (Nat.mod_upper_bound s period Hp) as Hub.
  destruct (Nat.eqb_spec (s mod period) 0) as [Ez | Enz]; cbn [negb bind].
  - unfold reshape. rewrite S.
    destruct (Nat.eqb_spec (numel [b; s / period; period; n])
                (numel [b; t; n])) as [E | _]; [|reflexivity].
    exfalso. cbn [numel fold_right] in E.
    assert (Hs : s = s / period * period) by lia.
    assert (b * (s * n) = b * (t * n)) by (rewrite Hs at 1; nia).
    apply Hne. nia.
  - set (len := (s / period + 1) * period).
    assert (Hlen : s < len) by (unfold len; nia).
    destruct (cat_1_ok x (zeros [nth 0 (shape x) 0; len - s;
                                 nth 2 (shape x) 0]) b t (len - s) n S)
      as (out & Eo & So); [rewrite S; reflexivity|].
    rewrite Eo. cbn [bind]. unfold reshape. rewrite So.
    assert (Hd : len / period = s / period + 1)
      by (unfold len; apply Nat.div_mul; lia).
    rewrite Hd.
    destruct (Nat.eqb_spec (numel [b; s / period + 1; period; n])
                (numel [b; t + (len - s); n])) as [E | _]; [|reflexivity].
    exfalso. cbn [numel fold_right] in E. fold len in E.
    assert (b * (len * n) = b * ((t + (len - s)) * n))
      by (unfold len at 1; nia).
    apply Hne. nia.
Qed.

Lemma FFT_for_Period_cases (x : Tensor R) (b t c k : nat) :
  shape x = [b; t; c] ->
  (1 <= t /\ k <= t / 2 + 1 /\
   exists top w,
     FFT_top_list x k = Ok top /\
     FFT_for_Period x k = Ok (map (fun i => t / i) top, w) /\
     length top = k /\ NoDup top /\ Forall (fun i => i < t / 2 + 1) top /\
     shape w = [b; k]) \/
  FFT_for_Period x k = Raise RuntimeError.
Proof.
  intros S.
  destruct (Nat.le_gt_cases 1 t) as [Ht | Ht].
  - destruct (Nat.le_gt_cases k (t / 2 + 1)) as [Hk | Hk].
    + left. split; [assumption|]. split; [assumption|].
      destruct (FFT_for_Period_ok x b t c k S Ht Hk) as
        (xf & fl & w & _ & _ & _ & _ & _ & _ & Et & Lt & ND & Ft & E & Sw & _).
      cbv zeta in Et, Lt, ND, Ft, E.
      exists (select_top k (bins fl (t / 2 + 1))), w.
      repeat (split; [assumption|]). assumption.
    + right. unfold FFT_for_Period.
      destruct (rfft_abs_ok x b t c S Ht) as (xf & Exf & Sxf).
      rewrite Exf. cbn [bind].
      destruct (FFT_frequency_list_ok xf b (t / 2 + 1) c Sxf) as
        (fl & Efl & Sfl & _); [lia|].
      rewrite Efl. cbn [bind]. unfold topk. rewrite Sfl.
      destruct (Nat.leb_spec k (t / 2 + 1)); [lia | reflexivity].
  - right. unfold FFT_for_Period, rfft_abs. rewrite S.
    replace t with 0 by lia. reflexivity.
Qed.

(** A block only accepts the sequence length it was built for: on a
    non-empty [B, T, N] tensor with T different from [seq_len] it raises
    RuntimeError, whatever its parameters and top_k. *)
Theorem TimesBlock_forward_wrong_length (m : TimesBlock R) (x : Tensor R)
    (b t n : nat) :
  shape x = [b; t; n] -> 1 <= b -> 1 <= n -> t <> seq_len m ->
  TimesBlock_forward m x = Raise RuntimeError.
Proof.
  intros S Hb Hn Hne. unfold TimesBlock_forward. rewrite S.
  destruct (FFT_for_Period_cases x b t n (k m) S)
    as [(Ht & Hk & top & w & _ & E & Lt & _) | E]; rewrite E;
    [|reflexivity].
  cbn [bind]. destruct (k m) as [|k'] eqn:Ek.
  - reflexivity.
  - cbn [seq mapM].
    rewrite (TimesBlock_period_wrong_length m x b t n _ S Hb Hn Ht Hne).
    reflexivity.
Qed.

(** Asking for more periods than T // 2 can never work: either topk is out
    of range, or bin 0 is among the selected bins and its period 0 breaks the
    reshape.  Every such call raises RuntimeError. *)
Theorem TimesBlock_forward_too_many_periods (t d_model d_ff nk top_k : nat)
    (dr : BlockDraws R) (x : Tensor R) (b : nat) :
  shape x = [b; t; d_model] -> 1 <= b -> 1 <= d_model -> 1 <= d_ff ->
  1 <= nk -> t / 2 < top_k ->
  TimesBlock_forward (TimesBlock_init t d_model d_ff nk top_k dr) x
  = Raise RuntimeError.
Proof.
  intros S Hb Hn _ Hnk Hk.
  set (m := TimesBlock_init t d_model d_ff nk top_k dr).
  unfold TimesBlock_forward. rewrite S.
  replace (k m) with top_k by reflexivity.
  destruct (FFT_for_Period_cases x b t d_model top_k S)
    as [(Ht & Hkf & top & w & _ & E & Lt & ND & Ft & _) | E]; rewrite E;
    [|reflexivity].
  cbn [bind].
  assert (Hk' : top_k = t / 2 + 1) by lia.
  assert (H0 : In 0 top).
  { apply (NoDup_length_incl ND (l' := seq 0 (t / 2 + 1))).
    - rewrite length_seq. lia.
    - intros i Hi. rewrite Forall_forall in Ft. apply in_seq.
      specialize (Ft i Hi). lia.
    - apply in_seq. lia. }
  rewrite (mapM_raise_uniform _ _ _ _ RuntimeError); [reflexivity | |].
  - intros i Hi. apply in_seq in Hi.
    assert (Hin : In (nth i top 0) top) by (apply nth_In; lia).
    rewrite (nth_indep _ 0 ((fun i => t / i) 0))
      by (rewrite length_map; lia).
    rewrite map_nth.
    destruct (Nat.eq_dec (nth i top 0) 0) as [Ez | Hnz].
    + right. rewrite Ez.
      apply (TimesBlock_period_zero m x b t d_model S Hb Hn Ht).
    + left. rewrite Forall_forall in Ft. specialize (Ft _ Hin).
      destruct (TimesBlock_period_ok t d_model d_ff nk top_k dr x b
                  (t / nth i top 0) S Hb Hn Hnk Ht) as (y & Ey & _).
      { apply Nat.div_str_pos. split; [lia|].
        pose proof (Nat.div_mod_eq t 2). lia. }
      fold m in Ey. rewrite Ey. reflexivity.
  - destruct (In_nth top 0 0 H0) as (i & Hi & Ei).
    exists i. split; [apply in_seq; lia|].
    rewrite (nth_indep _ 0 ((fun i => t / i) 0))
      by (rewrite length_map; lia).
    rewrite map_nth, Ei.
    apply (TimesBlock_period_zero m x b t d_model S Hb Hn Ht).
Qed.

Lemma cat_1_elem (x y : Tensor R) (b t t' n : nat) :
  shape x = [b; t; n] -> shape y = [b; t'; n] ->
  exists z, cat 1 x y = Ok z /\ shape z = [b; t + t'; n] /\
            forall idx, elem z idx =
                        if nth 1 idx 0 <? t then elem x idx
                        else elem y (set_nth 1 (nth 1 idx 0 - t) idx).
Proof.
  intros Sx Sy. unfold cat. rewrite Sx, Sy. simpl.
  rewrite !Nat.eqb_refl. simpl.
  eexists. split; [reflexivity|]. split; [reflexivity|].
  intros idx. reflexivity.
Qed.

Lemma TimesBlock_period_padding (m : TimesBlock R) (x : Tensor R)
    (b n period : nat) :
  TimesBlock_period m x b n period =
  ('(length, out) <- TimesBlock_padding m x period ;;
   out <- reshape [b; np_floordiv length period; period; n] out ;;
   out <- permute [0; 3; 1; 2] out ;;
   out <- TimesBlock_conv m out ;;
   out <- permute [0; 2; 3; 1] out ;;
   out <- reshape_infer b n out ;;
   slice_to 1 (seq_len m) out).
Proof. reflexivity. Qed.

(** The padding step of the loop, for a positive period: the sequence is
    extended with zeros to the smallest multiple of the period that is not
    shorter than it, and left alone when the period divides its length. *)
Theorem TimesBlock_padding_next_multiple (m : TimesBlock R) (x : Tensor R)
    (b n period : nat) :
  shape x = [b; seq_len m; n] -> 1 <= period ->
  exists length out,
    TimesBlock_padding m x period = Ok (length, out) /\
    shape out = [b; length; n] /\
    length mod period = 0 /\
    seq_len m <= length /\ length < seq_len m + period /\
    (forall idx, nth 1 idx 0 < seq_len m -> elem out idx = elem x idx) /\
    (forall idx, seq_len m <= nth 1 idx 0 -> seq_len m < length ->
                 elem out idx = zero).
Proof.
  intros S Hp. unfold TimesBlock_padding. set (t := seq_len m) in *.
  unfold np_mod, np_floordiv.
  destruct (Nat.eqb_spec period 0) as [E0 | _]; [lia|].
  pose proof (Nat.div_mod_eq t period) as Hdm.
  pose proof (Nat.mod_upper_bound t period ltac:(lia)) as Hub.
  destruct (Nat.eqb_spec (t mod period) 0) as [Ez | Enz]; cbn [negb].
  - exists t, x. split; [reflexivity|]. split; [assumption|].
    split; [assumption|]. split; [lia|]. split; [lia|].
    split; [reflexivity | intros; lia].
  - set (len := (t / period + 1) * period).
    assert (Hlen : t < len) by (unfold len; nia).
    destruct (cat_1_elem x (zeros [nth 0 (shape x) 0; len - t;
                                  nth 2 (shape x) 0]) b t (len - t) n S)
      as (out & Eo & So & Vo); [rewrite S; reflexivity|].
    cbv zeta. fold len. rewrite Eo. cbn [bind].
    exists len, out. split; [reflexivity|].
    split; [rewrite So; repeat f_equal; lia|].
    split; [unfold len; apply Nat.Div0.mod_mul|].
    split; [lia|]. split; [unfold len; nia|]. split.
    + intros idx Hi. rewrite Vo.
      destruct (Nat.ltb_spec (nth 1 idx 0) t); [reflexivity|lia].
    + intros idx Hi _. rewrite Vo.
      destruct (Nat.ltb_spec (nth 1 idx 0) t); [lia|reflexivity].
Qed.

(** ** The embeddings: what they need *)

(** [TemporalEmbedding.forward] reads calendar columns 0 to 3, and column 4
    when the minute table exists: a tensor with fewer columns raises
    IndexError. *)
Theorem TemporalEmbedding_forward_columns (m : TemporalEmbedding R)
    (x : Tensor R) (b t f : nat) :
  shape x = [b; t; f] ->
  (f <= 3 -> TemporalEmbedding_forward m x = Raise IndexError) /\
  (minute_embed m <> None -> f <= 4 ->
   TemporalEmbedding_forward m x = Raise IndexError).
Proof.
  intros S.
  assert (Hsel : forall j, f <= j -> select_last3 j x = Raise IndexError).
  { intros j Hj. unfold select_last3. rewrite S.
    destruct (Nat.ltb_spec j f); [lia | reflexivity]. }
  unfold TemporalEmbedding_forward, TemporalEmbedding_minute. split.
  - intros Hf. destruct (minute_embed m) as [e|].
    + rewrite (Hsel 4) by lia. reflexivity.
    + cbn [bind]. rewrite (Hsel 3) by lia. reflexivity.
  - intros Hm Hf. destruct (minute_embed m) as [e|]; [|congruence].
    rewrite (Hsel 4) by lia. reflexivity.
Qed.

Lemma sinusoid_table_cases (rows d_model : nat) :
  (d_model = 0 -> sinusoid_table rows d_model = Raise ZeroDivisionError) /\
  (3 <= d_model -> Nat.odd d_model = true ->
   sinusoid_table rows d_model = Raise RuntimeError) /\
  (1 <= d_model -> Nat.even d_model = true \/ d_model = 1 ->
   exists t, sinusoid_table rows d_model = Ok t /\
             shape t = [rows; d_model]).
Proof.
  unfold sinusoid_table. split; [|split].
  - intros ->. reflexivity.
  - intros H3 Ho. destruct (Nat.eqb_spec d_model 0) as [-> | _];
      [discriminate|].
    cbn [negb guard bind]. unfold Nat.odd in Ho.
    apply negb_true_iff in Ho. rewrite Ho.
    destruct (Nat.eqb_spec d_model 1) as [E | _]; [lia | reflexivity].
  - intros Hd He. destruct (Nat.eqb_spec d_model 0) as [-> | _]; [lia|].
    cbn [negb guard bind].
    rewrite (proj2 (orb_true_iff _ _))
      by (rewrite Nat.eqb_eq; assumption).
    cbn [guard bind]. eexists. split; reflexivity.
Qed.

Lemma DataEmbedding_init_cases (nt : bool) (c_in d_model : nat)
    (dr : EmbedDraws) :
  let r := DataEmbedding_init nt c_in d_model "fixed" "h" dr in
  (d_model = 0 -> r = Raise ZeroDivisionError) /\
  (3 <= d_model -> Nat.odd d_model = true -> r = Raise RuntimeError) /\
  (1 <= d_model -> Nat.even d_model = true \/ d_model = 1 ->
   is_ok r = true).
Proof.
  cbv zeta. unfold DataEmbedding_init, PositionalEmbedding_init.
  destruct (sinusoid_table_cases 5000 d_model) as (H0 & Ho & He).
  split; [|split].
  - intros Hd. rewrite (H0 Hd). reflexivity.
  - intros H3 Hd. rewrite (Ho H3 Hd). reflexivity.
  - intros Hd Hev. destruct (He Hd Hev) as (t & Et & St).
    rewrite Et. cbn [bind]. unfold unsqueeze. rewrite St.
    cbn [length Nat.leb guard bind].
    replace (String.eqb "fixed" "timeF") with false by reflexivity.
    cbn [negb]. unfold TemporalEmbedding_init.
    replace (String.eqb "h" "t") with false by reflexivity.
    cbn [bind]. unfold Embed.
    replace (String.eqb "fixed" "fixed") with true by reflexivity.
    unfold FixedEmbedding_init.
    destruct (sinusoid_table_cases 24 d_model) as (_ & _ & H24).
    destruct (H24 Hd Hev) as (t24 & E24 & _). rewrite E24. cbn [bind].
    destruct (sinusoid_table_cases 7 d_model) as (_ & _ & H7).
    destruct (H7 Hd Hev) as (t7 & E7 & _). rewrite E7. cbn [bind].
    destruct (sinusoid_table_cases 32 d_model) as (_ & _ & H32).
    destruct (H32 Hd Hev) as (t32 & E32 & _). rewrite E32. cbn [bind].
    destruct (sinusoid_table_cases 13 d_model) as (_ & _ & H13).
    destruct (H13 Hd Hev) as (t13 & E13 & _). rewrite E13. cbn [bind].
    reflexivity.
Qed.

(** The sinusoidal tables need an even d_model: for c_in >= 1, construction
    of the data embedding (with the defaults 'fixed' and 'h' that TimesNet
    uses) raises ZeroDivisionError for d_model = 0, RuntimeError for an odd
    d_model >= 3 (the cosine columns do not fit), and succeeds for every
    even d_model >= 2. *)
Theorem DataEmbedding_init_even_d_model (nt : bool) (c_in d_model : nat)
    (dr : EmbedDraws) :
  1 <= c_in ->
  let r := DataEmbedding_init nt c_in d_model "fixed" "h" dr in
  (d_model = 0 -> r = Raise ZeroDivisionError) /\
  (3 <= d_model -> Nat.odd d_model = true -> r = Raise RuntimeError) /\
  (2 <= d_model -> Nat.even d_model = true -> is_ok r = true).
Proof.
  intros _. cbv zeta.
  destruct (DataEmbedding_init_cases nt c_in d_model dr) as (H0 & Ho & He).
  cbv zeta in H0, Ho, He.
  split; [assumption|]. split; [assumption|].
  intros Hd Hev. apply He; [lia | now left].
Qed.

(** The positional table has 5000 rows: a longer sequence cannot be
    embedded, the sum with the positional term raises RuntimeError. *)
Theorem DataEmbedding_forward_too_long (c_in d_model : nat)
    (embed_type freq : string) (dr : EmbedDraws) (m : DataEmbedding R)
    (x : Tensor R) (b t : nat) :
  DataEmbedding_init true c_in d_model embed_type freq dr = Ok m ->
  shape x = [b; t; c_in] -> 1 <= b -> 1 <= c_in -> 5000 < t ->
  DataEmbedding_forward m x None = Raise RuntimeError.
Proof.
  intros Ei S _ _ Ht.
  destruct (DataEmbedding_init_inv _ _ _ _ _ _ _ Ei) as (Ev & Sp & _ & _ & _).
  rewrite DataEmbedding_forward_flat, Ev.
  destruct (TokenEmbedding_forward_ok c_in d_model (token_w dr) x b t S
              ltac:(lia)) as (v & Ev' & Sv).
  rewrite Ev'. cbn [bind]. unfold PositionalEmbedding_forward. rewrite S.
  cbn [length Nat.ltb Nat.leb guard bind nth].
  destruct (slice_to_1_ok (pe (position_embedding m)) t _ _ _ Sp)
    as (p & Ep & Sp').
  rewrite Ep. cbn [bind]. rewrite Nat.min_r in Sp' by lia.
  unfold tadd, binop, broadcast_shapes. rewrite Sv, Sp'.
  cbn [rev app broadcast_rev bind]. rewrite Nat.eqb_refl. cbn [bind].
  assert (Hb : exists r, (if b =? 1 then Ok [b]
                          else if b =? 1 then Ok [1]
                          else if 1 =? 1 then Ok [b]
                          else Raise RuntimeError) = Ok r).
  { destruct (b =? 1); eexists; reflexivity. }
  destruct Hb as (r & Er). cbn [Nat.eqb] in Er |- *.
  destruct (b =? 1); cbn [bind];
    (destruct (Nat.eqb_spec t 5000) as [E | _]; [lia|]);
    (destruct (Nat.eqb_spec t 1) as [E | _]; [lia|]);
    reflexivity.
Qed.

(** ** TimesNet.__init__: errors and what it leaves behind *)

(** Without merger and subject layers the constructor reads
    [in_channels["meg"]] and never writes the dictionary, whether it returns
    or raises; a missing key is a KeyError, and with a width of at least 1
    under the key d_model = 0 is a ZeroDivisionError and an odd d_model >= 3
    a RuntimeError. *)
Theorem TimesNet_init_plain (nt : bool) (a : TimesNetArgs R) (dr : NetDraws R)
    (ic : list (string * nat)) :
  a_merger a = false -> a_subject_layers a = false ->
  let r := TimesNet_init nt a dr ic in
  snd r = ic /\
  (dict_mem ic "meg" = false -> fst r = Raise KeyError) /\
  (forall c, dict_get ic "meg" = Ok c -> 1 <= c ->
     (a_d_model a = 0 -> fst r = Raise ZeroDivisionError) /\
     (3 <= a_d_model a -> Nat.odd (a_d_model a) = true ->
      fst r = Raise RuntimeError)).
Proof.
  intros Hm Hs. cbv zeta.
  unfold TimesNet_init, bindS, lift, get, put, ret. rewrite Hm, Hs.
  split; [|split].
  - destruct (dict_get ic "meg") as [c|]; [|reflexivity].
    destruct (DataEmbedding_init nt c _ _ _ _); reflexivity.
  - intros Hk. rewrite (dict_get_missing _ _ _ Hk). reflexivity.
  - intros c Ec _. rewrite Ec.
    destruct (DataEmbedding_init_cases nt c (a_d_model a) (embed_draws dr))
      as (H0 & Ho & _).
    split.
    + intros Hd. rewrite (H0 Hd). reflexivity.
    + intros H3 Hd. rewrite (Ho H3 Hd). reflexivity.
Qed.

(** With subject layers the constructor evaluates [hidden["meg"]] whatever
    [subject_layers_dim] says: a [hidden] without "meg" is a KeyError even for
    the "input" width.  If a merger was built first, the caller's
    [in_channels] already holds the merger width when the exception leaves;
    and without a merger a missing [in_channels["meg"]] fails the
    assertion.  A [subject_layers_dim] other than "hidden" and "input" is a
    KeyError too. *)
Theorem TimesNet_init_subject_layers_errors (nt : bool) (a : TimesNetArgs R)
    (dr : NetDraws R) (ic : list (string * nat)) :
  a_subject_layers a = true ->
  (a_merger a = false -> dict_mem ic "meg" = false ->
   TimesNet_init nt a dr ic = (Raise AssertionError, ic)) /\
  (a_merger a = false -> dict_mem ic "meg" = true ->
   dict_mem (a_hidden a) "meg" = false ->
   TimesNet_init nt a dr ic = (Raise KeyError, ic)) /\
  (a_merger a = true -> dict_mem (a_hidden a) "meg" = false ->
   forall mg,
     ChannelMerger_init (a_merger_channels a) (a_merger_pos_dim a)
       (a_merger_dropout a) (a_merger_penalty a) (a_n_subjects a)
       (a_merger_per_subject a) = Ok mg ->
     TimesNet_init nt a dr ic =
     (Raise KeyError, dict_set ic "meg" (a_merger_channels a))) /\
  (a_merger a = false -> dict_mem ic "meg" = true ->
   dict_mem (a_hidden a) "meg" = true ->
   a_subject_layers_dim a <> "hidden"%string ->
   a_subject_layers_dim a <> "input"%string ->
   TimesNet_init nt a dr ic = (Raise KeyError, ic)).
Proof.
  intros Hs. unfold TimesNet_init, bindS, lift, get, put, ret. rewrite Hs.
  split; [|split; [|split]].
  - intros Hm Hk. rewrite Hm, Hk. reflexivity.
  - intros Hm Hk Hh. rewrite Hm, Hk. cbn [guard].
    destruct (dict_get_present _ _ _ Hk) as (c & Ec). rewrite Ec.
    rewrite (dict_get_missing _ _ _ Hh). reflexivity.
  - intros Hm Hh mg Emg. rewrite Hm, Emg.
    assert (Hk : dict_mem (dict_set ic "meg" (a_merger_channels a)) "meg"
                 = true).
    { unfold dict_mem. induction ic as [|[k0 v0] ic' IH]; simpl.
      - reflexivity.
      - destruct (String.eqb k0 "meg") eqn:E; simpl; rewrite E;
          [reflexivity | exact IH]. }
    rewrite Hk. cbn [guard]. rewrite dict_get_set_same.
    rewrite (dict_get_missing _ _ _ Hh). reflexivity.
  - intros Hm Hk Hh Hd1 Hd2. rewrite Hm, Hk. cbn [guard].
    destruct (dict_get_present _ _ _ Hk) as (c & Ec). rewrite Ec.
    destruct (dict_get_present _ _ _ Hh) as (hd & Eh). rewrite Eh.
    cbn [dict_get].
    destruct (String.eqb_spec "hidden" (a_subject_layers_dim a)) as [E | _];
      [congruence|].
    destruct (String.eqb_spec "input" (a_subject_layers_dim a)) as [E | _];
      [congruence|].
    reflexivity.
Qed.

(** When the subject layers raise after the merger has run, the exception
    leaves [forward] with the caller's [inputs["meg"]] already replaced by
    the merged tensor. *)
Theorem TimesNet_forward_partial_mutation (batch : Batch) (net : TimesNet R)
    (inputs : list (string * Tensor R)) (length : nat)
    (mg : ChannelMerger) (sl : SubjectLayers) (meg merged : Tensor R)
    (e : exn) :
  merger net = Some mg -> subject_layers net = Some sl ->
  first_length inputs = Ok length ->
  dict_get inputs "meg" = Ok meg ->
  ChannelMerger_forward mg meg batch = Ok merged ->
  SubjectLayers_forward sl merged (subject_index batch) = Raise e ->
  TimesNet_forward batch (mkHeap net inputs) =
  (Raise e, mkHeap net (dict_set inputs "meg" merged)).
Proof.
  intros Hm Hs Hl Hg Emg Esl. rewrite TimesNet_forward_unfold.
  cbn [inputs_of self_of]. unfold pre_merger, pre_subject. rewrite Hm, Hs.
  unfold get_input, set_input. unfold bindS, lift, get, put, ret.
  cbn [inputs_of self_of]. rewrite Hl, Hg, Emg.
  cbn [inputs_of self_of]. rewrite dict_get_set_same, Esl. reflexivity.
Qed.


(** ** TimesBlock.forward: exactly when it returns *)

Lemma TimesBlock_forward_dc_selected (t d_model d_ff nk top_k : nat)
    (dr : BlockDraws R) (x : Tensor R) (b : nat) (top : list nat) :
  shape x = [b; t; d_model] -> 1 <= b -> 1 <= d_model -> 1 <= nk ->
  FFT_top_list x top_k = Ok top -> In 0 top ->
  TimesBlock_forward (TimesBlock_init t d_model d_ff nk top_k dr) x
  = Raise RuntimeError.
Proof.
  intros S Hb Hn Hnk Etop H0.
  set (m := TimesBlock_init t d_model d_ff nk top_k dr).
  unfold TimesBlock_forward. rewrite S.
  replace (k m) with top_k by reflexivity.
  destruct (FFT_for_Period_cases x b t d_model top_k S)
    as [(Ht & Hkf & top' & w & Etop' & E & Lt & ND & Ft & _) | E]; rewrite E;
    [|reflexivity].
  cbn [bind]. assert (top' = top) as -> by congruence.
  rewrite (mapM_raise_uniform _ _ _ _ RuntimeError); [reflexivity | |].
  - intros i Hi. apply in_seq in Hi.
    assert (Hin : In (nth i top 0) top) by (apply nth_In; lia).
    rewrite (nth_indep _ 0 ((fun i => t / i) 0))
      by (rewrite length_map; lia).
    rewrite map_nth.
    destruct (Nat.eq_dec (nth i top 0) 0) as [Ez | Hnz].
    + right. rewrite Ez.
      apply (TimesBlock_period_zero m x b t d_model S Hb Hn Ht).
    + left. rewrite Forall_forall in Ft. specialize (Ft _ Hin).
      destruct (TimesBlock_period_ok t d_model d_ff nk top_k dr x b
                  (t / nth i top 0) S Hb Hn Hnk Ht) as (y & Ey & _).
      { apply Nat.div_str_pos. split; [lia|].
        pose proof (Nat.div_mod_eq t 2). lia. }
      fold m in Ey. rewrite Ey. reflexivity.
  - destruct (In_nth top 0 0 H0) as (i & Hi & Ei).
    exists i. split; [apply in_seq; lia|].
    rewrite (nth_indep _ 0 ((fun i => t / i) 0))
      by (rewrite length_map; lia).
    rewrite map_nth, Ei.
    apply (TimesBlock_period_zero m x b t d_model S Hb Hn Ht).
Qed.

(** A block built for sequences of length T, on a [B, T, d_model] tensor
    (B, d_model, d_ff, num_kernels >= 1): it returns exactly when top_k >= 1
    and the top_k bins that FFT_for_Period selects exist and leave bin 0 out.
    Every other call raises RuntimeError.  Which bins are selected among
    equal amplitudes is the backend's choice ([tie_first]), and the
    statement holds for each. *)
Theorem TimesBlock_forward_ok_iff (t d_model d_ff nk top_k : nat)
    (dr : BlockDraws R) (x : Tensor R) (b : nat) :
  shape x = [b; t; d_model] -> 1 <= b -> 1 <= d_model -> 1 <= d_ff ->
  1 <= nk ->
  let r := TimesBlock_forward (TimesBlock_init t d_model d_ff nk top_k dr) x in
  (is_ok r = true <->
   1 <= top_k /\
   exists top, FFT_top_list x top_k = Ok top /\ ~ In 0 top) /\
  (is_ok r = false -> r = Raise RuntimeError).
Proof.
  intros S Hb Hn _ Hnk r.
  assert (Hok : forall top, 1 <= top_k -> FFT_top_list x top_k = Ok top ->
                            ~ In 0 top -> exists y, r = Ok y).
  { intros top Hk Etop H0.
    destruct (TimesBlock_forward_ok t d_model d_ff nk top_k dr x b top S Hb
                Hn Hnk Hk Etop) as (y & Ey & _).
    - apply Forall_forall. intros i Hi ->. contradiction.
    - exists y. exact Ey. }
  assert (Hcases : (1 <= top_k /\
                    exists top, FFT_top_list x top_k = Ok top /\
                                ~ In 0 top) \/
                   r = Raise RuntimeError).
  { destruct (FFT_for_Period_cases x b t d_model top_k S)
      as [(Ht & Hkf & top & w & Etop & E & Lt & ND & Ft & _) | E].
    - destruct top_k as [|k'].
      + right. subst r. unfold TimesBlock_forward. rewrite S.
        cbn [k TimesBlock_init]. rewrite E. reflexivity.
      + destruct (in_dec Nat.eq_dec 0 top) as [H0 | H0].
        * right. subst r.
          apply (TimesBlock_forward_dc_selected t d_model d_ff nk _ dr x
                   b top S Hb Hn Hnk Etop H0).
        * left. split; [lia|]. exists top. split; assumption.
    - right. subst r. unfold TimesBlock_forward. rewrite S.
      cbn [k TimesBlock_init]. rewrite E. reflexivity. }
  destruct Hcases as [(Hk & top & Etop & H0) | Hr].
  - destruct (Hok top Hk Etop H0) as (y & Ey). rewrite Ey. cbn [is_ok].
    split; [|discriminate]. split; [intros _|reflexivity].
    split; [assumption|]. exists top. split; assumption.
  - rewrite Hr. cbn [is_ok]. split; [|reflexivity].
    split; [discriminate|]. intros (Hk & top & Etop & H0).
    destruct (Hok top Hk Etop H0) as (y & Ey). congruence.
Qed.

(** ** TimesNet.forward: a channel count the network was not built for *)

(** If the tensor that reaches [crop_or_pad] has another channel count than
    the [in_channels["meg"]] the embedding was built with, the token
    convolution raises RuntimeError; by then [self.delta] has been set. *)
Theorem TimesNet_forward_wrong_channels (a : TimesNetArgs R) (dr : NetDraws R)
    (ic ic' : list (string * nat)) (net : TimesNet R) (c_in : nat)
    (batch : Batch) (inputs : list (string * Tensor R)) (length : nat)
    (meg meg' : Tensor R) (b c t : nat) :
  TimesNet_init true a dr ic = (Ok net, ic') ->
  dict_get ic' "meg" = Ok c_in ->
  first_length inputs = Ok length ->
  dict_get inputs "meg" = Ok meg ->
  preprocessed net batch meg = Ok meg' ->
  shape meg' = [b; c; t] -> c <> c_in -> 1 <= b -> 1 <= c ->
  1 <= a_sequence_lenth a ->
  let r := TimesNet_forward batch (mkHeap net inputs) in
  fst r = Raise RuntimeError /\
  delta (self_of (snd r)) = (Z.of_nat (a_sequence_lenth a) - Z.of_nat t)%Z.
Proof.
  intros Ei Ec Hl Hg Hp S Hc _ _ _ r.
  destruct (TimesNet_init_inv _ _ _ _ _ _ Ei) as (c0 & Ec0 & W & _).
  assert (c0 = c_in) as -> by congruence.
  destruct W as [Wseq _ Wdepth Wemb _ _ _ _ _ _].
  assert (E : r = (Raise RuntimeError,
                   mkHeap (set_delta net
                             (Z.of_nat (sequence_lenth net) - Z.of_nat t)%Z)
                          (inputs_after net inputs meg')));
    [|rewrite E; cbn [fst snd self_of delta set_delta]; rewrite Wseq;
      split; reflexivity].
  subst r. rewrite TimesNet_forward_unfold. cbn [inputs_of self_of].
  unfold bindS at 1. unfold lift at 1. rewrite Hl.
  destruct (pre_run _ batch net net inputs meg meg'
              (meg0 <~ get_input "meg" ;; TimesNet_tail length meg0) Hg Hp)
    as [Erun Eget].
  rewrite Erun. unfold bindS at 1. unfold get_input at 1.
  unfold bindS at 1. unfold get at 1. unfold lift at 1.
  cbn [inputs_of]. rewrite Eget.
  destruct (crop_or_pad_ok meg' net b c t S) as (x & Ex & Sx & _).
  destruct (permute_021_ok x _ _ _ Sx) as (x1 & E1 & S1).
  assert (Ef : DataEmbedding_forward (enc_embedding net) x1 None
               = Raise RuntimeError).
  { destruct (DataEmbedding_init_inv _ _ _ _ _ _ _ Wemb) as (Ev & _).
    rewrite DataEmbedding_forward_flat, Ev.
    unfold TokenEmbedding_forward, TokenEmbedding_init.
    destruct (permute_021_ok x1 _ _ _ S1) as (x2 & E2 & S2).
    rewrite E2. cbn [bind tokenConv]. unfold Conv1d_forward. rewrite S2.
    cbn [c1_in].
    destruct (Nat.eqb_spec c c_in); [contradiction | reflexivity]. }
  unfold TimesNet_tail, bindS, on_self, lift, get. cbn [self_of inputs_of].
  rewrite Ex, E1. cbn [self_of inputs_of enc_embedding set_delta].
  rewrite Ef. reflexivity.
Qed.

(** ** DataEmbedding: the frequency code *)

(** For c_in >= 1 and an even d_model >= 2: with embed_type 'timeF' the
    frequency code is looked up in [freq_map], an unknown code is a KeyError
    and a known one gives a bias-free linear layer with that many inputs;
    with any other embed_type the code is never looked up, every string is
    accepted and the temporal module is a [TemporalEmbedding]. *)
Theorem DataEmbedding_init_freq (nt : bool) (c_in d_model : nat)
    (embed_type freq : string) (dr : EmbedDraws) :
  1 <= c_in -> 2 <= d_model -> Nat.even d_model = true ->
  let r := DataEmbedding_init nt c_in d_model embed_type freq dr in
  (embed_type = "timeF"%string ->
   (dict_mem freq_map freq = false -> r = Raise KeyError) /\
   (forall d_inp, dict_get freq_map freq = Ok d_inp ->
      exists m, r = Ok m /\
                temporal_embedding m =
                TimeFeature (mkLinear d_inp d_model (timef_w dr) None))) /\
  (embed_type <> "timeF"%string ->
   exists m t, r = Ok m /\ temporal_embedding m = Temporal t).
Proof.
  intros _ Hd He r. subst r. unfold DataEmbedding_init, PositionalEmbedding_init.
  destruct (sinusoid_table_cases 5000 d_model) as (_ & _ & Hs).
  destruct (Hs ltac:(lia) (or_introl He)) as (t & Et & St).
  rewrite Et. cbn [bind].
  unfold unsqueeze. rewrite St. cbn [length Nat.leb guard bind].
  split.
  - intros ->. replace (String.eqb "timeF" "timeF") with true by reflexivity.
    cbn [negb]. unfold TimeFeatureEmbedding_init. split.
    + intros Hm. rewrite (dict_get_missing _ _ _ Hm). reflexivity.
    + intros d_inp Ed. rewrite Ed. cbn [bind]. eexists. split; reflexivity.
  - intros Hne.
    destruct (String.eqb_spec embed_type "timeF") as [E | _];
      [contradiction|].
    cbn [negb].
    assert (HE : forall w size,
               exists e, Embed embed_type w size d_model = Ok e).
    { intros w size. unfold Embed.
      destruct (String.eqb embed_type "fixed"); [|eexists; reflexivity].
      unfold FixedEmbedding_init.
      destruct (sinusoid_table_cases size d_model) as (_ & _ & H').
      destruct (H' ltac:(lia) (or_introl He)) as (t' & Et' & _). rewrite Et'.
      eexists. reflexivity. }
    unfold TemporalEmbedding_init. cbv zeta.
    destruct (HE (minute_w (temporal_w dr)) 4) as (e0 & E0).
    destruct (HE (hour_w (temporal_w dr)) 24) as (e1 & E1).
    destruct (HE (weekday_w (temporal_w dr)) 7) as (e2 & E2).
    destruct (HE (day_w (temporal_w dr)) 32) as (e3 & E3).
    destruct (HE (month_w (temporal_w dr)) 13) as (e4 & E4).
    rewrite E0, E1, E2, E3, E4.
    destruct (String.eqb freq "t"); cbn [bind];
      eexists _, _; split; reflexivity.
Qed.


(** ** TokenEmbedding: the circular convolution *)

(** Entry [n, p, o] of the token embedding: kernel tap j reads time step
    (p + j - 1) mod T. *)
Lemma TokenEmbedding_forward_elem (c_in d_model : nat) (w : list nat -> R)
    (x : Tensor R) (b t : nat) :
  shape x = [b; t; c_in] -> 1 <= t ->
  exists y,
    TokenEmbedding_forward (TokenEmbedding_init true c_in d_model w) x = Ok y /\
    shape y = [b; t; d_model] /\
    forall n p o,
      elem y [n; p; o] =
      sum_range c_in (fun ci =>
        sum_range 3 (fun j =>
          mul (w [o; ci; j]) (elem x [n; (p + j + t - 1) mod t; ci]))).
Proof.
  intros S Ht. unfold TokenEmbedding_forward, TokenEmbedding_init, transpose12.
  cbn [tokenConv].
  unfold permute at 1. rewrite S.
  cbn [length is_perm Nat.eqb andb forallb seq existsb orb guard bind map nth].
  unfold Conv1d_forward.
  cbn [shape c1_in c1_out c1_kernel c1_padding c1_weight].
  rewrite Nat.eqb_refl. cbn [guard bind].
  rewrite !guard_Ok by (apply Nat.leb_le; lia). cbn [bind].
  unfold permute.
  cbn [shape length is_perm Nat.eqb andb forallb seq existsb orb guard bind
       map nth].
  eexists. split; [reflexivity|]. cbn [shape elem]. split.
  - repeat f_equal. lia.
  - intros n p o. cbn [combine fold_right Nat.eqb nth]. reflexivity.
Qed.

(** With torch >= 1.5.0 the token embedding pads circularly by one step on
    each side, so it commutes with cyclic shifts in time: embedding the
    rolled input gives the rolled embedding, at the sequence ends too. *)
Theorem TokenEmbedding_forward_roll (c_in d_model : nat) (w : list nat -> R)
    (x : Tensor R) (b t s : nat) :
  shape x = [b; t; c_in] -> 1 <= t ->
  exists y y',
    TokenEmbedding_forward (TokenEmbedding_init true c_in d_model w) x = Ok y /\
    TokenEmbedding_forward (TokenEmbedding_init true c_in d_model w)
      (roll1 s x) = Ok y' /\
    shape y = [b; t; d_model] /\ shape y' = [b; t; d_model] /\
    forall n p o, elem y' [n; p; o] = elem y [n; (p + s) mod t; o].
Proof.
  intros S Ht.
  destruct (TokenEmbedding_forward_elem c_in d_model w x b t S Ht)
    as (y & Ey & Sy & Vy).
  destruct (TokenEmbedding_forward_elem c_in d_model w (roll1 s x) b t S Ht)
    as (y' & Ey' & Sy' & Vy').
  exists y, y'. repeat (split; [assumption|]).
  intros n p o. rewrite Vy, Vy'.
  apply sum_range_ext. intros ci _. apply sum_range_ext. intros j _.
  f_equal. unfold roll1. cbn [elem shape]. rewrite S.
  cbn [nth set_nth firstn skipn app].
  do 2 f_equal.
  assert (Hsub : forall a, a + j + t - 1 = a + (j + t - 1))
    by (intros a; lia).
  rewrite (Hsub ((p + s) mod t)), !Nat.Div0.add_mod_idemp_l.
  replace (p + j + t - 1 + s) with (p + s + (j + t - 1)) by lia.
  reflexivity.
Qed.

(** ** TemporalEmbedding: the calendar values *)

Lemma Embedding_column (A : Type) (e : Embedding) (x : Tensor R)
    (b t f j : nat) (K : Tensor R -> result A) :
  shape x = [b; t; f] -> j < f ->
  (c <- select_last3 j x ;; y <- Embedding_forward e c ;; K y) =
  if calendar_in_range x j (num_embeddings e)
  then K (mkTensor [b; t; embedding_dim e]
            (fun idx => emb_weight e
                          [Z.to_nat (to_long (elem x (removelast idx ++ [j])));
                           last idx 0]))
  else Raise IndexError.
Proof.
  intros S Hj. unfold select_last3, calendar_in_range. rewrite S.
  rewrite guard_Ok by (apply Nat.ltb_lt; assumption). cbn [bind].
  unfold Embedding_forward. cbn [shape elem firstn].
  destruct (forallb _ _); reflexivity.
Qed.

Lemma TemporalEmbedding_init_inv (d_model : nat) (embed_type freq : string)
    (dr : TemporalDraws) (m : TemporalEmbedding R) :
  TemporalEmbedding_init d_model embed_type freq dr = Ok m ->
  (if String.eqb freq "t"
   then exists e, minute_embed m = Some e /\ num_embeddings e = 4 /\
                  embedding_dim e = d_model
   else minute_embed m = None) /\
  (num_embeddings (hour_embed m) = 24 /\
   embedding_dim (hour_embed m) = d_model) /\
  (num_embeddings (weekday_embed m) = 7 /\
   embedding_dim (weekday_embed m) = d_model) /\
  (num_embeddings (day_embed m) = 32 /\
   embedding_dim (day_embed m) = d_model) /\
  (num_embeddings (month_embed m) = 13 /\
   embedding_dim (month_embed m) = d_model).
Proof.
  unfold TemporalEmbedding_init. cbv zeta. intros E.
  apply bind_inv in E as (mi & Emi & E).
  apply bind_inv in E as (ho & Eho & E).
  apply bind_inv in E as (we & Ewe & E).
  apply bind_inv in E as (da & Eda & E).
  apply bind_inv in E as (mo & Emo & E). injection E as <-.
  cbn [minute_embed hour_embed weekday_embed day_embed month_embed].
  repeat split; try (eapply Embed_inv; eassumption).
  destruct (String.eqb freq "t").
  - apply bind_inv in Emi as (e & Ee & Emi). injection Emi as <-.
    exists e. split; [reflexivity|]. eapply Embed_inv; eassumption.
  - injection Emi as <-. reflexivity.
Qed.

(** On a [B, T, F] tensor with enough columns, [TemporalEmbedding.forward]
    returns a [B, T, d_model] tensor exactly when every calendar value it
    looks up is an index of its table: month (column 0) below 13, day below
    32, weekday below 7, hour below 24, and with freq 't' minute (column 4)
    below 4, none negative.  Any value outside raises IndexError. *)
Theorem TemporalEmbedding_forward_in_range (d_model : nat)
    (embed_type freq : string) (dr : TemporalDraws) (m : TemporalEmbedding R)
    (x : Tensor R) (b t f : nat) :
  TemporalEmbedding_init d_model embed_type freq dr = Ok m ->
  shape x = [b; t; f] -> (if String.eqb freq "t" then 5 else 4) <= f ->
  let in_range :=
    (if String.eqb freq "t" then calendar_in_range x 4 4 else true) &&
    calendar_in_range x 3 24 && calendar_in_range x 2 7 &&
    calendar_in_range x 1 32 && calendar_in_range x 0 13 in
  (in_range = true ->
   exists y, TemporalEmbedding_forward m x = Ok y /\
             shape y = [b; t; d_model]) /\
  (in_range = false -> TemporalEmbedding_forward m x = Raise IndexError).
Proof.
  intros Ei S Hf.
  destruct (TemporalEmbedding_init_inv _ _ _ _ _ Ei)
    as (Hmi & (N3 & D3) & (N2 & D2) & (N1 & D1) & (N0 & D0)).
  assert (Hf4 : 4 <= f) by (destruct (String.eqb freq "t"); lia).
  unfold TemporalEmbedding_forward, TemporalEmbedding_minute.
  assert (Hrest :
    forall minute_x : @minute_term R,
      (match minute_x with
       | MinuteTensor tm => shape tm = [b; t; d_model]
       | MinuteZero => True
       end) ->
      let rest :=
        (c3 <- select_last3 3 x ;;
         hour_x <- Embedding_forward (hour_embed m) c3 ;;
         c2 <- select_last3 2 x ;;
         weekday_x <- Embedding_forward (weekday_embed m) c2 ;;
         c1 <- select_last3 1 x ;;
         day_x <- Embedding_forward (day_embed m) c1 ;;
         c0 <- select_last3 0 x ;;
         month_x <- Embedding_forward (month_embed m) c0 ;;
         s <- tadd hour_x weekday_x ;;
         s <- tadd s day_x ;;
         s <- tadd s month_x ;;
         match minute_x with
         | MinuteTensor t => tadd s t
         | MinuteZero => Ok (tadd_scalar s zero)
         end) in
      let ok := calendar_in_range x 3 24 && calendar_in_range x 2 7 &&
                calendar_in_range x 1 32 && calendar_in_range x 0 13 in
      (ok = true -> exists y, rest = Ok y /\ shape y = [b; t; d_model]) /\
      (ok = false -> rest = Raise IndexError)).
  { intros minute_x Hmx. cbv zeta.
    rewrite (Embedding_column _ (hour_embed m) x b t f 3 _ S) by lia.
    rewrite N3, D3.
    destruct (calendar_in_range x 3 24); cbn [andb];
      [|split; [discriminate | reflexivity]].
    rewrite (Embedding_column _ (weekday_embed m) x b t f 2 _ S) by lia.
    rewrite N2, D2.
    destruct (calendar_in_range x 2 7); cbn [andb];
      [|split; [discriminate | reflexivity]].
    rewrite (Embedding_column _ (day_embed m) x b t f 1 _ S) by lia.
    rewrite N1, D1.
    destruct (calendar_in_range x 1 32); cbn [andb];
      [|split; [discriminate | reflexivity]].
    rewrite (Embedding_column _ (month_embed m) x b t f 0 _ S) by lia.
    rewrite N0, D0.
    destruct (calendar_in_range x 0 13); cbn [andb];
      [|split; [discriminate | reflexivity]].
    split; [intros _ | discriminate].
    match goal with
    | |- context [tadd ?u ?v] =>
        destruct (binop_same_shape add u v [b; t; d_model] eq_refl eq_refl)
          as (s1 & E1 & S1)
    end.
    unfold tadd at 1. rewrite E1. cbn [bind].
    match goal with
    | |- context [tadd s1 ?v] =>
        destruct (binop_same_shape add s1 v [b; t; d_model] S1 eq_refl)
          as (s2 & E2 & S2)
    end.
    unfold tadd at 1. rewrite E2. cbn [bind].
    match goal with
    | |- context [tadd s2 ?v] =>
        destruct (binop_same_shape add s2 v [b; t; d_model] S2 eq_refl)
          as (s3 & E3 & S3)
    end.
    unfold tadd at 1. rewrite E3. cbn [bind].
    destruct minute_x as [tm|].
    - destruct (binop_same_shape add s3 tm [b; t; d_model] S3 Hmx)
        as (s4 & E4 & S4).
      unfold tadd. rewrite E4. exists s4. split; [reflexivity | assumption].
    - eexists. split; [reflexivity | exact S3]. }
  destruct (String.eqb freq "t").
  - destruct Hmi as (e & Em & Ne & De). rewrite Em.
    cbv zeta.
    rewrite (Embedding_column _ e x b t f 4 _ S) by lia.
    rewrite Ne, De.
    destruct (calendar_in_range x 4 4); cbn [andb];
      [|split; [discriminate | reflexivity]].
    cbn [bind]. apply (Hrest (MinuteTensor _)). reflexivity.
  - rewrite Hmi. cbn [bind andb]. apply (Hrest MinuteZero). exact I.
Qed.

(** ** TemporalEmbedding: the minute term of the sum *)

Lemma bidx_same3 (b t d n p o : nat) :
  n < b -> p < t -> o < d -> bidx [b; t; d] [n; p; o] = [n; p; o].
Proof.
  intros Hn Hp Ho. unfold bidx. cbn [length Nat.sub skipn combine map].
  destruct (Nat.eqb_spec b 1), (Nat.eqb_spec t 1), (Nat.eqb_spec d 1);
    repeat f_equal; lia.
Qed.

Lemma tadd_same3 (x y : Tensor R) (b t d : nat) :
  shape x = [b; t; d] -> shape y = [b; t; d] ->
  exists z, tadd x y = Ok z /\ shape z = [b; t; d] /\
            forall n p o, n < b -> p < t -> o < d ->
              elem z [n; p; o] = add (elem x [n; p; o]) (elem y [n; p; o]).
Proof.
  intros Sx Sy. unfold tadd, binop, broadcast_shapes. rewrite Sx, Sy.
  cbn [rev app broadcast_rev bind]. rewrite !Nat.eqb_refl. cbn [bind rev app].
  eexists. split; [reflexivity|]. split; [reflexivity|].
  intros n p o Hn Hp Ho. cbn [elem]. rewrite !bidx_same3 by assumption.
  reflexivity.
Qed.

(** The four lookups every configuration has, summed, plus whatever
    [minute_x] is. *)
Lemma TemporalEmbedding_sum_elem (m : TemporalEmbedding R) (x : Tensor R)
    (b t f d_model : nat) (minute_x : @minute_term R) :
  num_embeddings (hour_embed m) = 24 ->
  embedding_dim (hour_embed m) = d_model ->
  num_embeddings (weekday_embed m) = 7 ->
  embedding_dim (weekday_embed m) = d_model ->
  num_embeddings (day_embed m) = 32 -> embedding_dim (day_embed m) = d_model ->
  num_embeddings (month_embed m) = 13 ->
  embedding_dim (month_embed m) = d_model ->
  shape x = [b; t; f] -> 4 <= f ->
  calendar_in_range x 3 24 = true -> calendar_in_range x 2 7 = true ->
  calendar_in_range x 1 32 = true -> calendar_in_range x 0 13 = true ->
  (match minute_x with
   | MinuteTensor tm => shape tm = [b; t; d_model]
   | MinuteZero => True
   end) ->
  exists y,
    (c3 <- select_last3 3 x ;;
     hour_x <- Embedding_forward (hour_embed m) c3 ;;
     c2 <- select_last3 2 x ;;
     weekday_x <- Embedding_forward (weekday_embed m) c2 ;;
     c1 <- select_last3 1 x ;;
     day_x <- Embedding_forward (day_embed m) c1 ;;
     c0 <- select_last3 0 x ;;
     month_x <- Embedding_forward (month_embed m) c0 ;;
     s <- tadd hour_x weekday_x ;;
     s <- tadd s day_x ;;
     s <- tadd s month_x ;;
     match minute_x with
     | MinuteTensor t => tadd s t
     | MinuteZero => Ok (tadd_scalar s zero)
     end) = Ok y /\
    shape y = [b; t; d_model] /\
    forall n p o, n < b -> p < t -> o < d_model ->
      elem y [n; p; o] =
      add (calendar_sum m x n p o)
          (match minute_x with
           | MinuteTensor tm => elem tm [n; p; o]
           | MinuteZero => zero
           end).
Proof.
  intros N3 D3 N2 D2 N1 D1 N0 D0 S Hf R3 R2 R1 R0 Hmx.
  rewrite (Embedding_column _ (hour_embed m) x b t f 3 _ S) by lia.
  rewrite N3, D3, R3.
  rewrite (Embedding_column _ (weekday_embed m) x b t f 2 _ S) by lia.
  rewrite N2, D2, R2.
  rewrite (Embedding_column _ (day_embed m) x b t f 1 _ S) by lia.
  rewrite N1, D1, R1.
  rewrite (Embedding_column _ (month_embed m) x b t f 0 _ S) by lia.
  rewrite N0, D0, R0.
  match goal with
  | |- context [tadd ?u ?v] =>
      destruct (tadd_same3 u v b t d_model eq_refl eq_refl)
        as (s1 & E1 & S1 & V1)
  end.
  rewrite E1. cbn [bind].
  match goal with
  | |- context [tadd s1 ?v] =>
      destruct (tadd_same3 s1 v b t d_model S1 eq_refl)
        as (s2 & E2 & S2 & V2)
  end.
  rewrite E2. cbn [bind].
  match goal with
  | |- context [tadd s2 ?v] =>
      destruct (tadd_same3 s2 v b t d_model S2 eq_refl)
        as (s3 & E3 & S3 & V3)
  end.
  rewrite E3. cbn [bind].
  assert (V : forall n p o, n < b -> p < t -> o < d_model ->
                elem s3 [n; p; o] = calendar_sum m x n p o).
  { intros n p o Hn Hp Ho. rewrite V3, V2, V1 by assumption. reflexivity. }
  destruct minute_x as [tm|].
  - destruct (tadd_same3 s3 tm b t d_model S3 Hmx) as (s4 & E4 & S4 & V4).
    exists s4. split; [assumption|]. split; [assumption|].
    intros n p o Hn Hp Ho. rewrite V4, V by assumption. reflexivity.
  - eexists. split; [reflexivity|]. split; [exact S3|].
    intros n p o Hn Hp Ho. unfold tadd_scalar, tmap. cbn [elem].
    rewrite V by assumption. reflexivity.
Qed.

Lemma TemporalEmbedding_minute_cases (d_model : nat) (embed_type freq : string)
    (dr : TemporalDraws) (m : TemporalEmbedding R) :
  TemporalEmbedding_init d_model embed_type freq dr = Ok m ->
  (minute_embed m <> None <-> freq = "t"%string) /\
  (freq = "t"%string ->
   exists e, minute_embed m = Some e /\ num_embeddings e = 4 /\
             embedding_dim e = d_model) /\
  (freq <> "t"%string -> minute_embed m = None).
Proof.
  intros E. destruct (TemporalEmbedding_init_inv _ _ _ _ _ E) as (Hmi & _).
  destruct (String.eqb_spec freq "t") as [-> | Hne].
  - destruct Hmi as (e & Em & Ne & De). rewrite Em.
    split; [split; [reflexivity | discriminate]|].
    split; [|intros C; contradiction].
    intros _. exists e. auto.
  - rewrite Hmi.
    split; [split; intros C; contradiction|].
    split; [intros C; contradiction | reflexivity].
Qed.

(** What [forward] returns on calendar values that are in range, entry by
    entry: the four-term sum plus the minute entry, or plus zero. *)
Lemma TemporalEmbedding_forward_elem (d_model : nat)
    (embed_type freq : string) (dr : TemporalDraws) (m : TemporalEmbedding R)
    (x : Tensor R) (b t f : nat) :
  TemporalEmbedding_init d_model embed_type freq dr = Ok m ->
  shape x = [b; t; f] -> 4 <= f ->
  (minute_embed m <> None -> 5 <= f /\ calendar_in_range x 4 4 = true) ->
  calendar_in_range x 3 24 = true -> calendar_in_range x 2 7 = true ->
  calendar_in_range x 1 32 = true -> calendar_in_range x 0 13 = true ->
  exists y,
    TemporalEmbedding_forward m x = Ok y /\ shape y = [b; t; d_model] /\
    forall n p o, n < b -> p < t -> o < d_model ->
      elem y [n; p; o] =
      add (calendar_sum m x n p o)
          (match minute_embed m with
           | Some e => calendar_lookup e x 4 n p o
           | None => zero
           end).
Proof.
  intros Ei S Hf Hmin R3 R2 R1 R0.
  destruct (TemporalEmbedding_init_inv _ _ _ _ _ Ei)
    as (Hmi & (N3 & D3) & (N2 & D2) & (N1 & D1) & (N0 & D0)).
  unfold TemporalEmbedding_forward, TemporalEmbedding_minute.
  destruct (minute_embed m) as [e|] eqn:Em.
  - assert (He : num_embeddings e = 4 /\ embedding_dim e = d_model).
    { destruct (String.eqb freq "t").
      - destruct Hmi as (e' & Ee' & Ne & De). injection Ee' as <-. auto.
      - discriminate. }
    destruct He as [Ne De].
    destruct (Hmin ltac:(discriminate)) as [Hf5 R4].
    rewrite (Embedding_column _ e x b t f 4 _ S) by lia.
    rewrite Ne, De, R4. cbn [bind].
    destruct (TemporalEmbedding_sum_elem m x b t f d_model
                (MinuteTensor
                   (mkTensor [b; t; d_model]
                      (fun idx =>
                         emb_weight e
                           [Z.to_nat
                              (to_long (elem x (removelast idx ++ [4])));
                            last idx 0])))
                N3 D3 N2 D2 N1 D1 N0 D0 S Hf R3 R2 R1 R0 eq_refl)
      as (y & Ey & Sy & Vy).
    exists y. split; [exact Ey|]. split; [exact Sy|].
    intros n p o Hn Hp Ho. rewrite Vy by assumption. reflexivity.
  - cbn [bind].
    destruct (TemporalEmbedding_sum_elem m x b t f d_model MinuteZero
                N3 D3 N2 D2 N1 D1 N0 D0 S Hf R3 R2 R1 R0 I)
      as (y & Ey & Sy & Vy).
    exists y. split; [exact Ey|]. split; [exact Sy|]. exact Vy.
Qed.

(** C8, as the code has it.  The minute embedding exists exactly when
    [freq] is the code "t".  Then, on calendar values that are in range,
    every entry of what [forward] returns is the sum of the hour, weekday,
    day and month entries plus the entry that column 4 (the minute) selects
    in the 4-row minute table.  For every other code, the finer "s"
    included, there is no minute table and the float 0. is added
    instead. *)
Theorem TemporalEmbedding_minute_iff (d_model : nat) (embed_type freq : string)
    (dr : TemporalDraws) (m : TemporalEmbedding R) :
  TemporalEmbedding_init d_model embed_type freq dr = Ok m ->
  (minute_embed m <> None <-> freq = "t"%string) /\
  (freq = "t"%string ->
   exists e,
     minute_embed m = Some e /\ num_embeddings e = 4 /\
     embedding_dim e = d_model /\
     forall x b t f,
       shape x = [b; t; f] -> 5 <= f ->
       calendar_in_range x 4 4 = true -> calendar_in_range x 3 24 = true ->
       calendar_in_range x 2 7 = true -> calendar_in_range x 1 32 = true ->
       calendar_in_range x 0 13 = true ->
       exists y,
         TemporalEmbedding_forward m x = Ok y /\
         shape y = [b; t; d_model] /\
         forall n p o, n < b -> p < t -> o < d_model ->
           elem y [n; p; o] =
           add (calendar_sum m x n p o) (calendar_lookup e x 4 n p o)) /\
  (freq <> "t"%string ->
   minute_embed m = None /\
   forall x b t f,
     shape x = [b; t; f] -> 4 <= f ->
     calendar_in_range x 3 24 = true -> calendar_in_range x 2 7 = true ->
     calendar_in_range x 1 32 = true -> calendar_in_range x 0 13 = true ->
     exists y,
       TemporalEmbedding_forward m x = Ok y /\
       shape y = [b; t; d_model] /\
       forall n p o, n < b -> p < t -> o < d_model ->
         elem y [n; p; o] = add (calendar_sum m x n p o) zero).
Proof.
  intros Ei.
  destruct (TemporalEmbedding_minute_cases _ _ _ _ _ Ei) as (Hiff & Ht & Hn).
  split; [exact Hiff|]. split.
  - intros Hf. destruct (Ht Hf) as (e & Em & Ne & De).
    exists e. repeat (split; [assumption|]).
    intros x b t f S Hf5 R4 R3 R2 R1 R0.
    destruct (TemporalEmbedding_forward_elem d_model embed_type freq dr m x b
                t f Ei S ltac:(lia) ltac:(intros _; split; assumption)
                R3 R2 R1 R0) as (y & Ey & Sy & Vy).
    rewrite Em in Vy. exists y. auto.
  - intros Hf. pose proof (Hn Hf) as Em. split; [exact Em|].
    intros x b t f S Hf4 R3 R2 R1 R0.
    destruct (TemporalEmbedding_forward_elem d_model embed_type freq dr m x b
                t f Ei S Hf4 ltac:(intros C; congruence) R3 R2 R1 R0)
      as (y & Ey & Sy & Vy).
    rewrite Em in Vy. exists y. auto.
Qed.


(** ** DataEmbedding.forward with time features *)

Lemma DataEmbedding_init_timeF_inv (nt : bool) (c_in d_model : nat)
    (freq : string) (dr : EmbedDraws) (m : DataEmbedding R) :
  DataEmbedding_init nt c_in d_model "timeF" freq dr = Ok m ->
  exists d_inp,
    dict_get freq_map freq = Ok d_inp /\
    temporal_embedding m =
    TimeFeature (mkLinear d_inp d_model (timef_w dr) None).
Proof.
  unfold DataEmbedding_init. intros E.
  apply bind_inv in E as (pos & _ & E).
  apply bind_inv in E as (te & Ete & E). injection E as <-.
  cbn [temporal_embedding].
  replace (String.eqb "timeF" "timeF") with true in Ete by reflexivity.
  cbn [negb] in Ete. unfold TimeFeatureEmbedding_init in Ete.
  apply bind_inv in Ete as (l & El & Ete). injection Ete as <-.
  apply bind_inv in El as (d_inp & Ed & El). injection El as <-.
  exists d_inp. split; [assumption | reflexivity].
Qed.

(** A 'timeF' embedding (torch >= 1.5.0) called with time features: for x
    of shape [B, T, c_in] and x_mark of shape [B, T, F] with 1 <= T <= 5000,
    the result has shape [B, T, d_model] when F is the feature count
    [freq_map] gives for the frequency code, and every other F raises
    RuntimeError in the linear layer. *)
Theorem DataEmbedding_forward_time_features (c_in d_model : nat)
    (freq : string) (dr : EmbedDraws) (m : DataEmbedding R)
    (x x_mark : Tensor R) (b t f d_inp : nat) :
  DataEmbedding_init true c_in d_model "timeF" freq dr = Ok m ->
  dict_get freq_map freq = Ok d_inp ->
  shape x = [b; t; c_in] -> shape x_mark = [b; t; f] ->
  1 <= b -> 1 <= c_in -> 1 <= t -> t <= 5000 ->
  (f = d_inp ->
   exists y, DataEmbedding_forward m x (Some x_mark) = Ok y /\
             shape y = [b; t; d_model]) /\
  (f <> d_inp -> DataEmbedding_forward m x (Some x_mark) = Raise RuntimeError).
Proof.
  intros Ei Ed S Sm _ _ Ht Ht'.
  destruct (DataEmbedding_init_inv _ _ _ _ _ _ _ Ei) as (Ev & Sp & _ & _ & _).
  destruct (DataEmbedding_init_timeF_inv _ _ _ _ _ _ Ei) as (d' & Ed' & Et).
  assert (d' = d_inp) as -> by congruence.
  unfold DataEmbedding_forward. rewrite Ev, Et. cbn [temporal_forward].
  destruct (TokenEmbedding_forward_ok c_in d_model (token_w dr) x b t S Ht)
    as (v & Ev' & Sv).
  rewrite Ev'. cbn [bind]. split.
  - intros ->.
    destruct (Linear_forward_ok (mkLinear d_inp d_model (timef_w dr) None)
                x_mark b t Sm) as (tm & Etm & Stm).
    rewrite Etm. cbn [bind out_features] in *.
    destruct (binop_same_shape add v tm [b; t; d_model] Sv Stm)
      as (s1 & E1 & S1).
    unfold tadd at 1. rewrite E1. cbn [bind].
    unfold PositionalEmbedding_forward. rewrite S.
    cbn [length Nat.ltb Nat.leb guard bind nth].
    destruct (slice_to_1_ok (pe (position_embedding m)) t _ _ _ Sp)
      as (p & Ep & Sp').
    rewrite Ep. cbn [bind]. rewrite Nat.min_l in Sp' by assumption.
    destruct (tadd_row_ok s1 p b t d_model S1 Sp') as (s2 & E2 & S2).
    rewrite E2. cbn [bind]. eexists. split; [reflexivity | exact S2].
  - intros Hne. unfold Linear_forward, last_dim. rewrite Sm.
    cbn [rev app bind in_features].
    destruct (Nat.eqb_spec f d_inp); [contradiction | reflexivity].
Qed.

End Coverage.

(** * The statements on concrete inputs *)

Import Fix Example.

Lemma Z_leb_total (a b : Z) : (a <=? b)%Z = true \/ (b <=? a)%Z = true.
Proof. rewrite !Z.leb_le. lia. Qed.

Lemma Z_leb_trans (a b c : Z) :
  (a <=? b)%Z = true -> (b <=? c)%Z = true -> (a <=? c)%Z = true.
Proof. rewrite !Z.leb_le. lia. Qed.

(** C6 on a [1, 1, 2, 3] input with three kernels. *)
Lemma Inception_Block_V1_forward_mean_witness :
  exists y, Inception_Block_V1_forward
              (Inception_Block_V1_init 1 2 3 true
                 (conv_expand (block_draws 0))) grid = Ok y /\
            shape y = [1; 2; 2; 3].
Proof.
  destruct (Inception_Block_V1_forward_mean 1 2 3 true
              (conv_expand (block_draws 0)) grid 1 2 3
              ltac:(lia) ltac:(lia) ltac:(lia) eq_refl)
    as (ys & y & _ & _ & Ey & Sy & _).
  exists y. split; assumption.
Defined.

(** C7 on the ramp, asking for all three bins. *)
Lemma FFT_for_Period_returns_witness :
  exists top period w,
    FFT_top_list ramp 3 = Ok top /\
    FFT_for_Period ramp 3 = Ok (period, w) /\
    period = map (fun i => 4 / i) top /\
    length period = 3 /\ shape w = [1; 3] /\
    (3 = 4 / 2 + 1 -> In 0 top).
Proof.
  exact (FFT_for_Period_returns ramp 1 4 1 3 eq_refl ltac:(lia) ltac:(lia)
           ltac:(simpl; lia)).
Defined.

(** C4 on the ramp with k = 2. *)
Lemma FFT_for_Period_spec_witness :
  exists top w, FFT_for_Period ramp 2 = Ok (map (fun i => 4 / i) top, w) /\
                length top = 2 /\ shape w = [1; 2].
Proof.
  destruct (FFT_for_Period_spec (SR := scalar) Z_leb_total Z_leb_trans ramp
              1 4 1 2 eq_refl
              ltac:(lia) ltac:(lia) ltac:(simpl; lia))
    as (xf & fl & top & w & _ & _ & _ & _ & _ & _ & _ & Lt & _ & _ & _ & E
        & Sw & _).
  exists top, w. repeat split; assumption.
Defined.

(** C8: with freq = "t" the minute table is there. *)
Lemma TemporalEmbedding_minute_iff_witness :
  exists (m : TemporalEmbedding Z) (e : Embedding),
    TemporalEmbedding_init 2 "fixed" "t" temporal_draws = Ok m /\
    minute_embed m = Some e /\
    exists y,
      TemporalEmbedding_forward m (zeros [1; 2; 5]) = Ok y /\
      forall n p o, n < 1 -> p < 2 -> o < 2 ->
        elem y [n; p; o] =
        add (calendar_sum m (zeros [1; 2; 5]) n p o)
            (calendar_lookup e (zeros [1; 2; 5]) 4 n p o).
Proof.
  destruct (TemporalEmbedding_init 2 "fixed" "t" temporal_draws)
    as [m|err] eqn:Ei;
    [|apply (f_equal is_ok) in Ei; vm_compute in Ei; discriminate].
  destruct (proj1 (proj2 (TemporalEmbedding_minute_iff 2 "fixed" "t"
                            temporal_draws m Ei)) eq_refl)
    as (e & Em & _ & _ & H).
  exists m, e. split; [reflexivity|]. split; [exact Em|].
  assert (Hr : forall col size, 1 <= size ->
                 calendar_in_range (zeros [1; 2; 5]) col size = true).
  { intros col size Hs. unfold calendar_in_range. cbn.
    rewrite !(proj2 (Z.ltb_lt 0 (Z.of_nat size))) by lia. reflexivity. }
  destruct (H (zeros [1; 2; 5]) 1 2 5 eq_refl (le_n 5)
              (Hr 4 4 ltac:(lia)) (Hr 3 24 ltac:(lia)) (Hr 2 7 ltac:(lia))
              (Hr 1 32 ltac:(lia)) (Hr 0 13 ltac:(lia)))
    as (y & Ey & _ & Vy).
  exists y. split; assumption.
Defined.

(** C8 as the specification words it fails for the secondly code "s": finer
    than hourly, and no minute embedding; what [forward] returns is the
    four-term sum plus zero. *)
Lemma TemporalEmbedding_secondly_no_minute :
  spec_finer_than_hourly "s" = true /\
  exists m : TemporalEmbedding Z,
    TemporalEmbedding_init 2 "fixed" "s" temporal_draws = Ok m /\
    minute_embed m = None /\
    (forall x, TemporalEmbedding_minute m x = Ok MinuteZero) /\
    exists y,
      TemporalEmbedding_forward m (zeros [1; 2; 5]) = Ok y /\
      forall n p o, n < 1 -> p < 2 -> o < 2 ->
        elem y [n; p; o] = add (calendar_sum m (zeros [1; 2; 5]) n p o) zero.
Proof.
  split; [reflexivity|].
  destruct (TemporalEmbedding_init 2 "fixed" "s" temporal_draws)
    as [m|err] eqn:Ei;
    [|apply (f_equal is_ok) in Ei; vm_compute in Ei; discriminate].
  assert (Em : minute_embed m = None).
  { apply (proj2 (proj2 (TemporalEmbedding_minute_cases 2 "fixed" "s"
                           temporal_draws m Ei))).
    discriminate. }
  exists m. split; [reflexivity|]. split; [exact Em|]. split.
  - intros x. unfold TemporalEmbedding_minute. rewrite Em. reflexivity.
  - assert (Hr : forall col size, 1 <= size ->
                   calendar_in_range (zeros [1; 2; 5]) col size = true).
    { intros col size Hs. unfold calendar_in_range. cbn.
      rewrite !(proj2 (Z.ltb_lt 0 (Z.of_nat size))) by lia. reflexivity. }
    destruct (TemporalEmbedding_forward_elem 2 "fixed" "s" temporal_draws m
                (zeros [1; 2; 5]) 1 2 5 Ei eq_refl ltac:(lia)
                ltac:(intros C; congruence)
                (Hr 3 24 ltac:(lia)) (Hr 2 7 ltac:(lia))
                (Hr 1 32 ltac:(lia)) (Hr 0 13 ltac:(lia)))
      as (y & Ey & _ & Vy).
    rewrite Em in Vy. exists y. split; assumption.
Qed.

(** C2 on the ramp of length 5: the periods 5 and 2 are selected. *)
Lemma TimesBlock_forward_shape_witness :
  FFT_top_list ramp_5 2 = Ok [1; 2] /\
  exists y, TimesBlock_forward (TimesBlock_init 5 1 1 1 2 (block_draws 0))
              ramp_5 = Ok y /\ shape y = [1; 5; 1].
Proof.
  assert (Et : FFT_top_list ramp_5 2 = Ok [1; 2])
    by (vm_compute; reflexivity).
  split; [exact Et|].
  apply (TimesBlock_forward_shape 5 1 1 1 2 (block_draws 0) ramp_5 1 [1; 2]
           eq_refl ltac:(lia) ltac:(lia) ltac:(lia) ltac:(lia) Et).
  repeat constructor; discriminate.
Defined.

(** C2 as stated fails: a block that asks for all three bins of a length-4
    input selects bin 0, the period is 4 // 0 = 0, and the reshape to
    [1, 0, 0, 1] raises. *)
Lemma TimesBlock_forward_dc_bin_raises :
  shape ramp = [1; seq_len block_3_of_3; 1] /\
  is_ok (FFT_for_Period ramp (k block_3_of_3)) = true /\
  FFT_top_list ramp 3 = Ok [1; 2; 0] /\
  TimesBlock_forward block_3_of_3 ramp = Raise RuntimeError.
Proof.
  split; [reflexivity|]. split; [vm_compute; reflexivity|].
  split; vm_compute; reflexivity.
Qed.

(** C1's configuration on a [2, 3, 20] input: the interpolation branch is
    taken and the result has shape [4, 20]. *)
Lemma TimesNet_forward_interpolation_branch_witness :
  exists net ic',
    TimesNet_init true args_16 draws [("meg"%string, 3)] = (Ok net, ic') /\
    exists y h',
      TimesNet_forward batch (mkHeap net [("meg"%string, meg_20)])
        = (Ok y, h') /\
      delta (self_of h') = (-4)%Z /\
      (0 <=? delta (self_of h'))%Z = false /\
      shape y = [4; 20].
Proof.
  eexists _, _. split; [reflexivity|].
  apply (TimesNet_forward_interpolation_branch (common := collaborators) args_16 draws
           [("meg"%string, 3)] _ _ batch meg_20 3 eq_refl eq_refl eq_refl
           eq_refl eq_refl eq_refl eq_refl ltac:(simpl; lia) eq_refl eq_refl
           eq_refl).
  vm_compute. reflexivity.
Defined.

(** C5 on a [1, 1, 5] input and sequence length 6. *)
Lemma TimesNet_forward_restores_length_witness :
  exists net ic',
    TimesNet_init true args_small draws [("meg"%string, 1)] = (Ok net, ic') /\
    exists y h',
      TimesNet_forward batch (mkHeap net [("meg"%string, meg_5)])
        = (Ok y, h') /\
      delta (self_of h') = 1%Z /\
      shape y = [1; 3; 5].
Proof.
  eexists _, _. split; [reflexivity|].
  destruct (TimesNet_forward_restores_length (common := collaborators) args_small draws
              [("meg"%string, 1)] _ _ 1 batch [("meg"%string, meg_5)] meg_5
              meg_5 1 5 eq_refl eq_refl eq_refl eq_refl eq_refl eq_refl
              ltac:(simpl; lia) ltac:(lia) ltac:(simpl; lia)
              ltac:(apply Nat.leb_le; vm_compute; reflexivity)
              ltac:(simpl; lia) ltac:(simpl; lia) ltac:(simpl; lia)
              ltac:(vm_compute; reflexivity))
    as (x & y & h' & _ & _ & _ & _ & _ & Ef & Ed & Sy).
  exists y, h'. split; [exact Ef|]. split; [exact Ed | exact Sy].
Defined.

(** C3 on the two-block network. *)
Lemma TimesNet_forward_last_block_only_witness :
  exists net ic' net1,
    TimesNet_init true args_small draws [("meg"%string, 1)] = (Ok net, ic') /\
    TimesNet_init true (with_depth args_small 1)
      (with_block_draws draws (fun _ => block_draws 1))
      [("meg"%string, 1)] = (Ok net1, ic') /\
    forall inputs,
      fst (TimesNet_forward batch (mkHeap net1 inputs)) =
      fst (TimesNet_forward batch (mkHeap net inputs)).
Proof.
  eexists _, _.
  destruct (TimesNet_forward_last_block_only (common := collaborators) true args_small draws
              [("meg"%string, 1)] _ _ ltac:(simpl; lia) eq_refl)
    as (net1 & E1 & _ & Hf).
  exists net1. split; [reflexivity|]. split; [exact E1|].
  intros inputs. apply (Hf batch inputs).
Defined.

(** C10 on the network with a merger and subject layers. *)
Lemma TimesNet_mutates_caller_dicts_witness :
  exists net ic' meg',
    TimesNet_init true args_hidden draws [("meg"%string, 1)] = (Ok net, ic') /\
    ic' = [("meg"%string, 5)] /\
    preprocessed net batch meg_5 = Ok meg' /\
    shape meg' = [1; 5; 5] /\
    inputs_of (snd (TimesNet_forward batch
                      (mkHeap net [("meg"%string, meg_5)])))
      = [("meg"%string, meg')].
Proof.
  eexists _, _, _. split; [reflexivity|]. split; [reflexivity|].
  split; [reflexivity|]. split; [reflexivity|].
  apply (TimesNet_mutates_caller_dicts (common := collaborators) true
           args_hidden draws [("meg"%string, 1)] _ _ batch
           [("meg"%string, meg_5)] 5 meg_5 _
           (or_introl eq_refl) eq_refl eq_refl eq_refl eq_refl).
Defined.

(** C4 as the specification words it, for every k >= 1, fails beyond the
    number of bins: a sequence of length 4 has 3 bins, and k = 4 raises. *)
Lemma FFT_for_Period_beyond_bins_raises :
  shape ramp = [1; 4; 1] /\ 1 <= 4 /\
  FFT_for_Period ramp 4 = Raise RuntimeError.
Proof.
  split; [reflexivity|]. split; [lia|]. vm_compute. reflexivity.
Qed.

(** C5 as the specification words it, for every "meg" input no longer than
    the sequence length, fails when top_k reaches the number of bins: with
    sequence length 6 and top_k = 4 the block selects bin 0 and the pass
    raises on an input of length 5. *)
Lemma TimesNet_forward_all_bins_raises :
  exists net ic',
    TimesNet_init true args_all_bins draws [("meg"%string, 1)]
      = (Ok net, ic') /\
    shape meg_5 = [1; 1; 5] /\ 5 <= a_sequence_lenth args_all_bins /\
    fst (TimesNet_forward batch (mkHeap net [("meg"%string, meg_5)]))
      = Raise RuntimeError.
Proof.
  eexists _, _. split; [reflexivity|]. split; [reflexivity|].
  split; [simpl; lia|]. vm_compute. reflexivity.
Qed.

(** * The further properties on concrete inputs *)

Lemma crop_or_pad_twice_witness :
  exists net ic',
    TimesNet_init true args_small draws [("meg"%string, 1)] = (Ok net, ic') /\
    exists x,
      fst (crop_or_pad meg_5 net) = Ok x /\
      shape x = [1; 1; 6] /\
      delta (snd (crop_or_pad meg_5 net)) = 1%Z /\
      crop_or_pad x (snd (crop_or_pad meg_5 net)) = (Ok x, set_delta net 0%Z).
Proof.
  eexists _, _. split; [reflexivity|].
  exact (crop_or_pad_twice (common := Example.collaborators) meg_5 _ 1 1 5
           eq_refl).
Defined.

Lemma crop_or_pad_low_rank_witness :
  exists net ic',
    TimesNet_init true args_small draws [("meg"%string, 1)] = (Ok net, ic') /\
    fst (crop_or_pad (mkTensor [2; 7] (noise 1)) net) = Raise IndexError /\
    delta (snd (crop_or_pad (mkTensor [2; 7] (noise 1)) net)) = (-1)%Z.
Proof.
  eexists _, _. split; [reflexivity|].
  match goal with
  | |- fst (crop_or_pad _ ?n) = _ /\ _ =>
      destruct (crop_or_pad_low_rank (common := Example.collaborators)
                  (mkTensor [2; 7] (noise 1)) n [2] 7 eq_refl
                  ltac:(simpl; lia))
        as (Hd & Hr & _)
  end.
  split; [apply Hr; simpl; lia | exact Hd].
Defined.

Lemma TimesNet_forward_depth_zero_witness :
  exists net ic',
    TimesNet_init true (with_depth args_small 0) draws [("meg"%string, 1)]
      = (Ok net, ic') /\
    fst (TimesNet_forward batch (mkHeap net [("meg"%string, meg_5)]))
      = Raise UnboundLocalError.
Proof.
  eexists _, _. split; [reflexivity|].
  apply (TimesNet_forward_depth_zero (common := Example.collaborators)
           (with_depth args_small 0) draws [("meg"%string, 1)] _ _ 1 batch
           [("meg"%string, meg_5)] 5 meg_5 meg_5 1 5 eq_refl eq_refl eq_refl
           eq_refl eq_refl eq_refl eq_refl ltac:(simpl; lia)
           ltac:(apply Nat.leb_le; vm_compute; reflexivity)).
Defined.

(** An entry of length 3 stands before "meg", of length 5: the output has 3
    time steps. *)
Lemma TimesNet_forward_length_of_first_input_witness :
  exists net ic',
    TimesNet_init true args_small draws [("meg"%string, 1)] = (Ok net, ic') /\
    exists y,
      fst (TimesNet_forward batch
             (mkHeap net [("audio"%string, zeros [1; 2; 3]);
                          ("meg"%string, meg_5)])) = Ok y /\
      shape y = [1; 3; 3].
Proof.
  eexists _, _. split; [reflexivity|].
  destruct (TimesNet_forward_length_of_first_input
              (common := Example.collaborators) args_small draws
              [("meg"%string, 1)] _ _ 1 batch
              [("audio"%string, zeros [1; 2; 3]); ("meg"%string, meg_5)] 3
              meg_5 meg_5 1 5 eq_refl eq_refl eq_refl eq_refl eq_refl eq_refl
              ltac:(lia) ltac:(simpl; lia)
              ltac:(apply Nat.leb_le; vm_compute; reflexivity)
              ltac:(simpl; lia) ltac:(simpl; lia) ltac:(simpl; lia)
              ltac:(vm_compute; reflexivity))
    as (H1 & _).
  apply H1. simpl. lia.
Defined.

Lemma FFT_for_Period_ok_iff_witness :
  is_ok (FFT_for_Period ramp 3) = true /\
  FFT_for_Period ramp 4 = Raise RuntimeError.
Proof.
  split.
  - apply (proj1 (FFT_for_Period_ok_iff ramp 1 4 1 3 eq_refl
                    (le_n 1) (le_n 1))).
    simpl. lia.
  - apply (proj2 (FFT_for_Period_ok_iff ramp 1 4 1 4 eq_refl
                    (le_n 1) (le_n 1))).
    destruct (is_ok (FFT_for_Period ramp 4)) eqn:E; [|reflexivity].
    apply (proj1 (FFT_for_Period_ok_iff ramp 1 4 1 4 eq_refl
                    (le_n 1) (le_n 1))) in E.
    simpl in E. lia.
Defined.

Lemma FFT_for_Period_period_bounds_witness :
  FFT_top_list ramp_5 2 = Ok [1; 2] /\
  2 <= np_floordiv 5 2 /\ np_floordiv 5 2 <= 5.
Proof.
  assert (Et : FFT_top_list ramp_5 2 = Ok [1; 2])
    by (vm_compute; reflexivity).
  split; [exact Et|].
  apply (proj1 (FFT_for_Period_period_bounds ramp_5 1 5 1 2 [1; 2] eq_refl
                  Et 2 ltac:(simpl; tauto))).
  discriminate.
Defined.

Lemma FFT_top_list_avoids_dc_witness :
  exists top, FFT_top_list ramp_5 2 = Ok top /\ ~ In 0 top.
Proof.
  assert (Et : FFT_top_list ramp_5 2 = Ok [1; 2])
    by (vm_compute; reflexivity).
  exists [1; 2]. split; [exact Et|].
  destruct (rfft_abs ramp_5) as [xf|] eqn:Exf;
    [|exfalso; unfold FFT_top_list in Et; rewrite Exf in Et; discriminate].
  apply (FFT_top_list_avoids_dc (SR := scalar) Z_leb_total Z_leb_trans
           ramp_5 1 5 1 2 [1; 2] [1; 2] xf eq_refl Exf Et).
  - repeat constructor; simpl; intuition discriminate.
  - simpl. lia.
  - assert (Ex : xf = match rfft_abs ramp_5 with
                     | Ok t => t
                     | Raise _ => xf
                     end) by (rewrite Exf; reflexivity).
    intros j [<- | [<- | []]]; (split; [discriminate|]);
      (split; [simpl; lia|]); rewrite Ex; vm_compute; reflexivity.
Defined.

Lemma Inception_Block_V1_forward_ok_iff_witness :
  is_ok (Inception_Block_V1_forward
           (Inception_Block_V1_init 1 2 3 true (conv_expand (block_draws 0)))
           grid) = true /\
  Inception_Block_V1_forward
    (Inception_Block_V1_init 4 2 3 true (conv_expand (block_draws 0))) grid
  = Raise RuntimeError.
Proof.
  split.
  - apply (proj1 (Inception_Block_V1_forward_ok_iff 1 2 3 true
                    (conv_expand (block_draws 0)) grid 1 1 2 3 eq_refl
                    ltac:(lia) ltac:(lia) ltac:(lia))).
    repeat split; lia.
  - apply (proj2 (Inception_Block_V1_forward_ok_iff 4 2 3 true
                    (conv_expand (block_draws 0)) grid 1 1 2 3 eq_refl
                    ltac:(lia) ltac:(lia) ltac:(lia))).
    match goal with
    | |- is_ok ?r = false => destruct (is_ok r) eqn:E; [|reflexivity]
    end.
    apply (proj1 (Inception_Block_V1_forward_ok_iff 4 2 3 true
                    (conv_expand (block_draws 0)) grid 1 1 2 3 eq_refl
                    ltac:(lia) ltac:(lia) ltac:(lia))) in E.
    lia.
Defined.

Lemma TimesBlock_forward_wrong_length_witness :
  seq_len block_3_of_3 = 4 /\
  TimesBlock_forward block_3_of_3 ramp_5 = Raise RuntimeError.
Proof.
  split; [reflexivity|].
  apply (TimesBlock_forward_wrong_length block_3_of_3 ramp_5 1 5 1 eq_refl
           ltac:(lia) ltac:(lia)).
  discriminate.
Defined.

Lemma TimesBlock_forward_too_many_periods_witness :
  TimesBlock_forward (TimesBlock_init 16 8 8 2 9 (block_draws 0))
    (zeros [2; 16; 8]) = Raise RuntimeError.
Proof.
  apply (TimesBlock_forward_too_many_periods 16 8 8 2 9 (block_draws 0)
           (zeros [2; 16; 8]) 2 eq_refl ltac:(lia) ltac:(lia) ltac:(lia)
           ltac:(lia)).
  simpl. lia.
Defined.

Lemma TimesBlock_padding_next_multiple_witness :
  exists (length : nat) (out : Tensor Z),
    TimesBlock_padding (TimesBlock_init 5 1 1 1 2 (block_draws 0)) ramp_5 2
      = Ok (length, out) /\
    shape out = [1; length; 1] /\ length mod 2 = 0 /\
    5 <= length /\ length < 5 + 2.
Proof.
  destruct (TimesBlock_padding_next_multiple
              (TimesBlock_init 5 1 1 1 2 (block_draws 0)) ramp_5 1 1 2
              eq_refl ltac:(lia))
    as (len & out & E & So & Hm & Hle & Hlt & _).
  exists len, out. repeat split; assumption.
Defined.

Lemma TemporalEmbedding_forward_columns_witness :
  exists m : TemporalEmbedding Z,
    TemporalEmbedding_init 2 "fixed" "t" temporal_draws = Ok m /\
    TemporalEmbedding_forward m (zeros [1; 2; 4]) = Raise IndexError.
Proof.
  eexists. split; [reflexivity|].
  apply (proj2 (TemporalEmbedding_forward_columns _ (zeros [1; 2; 4]) 1 2 4
                  eq_refl)).
  - discriminate.
  - lia.
Defined.

Lemma DataEmbedding_forward_too_long_witness :
  exists m : DataEmbedding Z,
    DataEmbedding_init true 1 2 "fixed" "h" embed_draws = Ok m /\
    DataEmbedding_forward m (zeros [1; 5001; 1]) None = Raise RuntimeError.
Proof.
  eexists. split; [reflexivity|].
  apply (DataEmbedding_forward_too_long 1 2 "fixed" "h" embed_draws _
           (zeros [1; 5001; 1]) 1 5001 eq_refl eq_refl (le_n 1) (le_n 1)).
  apply Nat.ltb_lt. vm_compute. reflexivity.
Defined.

(** d_model = 3 with one "meg" channel, and an empty [in_channels]. *)
Lemma TimesNet_init_plain_witness :
  snd (TimesNet_init true
         (mkTimesNetArgs 3 [] 200 false 64 "input" false false 256 270
            13107%Z 0%Z false 6 2 1 13107%Z 3 2 3 2) draws
         [("meg"%string, 1)]) = [("meg"%string, 1)] /\
  fst (TimesNet_init true
         (mkTimesNetArgs 3 [] 200 false 64 "input" false false 256 270
            13107%Z 0%Z false 6 2 1 13107%Z 3 2 3 2) draws
         [("meg"%string, 1)]) = Raise RuntimeError /\
  fst (TimesNet_init true args_small draws []) = Raise KeyError.
Proof.
  destruct (TimesNet_init_plain (common := Example.collaborators) true
              (mkTimesNetArgs 3 [] 200 false 64 "input" false false 256 270
                 13107%Z 0%Z false 6 2 1 13107%Z 3 2 3 2) draws
              [("meg"%string, 1)] eq_refl eq_refl)
    as (Hs & _ & Hc).
  destruct (TimesNet_init_plain (common := Example.collaborators) true
              args_small draws [] eq_refl eq_refl)
    as (_ & Hk & _).
  split; [exact Hs|]. split; [|exact (Hk eq_refl)].
  apply (proj2 (Hc 1 eq_refl (le_n 1))); [simpl; lia | reflexivity].
Defined.

Lemma TimesNet_init_subject_layers_errors_witness :
  TimesNet_init true
    (mkTimesNetArgs 3 [] 200 true 64 "input" false true 256 2 13107%Z 0%Z
       false 6 2 1 13107%Z 2 2 3 2) draws [("meg"%string, 1)]
  = (Raise KeyError, [("meg"%string, 2)]).
Proof.
  exact (proj1 (proj2 (proj2 (TimesNet_init_subject_layers_errors
                                (common := Example.collaborators) true
                                (mkTimesNetArgs 3 [] 200 true 64 "input" false
                                   true 256 2 13107%Z 0%Z false 6 2 1 13107%Z
                                   2 2 3 2)
                                draws [("meg"%string, 1)] eq_refl)))
           eq_refl eq_refl 2 eq_refl).
Defined.

(** The recording is of subject 7 and the table has two subjects: the
    subject layers raise IndexError, and the inputs hold the merged tensor. *)
Lemma TimesNet_forward_partial_mutation_witness :
  exists net ic' merged,
    TimesNet_init (common := Example_subjects.collaborators) true
      Example_subjects.args draws [("meg"%string, 1)] = (Ok net, ic') /\
    shape merged = [1; 2; 5] /\
    TimesNet_forward (common := Example_subjects.collaborators)
      Example_subjects.batch_7 (mkHeap net [("meg"%string, meg_5)])
    = (Raise IndexError, mkHeap net [("meg"%string, merged)]).
Proof.
  eexists _, _, _. split; [reflexivity|]. split; [|
  match goal with
  | |- TimesNet_forward _ (mkHeap ?n _) = _ =>
      apply (TimesNet_forward_partial_mutation
               (common := Example_subjects.collaborators)
               Example_subjects.batch_7 n [("meg"%string, meg_5)] 5 2 2 meg_5
               _ IndexError eq_refl eq_refl eq_refl eq_refl eq_refl)
  end; vm_compute; reflexivity].
  reflexivity.
Defined.

(** No inputs at all, and inputs without "meg". *)
Lemma TimesNet_forward_missing_meg_witness :
  exists net ic',
    TimesNet_init true args_small draws [("meg"%string, 1)] = (Ok net, ic') /\
    TimesNet_forward batch (mkHeap net [])
      = (Raise StopIteration, mkHeap net []) /\
    TimesNet_forward batch (mkHeap net [("audio"%string, zeros [1; 2; 3])])
      = (Raise KeyError, mkHeap net [("audio"%string, zeros [1; 2; 3])]).
Proof.
  eexists _, _. split; [reflexivity|]. split.
  - match goal with
    | |- TimesNet_forward _ ?h = _ =>
        exact (proj1 (TimesNet_forward_missing_meg
                        (common := Example.collaborators) batch h) eq_refl)
    end.
  - match goal with
    | |- TimesNet_forward _ ?h = _ =>
        exact (proj2 (TimesNet_forward_missing_meg
                        (common := Example.collaborators) batch h)
                 3 eq_refl eq_refl)
    end.
Defined.

Lemma DataEmbedding_init_even_d_model_witness :
  DataEmbedding_init true 1 0 "fixed" "h" embed_draws
    = Raise ZeroDivisionError /\
  DataEmbedding_init true 1 3 "fixed" "h" embed_draws = Raise RuntimeError /\
  is_ok (DataEmbedding_init true 1 2 "fixed" "h" embed_draws) = true.
Proof.
  split; [|split].
  - exact (proj1 (DataEmbedding_init_even_d_model true 1 0 embed_draws
                    (le_n 1)) eq_refl).
  - exact (proj1 (proj2 (DataEmbedding_init_even_d_model true 1 3 embed_draws
                           (le_n 1))) (le_n 3) eq_refl).
  - exact (proj2 (proj2 (DataEmbedding_init_even_d_model true 1 2 embed_draws
                           (le_n 1))) (le_n 2) eq_refl).
Defined.

(** Two of the three bins of a length-5 ramp, and all three bins of a
    length-4 ramp.  On a sequence of zeros every amplitude is equal: asked
    for one period, the backend that takes the earlier index first selects
    bin 0 and the block raises, the one that takes the later index first
    selects bin 3 and the block returns. *)
Lemma TimesBlock_forward_ok_iff_witness :
  is_ok (TimesBlock_forward (TimesBlock_init 5 1 1 1 2 (block_draws 0))
           ramp_5) = true /\
  TimesBlock_forward block_3_of_3 ramp = Raise RuntimeError /\
  TimesBlock_forward (H := scalar)
    (TimesBlock_init (H := scalar) 6 1 1 1 1 (block_draws 0))
    (zeros (H := scalar) [1; 6; 1]) = Raise RuntimeError /\
  is_ok (TimesBlock_forward (H := scalar_last)
           (TimesBlock_init (H := scalar_last) 6 1 1 1 1 (block_draws 0))
           (zeros (H := scalar_last) [1; 6; 1])) = true.
Proof.
  assert (Et : FFT_top_list ramp_5 2 = Ok [1; 2])
    by (vm_compute; reflexivity).
  assert (Et' : FFT_top_list ramp 3 = Ok [1; 2; 0])
    by (vm_compute; reflexivity).
  assert (Ez : FFT_top_list (H := scalar) (zeros (H := scalar) [1; 6; 1]) 1
               = Ok [0]) by (vm_compute; reflexivity).
  assert (Ez' : FFT_top_list (H := scalar_last)
                  (zeros (H := scalar_last) [1; 6; 1]) 1 = Ok [3])
    by (vm_compute; reflexivity).
  split; [|split; [|split]].
  - apply (proj1 (TimesBlock_forward_ok_iff 5 1 1 1 2 (block_draws 0) ramp_5
                    1 eq_refl (le_n 1) (le_n 1) (le_n 1) (le_n 1))).
    split; [lia|]. exists [1; 2]. split; [exact Et|].
    simpl. intuition discriminate.
  - apply (proj2 (TimesBlock_forward_ok_iff 4 1 1 1 3 (block_draws 0) ramp
                    1 eq_refl (le_n 1) (le_n 1) (le_n 1) (le_n 1))).
    match goal with
    | |- is_ok ?r = false => destruct (is_ok r) eqn:E; [|reflexivity]
    end.
    apply (proj1 (TimesBlock_forward_ok_iff 4 1 1 1 3 (block_draws 0) ramp
                    1 eq_refl (le_n 1) (le_n 1) (le_n 1) (le_n 1))) in E.
    destruct E as (_ & top & Etop & H0). exfalso. apply H0.
    assert (top = [1; 2; 0]) as -> by congruence. simpl. tauto.
  - apply (proj2 (TimesBlock_forward_ok_iff (SR := scalar) 6 1 1 1 1
                    (block_draws 0) (zeros (H := scalar) [1; 6; 1]) 1
                    eq_refl (le_n 1) (le_n 1) (le_n 1) (le_n 1))).
    match goal with
    | |- is_ok ?r = false => destruct (is_ok r) eqn:E; [|reflexivity]
    end.
    apply (proj1 (TimesBlock_forward_ok_iff (SR := scalar) 6 1 1 1 1
                    (block_draws 0) (zeros (H := scalar) [1; 6; 1]) 1
                    eq_refl (le_n 1) (le_n 1) (le_n 1) (le_n 1))) in E.
    destruct E as (_ & top & Etop & H0). exfalso. apply H0.
    assert (top = [0]) as -> by congruence. simpl. tauto.
  - apply (proj1 (TimesBlock_forward_ok_iff (SR := scalar_last) 6 1 1 1 1
                    (block_draws 0) (zeros (H := scalar_last) [1; 6; 1]) 1
                    eq_refl (le_n 1) (le_n 1) (le_n 1) (le_n 1))).
    split; [lia|]. exists [3]. split; [exact Ez'|].
    simpl. intuition discriminate.
Defined.

(** A "meg" tensor with two channels for a network built for one. *)
Lemma TimesNet_forward_wrong_channels_witness :
  exists net ic',
    TimesNet_init true args_small draws [("meg"%string, 1)] = (Ok net, ic') /\
    fst (TimesNet_forward batch
           (mkHeap net [("meg"%string, zeros [1; 2; 5])]))
      = Raise RuntimeError /\
    delta (self_of (snd (TimesNet_forward batch
                           (mkHeap net [("meg"%string, zeros [1; 2; 5])]))))
      = 1%Z.
Proof.
  eexists _, _. split; [reflexivity|].
  exact (TimesNet_forward_wrong_channels (common := Example.collaborators)
           args_small draws [("meg"%string, 1)] _ _ 1 batch
           [("meg"%string, zeros [1; 2; 5])] 5 (zeros [1; 2; 5])
           (zeros [1; 2; 5]) 1 2 5 eq_refl eq_refl eq_refl eq_refl eq_refl
           eq_refl ltac:(lia) ltac:(lia) ltac:(lia) ltac:(simpl; lia)).
Defined.

Lemma DataEmbedding_init_freq_witness :
  DataEmbedding_init true 1 2 "timeF" "x" embed_draws = Raise KeyError /\
  is_ok (DataEmbedding_init true 1 2 "timeF" "s" embed_draws) = true /\
  is_ok (DataEmbedding_init true 1 2 "learned" "x" embed_draws) = true.
Proof.
  destruct (DataEmbedding_init_freq true 1 2 "timeF" "x" embed_draws
              (le_n 1) (le_n 2) eq_refl) as (H1 & _).
  destruct (DataEmbedding_init_freq true 1 2 "timeF" "s" embed_draws
              (le_n 1) (le_n 2) eq_refl) as (H2 & _).
  destruct (DataEmbedding_init_freq true 1 2 "learned" "x" embed_draws
              (le_n 1) (le_n 2) eq_refl) as (_ & H3).
  split; [exact (proj1 (H1 eq_refl) eq_refl)|]. split.
  - destruct (proj2 (H2 eq_refl) 6 eq_refl) as (m & E & _).
    cbv zeta in E. rewrite E. reflexivity.
  - destruct (H3 ltac:(discriminate)) as (m & t & E & _).
    cbv zeta in E. rewrite E. reflexivity.
Defined.

(** A ramp of length 5 rolled by two steps. *)
Lemma TokenEmbedding_forward_roll_witness :
  exists y y' : Tensor Z,
    TokenEmbedding_forward (TokenEmbedding_init true 1 2 (noise 7)) ramp_5
      = Ok y /\
    TokenEmbedding_forward (TokenEmbedding_init true 1 2 (noise 7))
      (roll1 2 ramp_5) = Ok y' /\
    forall n p o, elem y' [n; p; o] = elem y [n; (p + 2) mod 5; o].
Proof.
  destruct (TokenEmbedding_forward_roll 1 2 (noise 7) ramp_5 1 5 2 eq_refl
              ltac:(lia)) as (y & y' & Ey & Ey' & _ & _ & V).
  exists y, y'. repeat split; assumption.
Defined.

(** Calendar rows of zeros are in range; an hour of 24 is not. *)
Lemma TemporalEmbedding_forward_in_range_witness :
  exists m : TemporalEmbedding Z,
    TemporalEmbedding_init 2 "fixed" "h" temporal_draws = Ok m /\
    (exists y, TemporalEmbedding_forward m (zeros [1; 2; 4]) = Ok y /\
               shape y = [1; 2; 2]) /\
    TemporalEmbedding_forward m
      (mkTensor [1; 1; 4]
         (fun idx => if nth 2 idx 0 =? 3 then Z.mul 24 scale else 0%Z))
    = Raise IndexError.
Proof.
  eexists. split; [reflexivity|]. split.
  - apply (proj1 (TemporalEmbedding_forward_in_range 2 "fixed" "h"
                    temporal_draws _ (zeros [1; 2; 4]) 1 2 4 eq_refl eq_refl
                    ltac:(simpl; lia))).
    vm_compute. reflexivity.
  - apply (proj2 (TemporalEmbedding_forward_in_range 2 "fixed" "h"
                    temporal_draws _
                    (mkTensor [1; 1; 4]
                       (fun idx => if nth 2 idx 0 =? 3 then Z.mul 24 scale
                                   else 0%Z))
                    1 1 4 eq_refl eq_refl ltac:(simpl; lia))).
    vm_compute. reflexivity.
Defined.

(** Hourly time features: four columns fit, five do not. *)
Lemma DataEmbedding_forward_time_features_witness :
  exists m : DataEmbedding Z,
    DataEmbedding_init true 1 2 "timeF" "h" embed_draws = Ok m /\
    (exists y, DataEmbedding_forward m (zeros [1; 3; 1])
                 (Some (zeros [1; 3; 4])) = Ok y /\
               shape y = [1; 3; 2]) /\
    DataEmbedding_forward m (zeros [1; 3; 1]) (Some (zeros [1; 3; 5]))
    = Raise RuntimeError.
Proof.
  eexists. split; [reflexivity|]. split.
  - apply (proj1 (DataEmbedding_forward_time_features 1 2 "h" embed_draws _
                    (zeros [1; 3; 1]) (zeros [1; 3; 4]) 1 3 4 4 eq_refl
                    eq_refl eq_refl eq_refl (le_n 1) (le_n 1) ltac:(lia)
                    ltac:(apply Nat.leb_le; vm_compute; reflexivity))).
    reflexivity.
  - apply (proj2 (DataEmbedding_forward_time_features 1 2 "h" embed_draws _
                    (zeros [1; 3; 1]) (zeros [1; 3; 5]) 1 3 5 4 eq_refl
                    eq_refl eq_refl eq_refl (le_n 1) (le_n 1) ltac:(lia)
                    ltac:(apply Nat.leb_le; vm_compute; reflexivity))).
    discriminate.
Defined.
